(** * Compulife / QuoteIt API hub: request translation and dispatch

    A shallow embedding of the Express relay of this repository:
    - [src/files/server.js] (hub v7.1): [buildCompulifeParams],
      [proxyPublic], [proxyPrivate], [ghlFetch], the multiplexed [POST /]
      router, [POST /anthropic], [POST /ghl/contacts] and
      [POST /ghl/opportunities];
    - [src/unnamed/part_000] (proxy v1.0 and hub v2.0): [buildQuoteParams],
      [buildHealthParams], [proxyPrivate] and the [POST /] router.

    JavaScript values are modelled as a tree of JSON-like values; objects
    are finite maps from property names to values (property order is not
    modelled).  Exceptions are explicit ([result]); asynchronous handlers
    are finite trees of external events ([prog]): every [await fetch(...)]
    and every call of the built-in [JSON.parse] on a downstream text is an
    event answered by the environment.  [console.log] calls are dropped. *)

From stdpp Require Import gmap strings list fin_maps.
From Stdlib Require Import DecimalString.

Local Open Scope string_scope.
Local Open Scope Z_scope.

#[local] Set Warnings "-register-all".

(** ** Exceptions *)

(** The only part of an exception that the handlers read is [e.message]. *)
Inductive exn :=
| TypeError (message : string)
| SyntaxError (message : string)
| FetchError (message : string).

Definition message (e : exn) : string :=
  match e with
  | TypeError m | SyntaxError m | FetchError m => m
  end.

Inductive result (A : Type) :=
| Ok (a : A)
| Err (e : exn).
Arguments Ok {A} a.
Arguments Err {A} e.

#[export] Instance result_ret : MRet result := fun _ a => Ok a.
#[export] Instance result_bind : MBind result := fun _ _ f m =>
  match m with
  | Ok a => f a
  | Err e => Err e
  end.
#[export] Instance result_fmap : FMap result := fun _ _ f m =>
  match m with
  | Ok a => Ok (f a)
  | Err e => Err e
  end.

(** [for (const x of l) { s = f(s, x) }] where the body may throw. *)
Fixpoint for_of {A S : Type} (l : list A) (f : S -> A -> result S) (s : S)
  : result S :=
  match l with
  | [] => Ok s
  | x :: l' => s' ← f s x; for_of l' f s'
  end.

(** [l.map(f)] where [f] may throw. *)
Fixpoint map_result {A B : Type} (f : A -> result B) (l : list A)
  : result (list B) :=
  match l with
  | [] => Ok []
  | x :: l' => y ← f x; ys ← map_result f l'; Ok (y :: ys)
  end.

(** ** JavaScript numbers

    Numbers are IEEE doubles; the relay never computes with the numbers it
    relays, it only converts them to strings and tests their truthiness.
    They are kept abstract behind this interface. *)
Class JsNumber (num : Type) := {
  Number_toString : num -> string;
  Number_truthy : num -> bool;
  Number_of_Z : Z -> num;
  Number_truthy_of_Z : forall z, Number_truthy (Number_of_Z z) = negb (z =? 0);
}.

(** Integers form a model of the interface (decimal printing). *)
Definition Z_toString (z : Z) : string :=
  NilZero.string_of_int (Z.to_int z).

#[export] Instance Z_JsNumber : JsNumber Z := {|
  Number_toString := Z_toString;
  Number_truthy := fun z => negb (z =? 0);
  Number_of_Z := fun z => z;
  Number_truthy_of_Z := fun z => eq_refl;
|}.

(** ** Values *)

Section Values.
Context {num : Type}.

Inductive value :=
| VUndef
| VNull
| VBool (b : bool)
| VNum (n : num)
| VStr (s : string)
| VArr (l : list value)
| VObj (o : gmap string value).

End Values.
Arguments value : clear implicits.

(** Decimal array-index keys: ["0"], ["1"], ["12"], ... *)
Definition index_key (i : nat) : string :=
  NilZero.string_of_uint (Nat.to_uint i).

Definition index_of_key (k : string) : option nat :=
  match NilZero.uint_of_string k with
  | Some u =>
      let i := Nat.of_uint u in
      if decide (index_key i = k) then Some i else None
  | None => None
  end.

Fixpoint chars (s : string) : list string :=
  match s with
  | EmptyString => []
  | String c s' => String c EmptyString :: chars s'
  end.

Fixpoint indexed {A} (i : nat) (l : list A) : list (string * A) :=
  match l with
  | [] => []
  | x :: l' => (index_key i, x) :: indexed (S i) l'
  end.

Fixpoint join (sep : string) (l : list string) : string :=
  match l with
  | [] => EmptyString
  | [s] => s
  | s :: l' => s ++ sep ++ join sep l'
  end.

Section Semantics.
Context {num : Type} `{!JsNumber num}.
#[local] Abbreviation value := (value num).

Definition is_undefined (v : value) : bool :=
  match v with
  | VUndef => true
  | _ => false
  end.

Definition nullish (v : value) : bool :=
  match v with
  | VUndef | VNull => true
  | _ => false
  end.

(** ToBoolean. *)
Definition truthy (v : value) : bool :=
  match v with
  | VUndef | VNull => false
  | VBool b => b
  | VNum n => Number_truthy n
  | VStr s => if decide (s = EmptyString) then false else true
  | VArr _ | VObj _ => true
  end.

(** [a || b] *)
Definition or_else (a b : value) : value :=
  if truthy a then a else b.

(** [v[k]] on a value that is neither [null] nor [undefined]: the own
    property, [undefined] when there is none.  The property names read by
    the source are never members of a prototype. *)
Definition own (v : value) (k : string) : value :=
  match v with
  | VObj o => default VUndef (o !! k)
  | VArr l =>
      match index_of_key k with
      | Some i => default VUndef (l !! i)
      | None =>
          if decide (k = "length") then VNum (Number_of_Z (Z.of_nat (length l)))
          else VUndef
      end
  | VStr s =>
      match index_of_key k with
      | Some i => default VUndef (VStr <$> (chars s !! i))
      | None =>
          if decide (k = "length")
          then VNum (Number_of_Z (Z.of_nat (String.length s)))
          else VUndef
      end
  | _ => VUndef
  end.

(** [v[k]], [v.k]: reading a property of [null] or [undefined] throws. *)
Definition get (v : value) (k : string) : result value :=
  if nullish v
  then Err (TypeError ("Cannot read properties of " ++
                       (if is_undefined v then "undefined" else "null") ++
                       " (reading '" ++ k ++ "')"))
  else Ok (own v k).

(** [{ ...v }]: the own enumerable properties of [v]. *)
Definition spread (v : value) : gmap string value :=
  match v with
  | VObj o => o
  | VArr l => list_to_map (indexed 0 l)
  | VStr s => list_to_map (indexed 0 (VStr <$> chars s))
  | _ => ∅
  end.

(** [String(v)], also the conversion done by a template literal and by
    [encodeURIComponent].  An object is converted by the inherited
    [toString]; an own property ["toString"] (never callable in a JSON
    value) shadows it and the conversion throws.  Array elements that are
    [null] or [undefined] are printed as the empty string. *)
Fixpoint ToString (v : value) : result string :=
  match v with
  | VUndef => Ok "undefined"
  | VNull => Ok "null"
  | VBool true => Ok "true"
  | VBool false => Ok "false"
  | VNum n => Ok (Number_toString n)
  | VStr s => Ok s
  | VArr l =>
      join "," <$>
        map_result (fun e => if nullish e then Ok EmptyString else ToString e) l
  | VObj o =>
      match o !! "toString" with
      | Some _ => Err (TypeError "Cannot convert object to primitive value")
      | None => Ok "[object Object]"
      end
  end.

End Semantics.

(** ** The field whitelist translator *)

Section Translator.
Context {num : Type} `{!JsNumber num}.
#[local] Abbreviation value := (value num).

(** The loop body shared by every builder:
    [if (body[k] !== undefined) params[k] = String(body[k]);] *)
Definition copy_field (body : value) (params : gmap string string) (k : string)
  : result (gmap string string) :=
  v ← get body k;
  if is_undefined v then Ok params
  else s ← ToString v; Ok (<[k := s]> params).

(** *** [buildCompulifeParams], src/files/server.js *)

Definition fields : list string :=
  [ (* Core quote fields (working format) *)
    "State"; "BirthMonth"; "Birthday"; "BirthYear"; "Sex"; "Smoker"; "Health";
    "NewCategory"; "FaceAmount"; "ModeUsed";
    (* Legacy field names (kept for compatibility) *)
    "Province"; "Birthdate"; "Premium"; "Mode"; "TermPeriod"; "Plan";
    "TableRating"; "InquiryType"; "ResultType"; "NumberOfCompanies";
    "DisplayFlags"; "DropCompanies";
    (* Optional filters *)
    "ZipCode"; "COMPINC"; "PRODDIS"; "CompRating"; "SortOverride1";
    "ErrOnMissingZipCode"; "MaxNumResults"; "LANGUAGE";
    (* Health Analyzer fields *)
    "Alcohol"; "AlcoholYearsSinceTreatment";
    "Asthma"; "AsthmaRegularMedication";
    "BloodPressure"; "BloodPressureMedication"; "BPSystolic"; "BPDiastolic";
    "Cancer"; "CancerType"; "CancerYearsSinceTreatment";
    "Cholesterol"; "CholesterolMedication"; "CholesterolReading";
    "Diabetes"; "DiabetesType"; "DiabetesA1CReading";
    "HeartDisease"; "HeartType"; "HeartYearsSinceTreatment";
    "Depression"; "DepressionYearsSinceTreatment";
    "Drugs"; "DrugsYearsSinceTreatment";
    "EmbeddedAccums"; "EmbeddedAccumColor"; "NoRedX";
    (* Health Analyzer smoking/HW/driving/family *)
    "DoSmokingTobacco"; "DoCigarettes"; "PeriodCigarettes"; "NumCigarettes";
    "DoCigars"; "PeriodCigars"; "NumCigars"; "DoPipe"; "PeriodPipe";
    "DoChewingTobacco"; "PeriodChewingTobacco";
    "DoNicotinePatchesOrGum"; "PeriodNicotinePatchesOrGum";
    "DoHeightWeight"; "Weight"; "Feet"; "Inches";
    "DoBloodPressure"; "Systolic"; "Dystolic";
    "DoCholesterol"; "CholesterolLevel"; "HDLRatio"; "CholesterolMedication";
    "DoDriving"; "HadDriversLicense"; "RecklessConviction"; "DwiConviction";
    "SuspendedConviction"; "MoreThanOneAccident";
    "DoFamily"; "NumDeaths"; "NumContracted";
    "DoSubAbuse" ].

Definition buildCompulifeParams (body : value) : result (gmap string string) :=
  for_of fields (copy_field body) ∅.

(** *** [buildQuoteParams] and [buildHealthParams], src/unnamed/part_000 *)

Definition required : list string :=
  [ "State"; "BirthMonth"; "Birthday"; "BirthYear";
    "Sex"; "Smoker"; "Health"; "NewCategory"; "FaceAmount"; "ModeUsed" ].

Definition optional : list string :=
  [ "ZipCode"; "COMPINC"; "PRODDIS"; "CompRating";
    "SortOverride1"; "ErrOnMissingZipCode"; "MaxNumResults"; "LANGUAGE" ].

(** [if (!params.k) params.k = d;] on a map of strings: [params.k] is
    falsy when the key is missing or holds the empty string. *)
Definition default_param (k d : string) (params : gmap string string)
  : gmap string string :=
  match params !! k with
  | Some s => if decide (s = EmptyString) then <[k := d]> params else params
  | None => <[k := d]> params
  end.

Definition buildQuoteParams (body : value) : result (gmap string string) :=
  params ← for_of required (copy_field body) ∅;
  params ← for_of optional (copy_field body) params;
  let params := default_param "CompRating" "4" params in
  let params := default_param "SortOverride1" "A" params in
  let params := default_param "LANGUAGE" "E" params in
  Ok params.

(** The three defaulting statements as a table. *)
Definition quote_default (k : string) : option string :=
  if decide (k = "CompRating") then Some "4"
  else if decide (k = "SortOverride1") then Some "A"
  else if decide (k = "LANGUAGE") then Some "E"
  else None.

Definition healthFields : list string :=
  [ "DoSmokingTobacco"; "DoCigarettes"; "PeriodCigarettes"; "NumCigarettes";
    "DoCigars"; "PeriodCigars"; "NumCigars";
    "DoPipe"; "PeriodPipe";
    "DoChewingTobacco"; "PeriodChewingTobacco";
    "DoNicotinePatchesOrGum"; "PeriodNicotinePatchesOrGum";
    "DoHeightWeight"; "Weight"; "Feet"; "Inches";
    "DoBloodPressure"; "Systolic"; "Dystolic"; "BloodPressureMedication";
    "DoCholesterol"; "CholesterolLevel"; "HDLRatio";
    "CholesterolMedication"; "PeriodCholesterol";
    "PeriodCholesterolControlDuration";
    "DoDriving"; "HadDriversLicense";
    "MovingViolations0"; "MovingViolations1"; "MovingViolations2";
    "MovingViolations3"; "MovingViolations4";
    "RecklessConviction"; "DwiConviction"; "SuspendedConviction";
    "MoreThanOneAccident";
    "PeriodRecklessConviction"; "PeriodDwiConviction";
    "PeriodSuspendedConviction"; "PeriodMoreThanOneAccident";
    "DoFamily"; "NumDeaths"; "NumContracted";
    "AgeDied00"; "AgeContracted00"; "IsParent00"; "CVD00"; "ColonCancer00";
    "AgeContracted10"; "IsParent10"; "CVD10"; "ColonCancer10";
    "DoSubAbuse"; "Alcohol"; "AlcYearsSinceTreatment";
    "Drugs"; "DrugsYearsSinceTreatment";
    "EmbeddedAccums"; "EmbeddedAccumColor"; "NoRedX" ].

Definition buildHealthParams (body : value) : result (gmap string string) :=
  params ← buildQuoteParams body;
  for_of healthFields (copy_field body) params.

(** *** Vocabulary of the statements about the builders *)

(** Field [k] is defined in the inbound body and [s] is the string
    representation of its value. *)
Definition stringified (body : value) (k s : string) : Prop :=
  own body k <> VUndef /\ ToString (own body k) = Ok s.

(** A builder over the whitelist [fs] threw [e]: the body has no
    properties to read, or a defined whitelisted field has no string
    representation. *)
Definition throws_on (fs : list string) (body : value) (e : exn) : Prop :=
  nullish body = true \/
  exists k, k ∈ fs /\ own body k <> VUndef /\ ToString (own body k) = Err e.

(** The translation contract in the words of the specification: the
    output holds exactly the whitelisted fields that are defined in the
    body, each stringified, plus the defaults of the absent keys. *)
Definition translates_exactly (whitelist : list string)
    (defaults : string -> option string) (body : value)
    (params : gmap string string) : Prop :=
  forall k s,
    params !! k = Some s <->
    (k ∈ whitelist /\ stringified body k s) \/
    (own body k = VUndef /\ defaults k = Some s).

(** The defaulting contract in the words of the specification: a default
    is used if and only if the key is absent from the body; a key that is
    present keeps its string, whatever it is. *)
Definition defaults_iff_absent (body : value) (params : gmap string string)
  : Prop :=
  forall k d, quote_default k = Some d ->
    (own body k = VUndef -> params !! k = Some d) /\
    (forall s, stringified body k s -> params !! k = Some s).

End Translator.

(** ** Handlers as event trees *)

Section Programs.
Context {num : Type} `{!JsNumber num}.
#[local] Abbreviation value := (value num).

(** A URL built by a template literal, kept symbolic where the source
    calls a built-in encoder, so that the embedded data stays readable. *)
Inductive url_part :=
| Lit (s : string)                 (* literal text or an interpolated string *)
| Enc (s : string)                 (* encodeURIComponent(s) *)
| EncJSON (v : value).             (* encodeURIComponent(JSON.stringify(v)) *)

(** [fetch(url, { method, headers, body })]; [rq_body] is the value whose
    [JSON.stringify] is sent. *)
Record fetch_request := {
  rq_method : string;
  rq_url : list url_part;
  rq_headers : list (string * string);
  rq_body : option value;
}.

(** What a handler reads of a downstream response: [r.status] and the
    body text of [await r.text()]. *)
Record fetch_response := {
  status : Z;
  text : string;
}.

(** [r.ok] *)
Definition ok (r : fetch_response) : bool :=
  (200 <=? status r) && (status r <=? 299).

Inductive prog (A : Type) :=
| Ret (a : A)
| Throw (e : exn)
| Fetch (rq : fetch_request) (k : result fetch_response -> prog A)
| Parse (t : string) (k : result value -> prog A).
Arguments Ret {A} a.
Arguments Throw {A} e.
Arguments Fetch {A} rq k.
Arguments Parse {A} t k.

Fixpoint prog_bind {A B} (f : A -> prog B) (p : prog A) : prog B :=
  match p with
  | Ret a => f a
  | Throw e => Throw e
  | Fetch rq k => Fetch rq (fun r => prog_bind f (k r))
  | Parse t k => Parse t (fun r => prog_bind f (k r))
  end.

#[export] Instance prog_mret : MRet prog := fun _ a => Ret a.
#[export] Instance prog_mbind : MBind prog := fun _ _ f p => prog_bind f p.

(** [try { p } catch (e) { h(e) }] *)
Fixpoint try_catch {A} (p : prog A) (h : exn -> prog A) : prog A :=
  match p with
  | Ret a => Ret a
  | Throw e => h e
  | Fetch rq k => Fetch rq (fun r => try_catch (k r) h)
  | Parse t k => Parse t (fun r => try_catch (k r) h)
  end.

(** A synchronous computation inside an async function. *)
Definition lift {A} (r : result A) : prog A :=
  match r with
  | Ok a => Ret a
  | Err e => Throw e
  end.

(** [const r = await fetch(...); const t = await r.text();] *)
Definition fetch (rq : fetch_request) : prog fetch_response :=
  Fetch rq lift.

(** [JSON.parse(t)] *)
Definition JSON_parse (t : string) : prog value :=
  Parse t lift.

(** The environment of one request: what the downstream answers to each
    call and what the built-in parser makes of a text. *)
Record world := {
  fetch_answer : fetch_request -> result fetch_response;
  parse_answer : string -> result value;
}.

(** Running a handler: the outbound calls it made, in order, and how it
    ended. *)
Fixpoint run {A} (w : world) (p : prog A) : list fetch_request * result A :=
  match p with
  | Ret a => ([], Ok a)
  | Throw e => ([], Err e)
  | Fetch rq k =>
      let '(calls, r) := run w (k (fetch_answer w rq)) in (rq :: calls, r)
  | Parse t k => run w (k (parse_answer w t))
  end.

Definition calls {A} (w : world) (p : prog A) : list fetch_request :=
  (run w p).1.

Definition outcome {A} (w : world) (p : prog A) : result A :=
  (run w p).2.

(** The reply sent by [res.status(code).json(payload)]; [res.json(payload)]
    replies with code 200. *)
Record reply := {
  code : Z;
  payload : value;
}.

Definition json (v : value) : reply := {| code := 200; payload := v |}.
Definition status_json (c : Z) (v : value) : reply :=
  {| code := c; payload := v |}.

(** An object literal without duplicate keys. *)
Definition obj (l : list (string * value)) : value := VObj (list_to_map l).

(** [!s] for a string constant of the configuration. *)
Definition unset (s : string) : bool :=
  if decide (s = EmptyString) then true else false.

(** [v === s] for a string [s] *)
Definition is_string (v : value) (s : string) : bool :=
  match v with
  | VStr s' => if decide (s' = s) then true else false
  | _ => false
  end.

(** [(req.body || {}).action], the discriminator of [POST /] *)
Definition action_of (req_body : value) : value :=
  own (or_else req_body (VObj ∅)) "action".

End Programs.

Arguments url_part : clear implicits.
Arguments fetch_request : clear implicits.
Arguments prog : clear implicits.
Arguments world : clear implicits.
Arguments reply : clear implicits.
Arguments Ret {num A} a.
Arguments Throw {num A} e.
Arguments Fetch {num A} rq k.
Arguments Parse {num A} t k.

(** The configuration read from the process environment at start-up. *)
Record config := {
  AUTH_ID : string;
  REMOTE_IP : string;
  GHL_API_KEY : string;
  GHL_LOCATION_ID : string;
  ANTHROPIC_API_KEY : string;
  SUPABASE_SERVICE_KEY : string;
  GOOGLE_CLIENT_ID : string;
  GOOGLE_CLIENT_SECRET : string;
  GOOGLE_REFRESH_TOKEN : string;
  GCP_VISION_API_KEY : string;
}.

(** ** The hub, src/files/server.js (v7.1) *)

Module Hub.
Section Hub.
Context {num : Type} `{!JsNumber num}.
#[local] Abbreviation value := (value num).
Variable cfg : config.

Definition COMPULIFE_BASE : string := "https://www.compulifeapi.com/api".
Definition GHL_BASE : string := "https://services.leadconnectorhq.com".

(** [fetch(url)] *)
Definition GET (url : list (url_part num)) : fetch_request num :=
  {| rq_method := "GET"; rq_url := url; rq_headers := []; rq_body := None |}.

(** [try { return JSON.parse(t); } catch { return { raw: t, status: r.status }; }] *)
Definition parse_or_raw (r : fetch_response) : prog num value :=
  Parse (text r) (fun p =>
    match p with
    | Ok v => Ret v
    | Err _ => Ret (obj [("raw", VStr (text r));
                         ("status", VNum (Number_of_Z (status r)))])
    end).

Definition proxyPublic (path : list (url_part num)) : prog num value :=
  r ← fetch (GET (Lit COMPULIFE_BASE :: path));
  parse_or_raw r.

(** [{ COMPULIFEAUTHORIZATIONID: AUTH_ID, REMOTE_IP, ...params }]: the
    spread comes last, so a property of [params] would win. *)
Definition private_payload (params : gmap string value) : gmap string value :=
  params ∪ <["COMPULIFEAUTHORIZATIONID" := VStr (AUTH_ID cfg)]>
             (<["REMOTE_IP" := VStr (REMOTE_IP cfg)]> ∅).

Definition private_request (path : string) (params : gmap string value)
  : fetch_request num :=
  GET [Lit COMPULIFE_BASE; Lit path; Lit "/?COMPULIFE=";
       EncJSON (VObj (private_payload params))].

Definition proxyPrivate (path : string) (params : gmap string value)
  : prog num value :=
  r ← fetch (private_request path params);
  parse_or_raw r.

(** [catch (e) { res.status(500).json({ error: true, message: e.message }); }] *)
Definition report (e : exn) : prog num (reply num) :=
  Ret (status_json 500 (obj [("error", VBool true);
                             ("message", VStr (message e))])).

Definition ping_payload (now : string) : value :=
  obj [("status", VStr "ok"); ("service", VStr "compulife-proxy");
       ("timestamp", VStr now)].

(** The cases of the [switch] of [POST /]. *)
Definition actions : list string :=
  ["ping"; "get-categories"; "get-companies"; "get-products";
   "quote-sidebyside"; "quote-compare"].

(** [default: return res.status(400).json({ error: `Unknown action: ${action}` });] *)
Definition unknown_action (action : value) : prog num (reply num) :=
  s ← lift (ToString action);
  Ret (status_json 400 (obj [("error", VStr ("Unknown action: " ++ s))])).

(** [app.post("/", ...)]; [now] is the reading of
    [new Date().toISOString()]. *)
Definition post_root (now : string) (req_body : value) : prog num (reply num) :=
  try_catch
    (a ← lift (get (or_else req_body (VObj ∅)) "action");
     let action := or_else a (VStr "ping") in
     if is_string action "ping" then
       Ret (json (ping_payload now))
     else if is_string action "get-categories" then
       v ← proxyPublic [Lit "/CategoryList"];
       Ret (json v)
     else if is_string action "get-companies" then
       c ← lift (get req_body "category");
       s ← lift (ToString (or_else c (VStr "Life")));
       v ← proxyPublic [Lit "/CompanyList/"; Enc s];
       Ret (json v)
     else if is_string action "get-products" then
       c ← lift (get req_body "company");
       if negb (truthy c) then
         Ret (status_json 400 (obj [("error", VStr "company required")]))
       else
         s ← lift (ToString c);
         v ← proxyPublic [Lit "/ProductList/"; Enc s];
         Ret (json v)
     else if is_string action "quote-sidebyside"
             || is_string action "quote-compare" then
       params ← lift (buildCompulifeParams req_body);
       v ← proxyPrivate "/sidebyside" (VStr <$> params);
       Ret (json v)
     else unknown_action action)
    report.

(** *** The CRM helper and the two routes that stamp the location *)

(** The [opts] of [ghlFetch]: the body is attached only to a [POST] or
    [PUT] with a truthy body. *)
Definition ghl_request (method : string) (path : list (url_part num))
    (body : value) : fetch_request num :=
  {| rq_method := method;
     rq_url := Lit GHL_BASE :: path;
     rq_headers := [("Authorization", "Bearer " ++ GHL_API_KEY cfg);
                    ("Content-Type", "application/json");
                    ("Version", "2021-07-28")];
     rq_body :=
       if truthy body
          && (bool_decide (method = "POST") || bool_decide (method = "PUT"))
       then Some body else None |}.

Definition ghlFetch (method : string) (path : list (url_part num)) (body : value)
  : prog num value :=
  r ← fetch (ghl_request method path body);
  data ← Parse (text r) (fun p =>
            Ret (match p with
                 | Ok v => v
                 | Err _ => obj [("raw", VStr (text r))]
                 end));
  if negb (ok r) then
    m ← lift (get data "message");
    msg ← (if truthy m then Ret m
           else m' ← lift (get data "msg");
                Ret (or_else m' (VStr (String.substring 0 200 (text r)))));
    Ret (obj [("error", VBool true);
              ("status", VNum (Number_of_Z (status r)));
              ("message", msg);
              ("data", data)])
  else Ret data.

(** [{ ...req.body, locationId: GHL_LOCATION_ID }] *)
Definition with_location (req_body : value) : value :=
  VObj (<["locationId" := VStr (GHL_LOCATION_ID cfg)]> (spread req_body)).

Definition post_ghl_contacts (req_body : value) : prog num (reply num) :=
  try_catch
    (v ← ghlFetch "POST" [Lit "/contacts/"] (with_location req_body);
     Ret (json v))
    report.

Definition post_ghl_opportunities (req_body : value) : prog num (reply num) :=
  try_catch
    (v ← ghlFetch "POST" [Lit "/opportunities/"] (with_location req_body);
     Ret (json v))
    report.

(** *** [POST /anthropic] *)

Definition anthropic_request (body : value) : fetch_request num :=
  {| rq_method := "POST";
     rq_url := [Lit "https://api.anthropic.com/v1/messages"];
     rq_headers := [("x-api-key", ANTHROPIC_API_KEY cfg);
                    ("anthropic-version", "2023-06-01");
                    ("Content-Type", "application/json")];
     rq_body := Some body |}.

Definition image_message (image media_type prompt : value) : value :=
  obj [("model", VStr "claude-sonnet-4-20250514");
       ("max_tokens", VNum (Number_of_Z 4096));
       ("messages",
        VArr [obj [("role", VStr "user");
                   ("content",
                    VArr [obj [("type", VStr "image");
                               ("source",
                                obj [("type", VStr "base64");
                                     ("media_type",
                                      or_else media_type (VStr "image/png"));
                                     ("data", image)])];
                          obj [("type", VStr "text");
                               ("text",
                                or_else prompt
                                  (VStr "Extract all text from this lead card. Return JSON."))]])]])].

Definition post_anthropic (req_body : value) : prog num (reply num) :=
  try_catch
    (if unset (ANTHROPIC_API_KEY cfg) then
       Ret (status_json 500
              (obj [("error", VStr "ANTHROPIC_API_KEY not configured")]))
     else
       model ← lift (get req_body "model");
       isPassthrough ← (if truthy model then lift (get req_body "messages")
                        else Ret model);
       let send (body : value) : prog num (reply num) :=
         r ← fetch (anthropic_request body);
         v ← JSON_parse (text r);
         Ret (json v) in
       if truthy isPassthrough then send req_body
       else
         image ← lift (get req_body "image");
         media_type ← lift (get req_body "media_type");
         prompt ← lift (get req_body "prompt");
         if negb (truthy image) then
           Ret (status_json 400 (obj [("error", VStr "image (base64) required")]))
         else send (image_message image media_type prompt))
    (fun e => Ret (status_json 500 (obj [("error", VBool true);
                                         ("message", VStr (message e))]))).

(** *** The credential guards of the upload, OCR and storage routes

    Each of these handlers opens its [try] block with a guard on its
    credential.  The rest of the block (the upload, OCR or signing calls)
    is a parameter here: what is stated about the guard holds whatever
    follows it. *)

Definition not_configured (m : string) : reply num :=
  status_json 500 (obj [("error", VBool true); ("message", VStr m)]).

Definition post_drive_upload (rest : prog num (reply num)) : prog num (reply num) :=
  try_catch
    (if unset (GOOGLE_CLIENT_ID cfg) || unset (GOOGLE_CLIENT_SECRET cfg)
        || unset (GOOGLE_REFRESH_TOKEN cfg)
     then Ret (not_configured "Google Drive not configured")
     else rest)
    report.

Definition post_vision_ocr (rest : prog num (reply num)) : prog num (reply num) :=
  try_catch
    (if unset (GCP_VISION_API_KEY cfg)
     then Ret (not_configured "GCP_VISION_API_KEY not configured")
     else rest)
    report.

Definition post_supabase_upload (rest : prog num (reply num)) : prog num (reply num) :=
  try_catch
    (if unset (SUPABASE_SERVICE_KEY cfg)
     then Ret (not_configured "SUPABASE_SERVICE_KEY not configured")
     else rest)
    report.

Definition get_supabase_signed_url (rest : prog num (reply num)) : prog num (reply num) :=
  try_catch
    (if unset (SUPABASE_SERVICE_KEY cfg)
     then Ret (not_configured "SUPABASE_SERVICE_KEY not configured")
     else rest)
    report.

End Hub.
End Hub.

(** ** The first relay, src/unnamed/part_000 (v1.0) *)

Module Proxy.
Section Proxy.
Context {num : Type} `{!JsNumber num}.
#[local] Abbreviation value := (value num).
Variable cfg : config.

Definition API_BASE : string := "https://www.compulifeapi.com/api".

Definition GET (url : list (url_part num)) : fetch_request num :=
  {| rq_method := "GET"; rq_url := url; rq_headers := []; rq_body := None |}.

Definition parse_or_raw (r : fetch_response) : prog num value :=
  Parse (text r) (fun p =>
    match p with
    | Ok v => Ret v
    | Err _ => Ret (obj [("raw", VStr (text r));
                         ("status", VNum (Number_of_Z (status r)))])
    end).

Definition proxyPublic (path : list (url_part num)) : prog num value :=
  r ← fetch (GET (Lit API_BASE :: path));
  parse_or_raw r.

(** [{ COMPULIFEAUTHORIZATIONID: AUTH_ID, ...params }] *)
Definition private_payload (params : gmap string value) : gmap string value :=
  params ∪ <["COMPULIFEAUTHORIZATIONID" := VStr (AUTH_ID cfg)]> ∅.

(** The hub v2.0 of the same file adds [REMOTE_IP: REMOTE_IP] before the
    spread. *)
Definition private_payload_v2 (params : gmap string value) : gmap string value :=
  params ∪ <["COMPULIFEAUTHORIZATIONID" := VStr (AUTH_ID cfg)]>
             (<["REMOTE_IP" := VStr (REMOTE_IP cfg)]> ∅).

Definition proxyPrivate (path : string) (params : gmap string value)
  : prog num value :=
  r ← fetch (GET [Lit API_BASE; Lit path; Lit "/?COMPULIFE=";
                  EncJSON (VObj (private_payload params))]);
  parse_or_raw r.

Definition available : list string :=
  ["ping";
   "get-states"; "get-provinces"; "get-logos"; "get-companies";
   "get-categories"; "get-company-products";
   "quote-compare"; "quote-sidebyside"; "quote-health"].

Definition ping_payload (now : string) : value :=
  obj [("status", VStr "ok"); ("service", VStr "compulife-proxy");
       ("timestamp", VStr now);
       ("auth_configured", VBool (negb (unset (AUTH_ID cfg))))].

Definition unknown_action (action : value) : reply num :=
  status_json 400 (obj [("error", VStr "Unknown action");
                        ("action", action);
                        ("available", VArr (VStr <$> available))]).

Definition post_root (now : string) (req_body : value) : prog num (reply num) :=
  try_catch
    (let body := or_else req_body (VObj ∅) in
     a ← lift (get body "action");
     let action := or_else a (VStr "ping") in
     if is_string action "ping" then
       Ret (json (ping_payload now))
     else if is_string action "get-states" then
       v ← proxyPublic [Lit "/StateList"];
       Ret (json v)
     else if is_string action "get-provinces" then
       v ← proxyPublic [Lit "/ProvinceList"];
       Ret (json v)
     else if is_string action "get-logos" then
       sz ← lift (get body "size");
       let size := or_else sz (VStr "small") in
       c ← lift (get body "country");
       let country := or_else c (VStr "us") in
       let base := if is_string country "canada"
                   then "/CompanyLogoListCanada" else "/CompanyLogoList" in
       path ← (if is_string size "default" then Ret [Lit base]
               else s ← lift (ToString size); Ret [Lit base; Lit "/"; Lit s]);
       v ← proxyPublic path;
       Ret (json v)
     else if is_string action "get-companies" then
       c ← lift (get body "country");
       let country := or_else c (VStr "us") in
       let path := if is_string country "canada"
                   then "/CompanyListCanada" else "/CompanyList" in
       v ← proxyPublic [Lit path];
       Ret (json v)
     else if is_string action "get-categories" then
       v ← proxyPrivate "/CategoryList" ∅;
       Ret (json v)
     else if is_string action "get-company-products" then
       c ← lift (get body "COMPINC");
       let params : gmap string value :=
         if truthy c then <["COMPINC" := c]> ∅ else ∅ in
       v ← proxyPrivate "/CompanyProductList" params;
       Ret (json v)
     else if is_string action "quote-compare" then
       params ← lift (buildQuoteParams body);
       v ← proxyPrivate "/request" (VStr <$> params);
       Ret (json v)
     else if is_string action "quote-sidebyside" then
       params ← lift (buildQuoteParams body);
       v ← proxyPrivate "/sidebyside" (VStr <$> params);
       Ret (json v)
     else if is_string action "quote-health" then
       params ← lift (buildHealthParams body);
       v ← proxyPrivate "/request" (VStr <$> params);
       Ret (json v)
     else Ret (unknown_action action))
    (fun err => Ret (status_json 500 (obj [("error", VStr "Internal proxy error");
                                           ("message", VStr (message err))]))).

End Proxy.
End Proxy.

(** ** The health report, src/files/server.js [GET /] *)

Module Health.
Section Health.
Context {num : Type} `{!JsNumber num}.
#[local] Abbreviation value := (value num).
Variable cfg : config.

(** [!!s] for a string constant of the configuration. *)
Definition configured (s : string) : value := VBool (negb (unset s)).

(** [app.get("/", ...)].  The flags are made of the constants of the
    module, read from the environment once, when the process starts
    ([cfg] here); [a && b && c] on strings is truthy when the three are
    not empty. *)
Definition get_root (now : string) : reply num :=
  json (obj [("status", VStr "ok");
             ("service", VStr "quoteit-api-hub");
             ("version", VStr "7.2.0");
             ("timestamp", VStr now);
             ("configured",
              obj [("compulife", configured (AUTH_ID cfg));
                   ("ghl", configured (GHL_API_KEY cfg));
                   ("anthropic", configured (ANTHROPIC_API_KEY cfg));
                   ("supabase", configured (SUPABASE_SERVICE_KEY cfg));
                   ("googleDrive",
                    VBool (negb (unset (GOOGLE_CLIENT_ID cfg))
                           && negb (unset (GOOGLE_CLIENT_SECRET cfg))
                           && negb (unset (GOOGLE_REFRESH_TOKEN cfg))));
                   ("googleVision", configured (GCP_VISION_API_KEY cfg))])]).

End Health.
End Health.

(** ** The CRM routes, src/files/server.js [/ghl/...] *)

(** [s.replace(/[^+\d]/g, '')]: only [+] and the decimal digits stay. *)
Definition dial_char (c : Ascii.ascii) : bool :=
  let n := Ascii.nat_of_ascii c in
  (n =? 43)%nat || ((48 <=? n)%nat && (n <=? 57)%nat).

Fixpoint dial_chars (s : string) : string :=
  match s with
  | EmptyString => EmptyString
  | String c s' => if dial_char c then String c (dial_chars s') else dial_chars s'
  end.

Definition dquote : string := String (Ascii.ascii_of_nat 34) EmptyString.

Module Crm.
Section Crm.
Context {num : Type} `{!JsNumber num}.
#[local] Abbreviation value := (value num).
Variable cfg : config.

(** What the handlers read of a request: [req.body], [req.query] and the
    one path parameter of the route ([req.params.id], ...). *)
Record request := {
  req_body : value;
  req_query : value;
  req_param : string;
}.

(** [try { res.json(await ghlFetch(method, path, body)); } catch (e) {...}] *)
Definition relay (method : string) (path : list (url_part num)) (body : value)
  : prog num (reply num) :=
  v ← Hub.ghlFetch cfg method path body;
  Ret (json v).

Definition guarded (p : prog num (reply num)) : prog num (reply num) :=
  try_catch p Hub.report.

(** [req.query.query || req.query.q || ''] *)
Definition search_term (query : value) : prog num value :=
  a ← lift (get query "query");
  if truthy a then Ret a
  else b ← lift (get query "q"); Ret (or_else b (VStr EmptyString)).

Definition get_contacts_search (rq : request) : prog num (reply num) :=
  guarded
    (q ← search_term (req_query rq);
     s ← lift (ToString q);
     lim ← lift (get (req_query rq) "limit");
     l ← lift (ToString (or_else lim (VNum (Number_of_Z 20))));
     relay "GET" [Lit "/contacts/?locationId="; Lit (GHL_LOCATION_ID cfg);
                  Lit "&query="; Enc s; Lit "&limit="; Lit l] VNull).

Definition get_contact (rq : request) : prog num (reply num) :=
  guarded (relay "GET" [Lit "/contacts/"; Lit (req_param rq)] VNull).

Definition put_contact (rq : request) : prog num (reply num) :=
  guarded (relay "PUT" [Lit "/contacts/"; Lit (req_param rq)] (req_body rq)).

Definition post_contact_tags (rq : request) : prog num (reply num) :=
  guarded (relay "POST" [Lit "/contacts/"; Lit (req_param rq); Lit "/tags"]
             (req_body rq)).

(** [{ body: req.body.body || req.body.note, userId: req.body.userId }] *)
Definition note_of (body : value) : prog num value :=
  b ← lift (get body "body");
  text ← (if truthy b then Ret b else lift (get body "note"));
  u ← lift (get body "userId");
  Ret (obj [("body", text); ("userId", u)]).

Definition post_contact_notes (rq : request) : prog num (reply num) :=
  guarded
    (n ← note_of (req_body rq);
     relay "POST" [Lit "/contacts/"; Lit (req_param rq); Lit "/notes"] n).

Definition post_contact_tasks (rq : request) : prog num (reply num) :=
  guarded (relay "POST" [Lit "/contacts/"; Lit (req_param rq); Lit "/tasks"]
             (req_body rq)).

Definition get_conversations (rq : request) : prog num (reply num) :=
  guarded (relay "GET" [Lit "/conversations/search?locationId=";
                        Lit (GHL_LOCATION_ID cfg);
                        Lit "&contactId="; Lit (req_param rq)] VNull).

Definition get_conversation_messages (rq : request) : prog num (reply num) :=
  guarded (relay "GET" [Lit "/conversations/"; Lit (req_param rq);
                        Lit "/messages"] VNull).

(** [if (req.body.k) payload.k = req.body.k;] *)
Definition copy_truthy (body : value) (payload : gmap string value) (k : string)
  : result (gmap string value) :=
  v ← get body k;
  Ok (if truthy v then <[k := v]> payload else payload).

Definition message_fields : list string :=
  ["subject"; "html"; "emailFrom"; "attachments"].

Definition message_of (body : value) : result (gmap string value) :=
  t ← get body "type";
  c ← get body "contactId";
  m ← get body "message";
  for_of message_fields (copy_truthy body)
    (list_to_map [("type", or_else t (VStr "SMS")); ("contactId", c);
                  ("message", m)]).

Definition post_conversation_messages (rq : request) : prog num (reply num) :=
  guarded
    (payload ← lift (message_of (req_body rq));
     relay "POST" [Lit "/conversations/messages"] (VObj payload)).

Definition get_calendars (rq : request) : prog num (reply num) :=
  guarded (relay "GET" [Lit "/calendars/?locationId=";
                        Lit (GHL_LOCATION_ID cfg)] VNull).

(** [let path = ...; if (req.query.calendarId) path += ...;] and the two
    encoded time bounds. *)
Definition events_path (query : value) : result (list (url_part num)) :=
  let path := [Lit "/calendars/events?locationId="; Lit (GHL_LOCATION_ID cfg)] in
  c ← get query "calendarId";
  path ← (if truthy c then s ← ToString c; Ok (path ++ [Lit "&calendarId="; Lit s])%list
          else Ok path);
  a ← get query "startTime";
  path ← (if truthy a then s ← ToString a; Ok (path ++ [Lit "&startTime="; Enc s])%list
          else Ok path);
  b ← get query "endTime";
  if truthy b then s ← ToString b; Ok (path ++ [Lit "&endTime="; Enc s])%list
  else Ok path.

Definition get_calendar_events (rq : request) : prog num (reply num) :=
  guarded
    (path ← lift (events_path (req_query rq));
     relay "GET" path VNull).

Definition event_of (body : value) : result value :=
  calendarId ← get body "calendarId";
  contactId ← get body "contactId";
  startTime ← get body "startTime";
  endTime ← get body "endTime";
  title ← get body "title";
  appointmentStatus ← get body "appointmentStatus";
  assignedUserId ← get body "assignedUserId";
  closerId ← get body "closerId";
  notes ← get body "notes";
  Ok (obj [("locationId", VStr (GHL_LOCATION_ID cfg));
           ("calendarId", calendarId);
           ("contactId", contactId);
           ("startTime", startTime);
           ("endTime", endTime);
           ("title", or_else title (VStr "Insurance Appointment"));
           ("appointmentStatus", or_else appointmentStatus (VStr "new"));
           ("assignedUserId", or_else assignedUserId closerId);
           ("notes", or_else notes (VStr EmptyString))]).

Definition post_calendar_events (rq : request) : prog num (reply num) :=
  guarded
    (e ← lift (event_of (req_body rq));
     relay "POST" [Lit "/calendars/events"] e).

Definition delete_calendar_event (rq : request) : prog num (reply num) :=
  guarded (relay "DELETE" [Lit "/calendars/events/"; Lit (req_param rq)] VNull).

(** [(req.body.phone || '').replace(/[^+\d]/g, '')]: only a string has
    a [replace] method. *)
Definition tel_digits (phone : value) : result string :=
  match or_else phone (VStr EmptyString) with
  | VStr s => Ok (dial_chars s)
  | _ => Err (TypeError ("(req.body.phone || " ++ dquote ++ dquote ++
                         ").replace is not a function"))
  end.

Definition post_phone_call (rq : request) : prog num (reply num) :=
  guarded
    (contactId ← lift (get (req_body rq) "contactId");
     phone ← lift (get (req_body rq) "phone");
     ghlResult ←
       (if truthy contactId then
          s ← lift (ToString phone);
          Hub.ghlFetch cfg "POST" [Lit "/conversations/messages"]
            (obj [("type", VStr "Call"); ("contactId", contactId);
                  ("message", VStr ("Outbound call initiated to " ++ s))])
        else Ret VNull);
     tel ← lift (tel_digits phone);
     Ret (json (obj [("success", VBool true); ("action", VStr "dial");
                     ("phone", phone); ("contactId", contactId);
                     ("telUri", VStr ("tel:" ++ tel));
                     ("ghlLog", ghlResult)]))).

Definition get_users (rq : request) : prog num (reply num) :=
  guarded (relay "GET" [Lit "/users/?locationId="; Lit (GHL_LOCATION_ID cfg)] VNull).

Definition get_pipelines (rq : request) : prog num (reply num) :=
  guarded (relay "GET" [Lit "/opportunities/pipelines?locationId=";
                        Lit (GHL_LOCATION_ID cfg)] VNull).

Definition put_opportunity (rq : request) : prog num (reply num) :=
  guarded (relay "PUT" [Lit "/opportunities/"; Lit (req_param rq)] (req_body rq)).

(** The routes registered under [/ghl]. *)
Inductive route :=
| PostContacts | GetContactsSearch | GetContact | PutContact
| PostContactTags | PostContactNotes | PostContactTasks
| GetConversations | GetConversationMessages | PostConversationMessages
| GetCalendars | GetCalendarEvents | PostCalendarEvents | DeleteCalendarEvent
| PostPhoneCall | GetUsers | GetPipelines | PostOpportunities | PutOpportunity.

Definition method_of (r : route) : string :=
  match r with
  | PostContacts | PostContactTags | PostContactNotes | PostContactTasks
  | PostConversationMessages | PostCalendarEvents | PostPhoneCall
  | PostOpportunities => "POST"
  | PutContact | PutOpportunity => "PUT"
  | DeleteCalendarEvent => "DELETE"
  | _ => "GET"
  end.

Definition handler (r : route) (rq : request) : prog num (reply num) :=
  match r with
  | PostContacts => Hub.post_ghl_contacts cfg (req_body rq)
  | GetContactsSearch => get_contacts_search rq
  | GetContact => get_contact rq
  | PutContact => put_contact rq
  | PostContactTags => post_contact_tags rq
  | PostContactNotes => post_contact_notes rq
  | PostContactTasks => post_contact_tasks rq
  | GetConversations => get_conversations rq
  | GetConversationMessages => get_conversation_messages rq
  | PostConversationMessages => post_conversation_messages rq
  | GetCalendars => get_calendars rq
  | GetCalendarEvents => get_calendar_events rq
  | PostCalendarEvents => post_calendar_events rq
  | DeleteCalendarEvent => delete_calendar_event rq
  | PostPhoneCall => post_phone_call rq
  | GetUsers => get_users rq
  | GetPipelines => get_pipelines rq
  | PostOpportunities => Hub.post_ghl_opportunities cfg (req_body rq)
  | PutOpportunity => put_opportunity rq
  end.

(** The properties of [req.body] that a route reads; [None] when the
    whole body is forwarded. *)
Definition body_reads (r : route) : option (list string) :=
  match r with
  | PostContacts | PutContact | PostContactTags | PostContactTasks
  | PostOpportunities | PutOpportunity => None
  | PostContactNotes => Some ["body"; "note"; "userId"]
  | PostConversationMessages =>
      Some ["type"; "contactId"; "message";
            "subject"; "html"; "emailFrom"; "attachments"]
  | PostCalendarEvents =>
      Some ["calendarId"; "contactId"; "startTime"; "endTime"; "title";
            "appointmentStatus"; "assignedUserId"; "closerId"; "notes"]
  | PostPhoneCall => Some ["contactId"; "phone"]
  | _ => Some []
  end.

(** The properties of [req.query] that a route reads. *)
Definition query_reads (r : route) : list string :=
  match r with
  | GetContactsSearch => ["query"; "q"; "limit"]
  | GetCalendarEvents => ["calendarId"; "startTime"; "endTime"]
  | _ => []
  end.

End Crm.
End Crm.

(** ** The second hub, src/unnamed/part_000 (v2.0): the pass-through
    routes *)

Module HubV2.
Section HubV2.
Context {num : Type} `{!JsNumber num}.
#[local] Abbreviation value := (value num).
Variable cfg : config.

Definition GHL_BASE : string := "https://rest.gohighlevel.com/v1".

Definition ghlHeaders : list (string * string) :=
  [("Authorization", "Bearer " ++ GHL_API_KEY cfg);
   ("Content-Type", "application/json")].

(** [const data = await response.json(); res.status(response.status).json(data);] *)
Definition forward (rq : fetch_request num) : prog num (reply num) :=
  response ← fetch rq;
  data ← JSON_parse (text response);
  Ret (status_json (status response) data).

(** [catch (err) { res.status(500).json({ error: label, message: err.message }); }] *)
Definition failed (label : string) (err : exn) : prog num (reply num) :=
  Ret (status_json 500 (obj [("error", VStr label);
                             ("message", VStr (message err))])).

Definition anthropic_request (req_body : value) : fetch_request num :=
  {| rq_method := "POST";
     rq_url := [Lit "https://api.anthropic.com/v1/messages"];
     rq_headers := [("Content-Type", "application/json");
                    ("x-api-key", ANTHROPIC_API_KEY cfg);
                    ("anthropic-version", "2023-06-01")];
     rq_body := Some req_body |}.

Definition post_anthropic_messages (req_body : value) : prog num (reply num) :=
  try_catch
    (if unset (ANTHROPIC_API_KEY cfg) then
       Ret (status_json 500
              (obj [("error", VStr "ANTHROPIC_API_KEY not configured")]))
     else forward (anthropic_request req_body))
    (failed "Anthropic proxy error").

Definition contacts_request (req_body : value) : fetch_request num :=
  {| rq_method := "POST";
     rq_url := [Lit GHL_BASE; Lit "/contacts/"];
     rq_headers := ghlHeaders;
     rq_body := Some req_body |}.

Definition post_ghl_contacts (req_body : value) : prog num (reply num) :=
  try_catch (forward (contacts_request req_body)) (failed "GHL contacts error").

(** [req.body.pipelineId || req.query.pipelineId] selects the URL. *)
Definition opportunities_url (req_body req_query : value)
  : result (list (url_part num)) :=
  a ← get req_body "pipelineId";
  pipelineId ← (if truthy a then Ok a else get req_query "pipelineId");
  if truthy pipelineId then
    s ← ToString pipelineId;
    Ok [Lit GHL_BASE; Lit "/pipelines/"; Lit s; Lit "/opportunities/"]
  else Ok [Lit GHL_BASE; Lit "/opportunities/"].

Definition post_opportunities (req_body req_query : value)
  : prog num (reply num) :=
  try_catch
    (url ← lift (opportunities_url req_body req_query);
     forward {| rq_method := "POST"; rq_url := url;
                rq_headers := ghlHeaders; rq_body := Some req_body |})
    (failed "GHL opportunities error").

End HubV2.
End HubV2.

(** ** Concrete inputs used by the examples *)

(** The configuration of a process started without any environment
    variable: every [process.env.X || d] takes its fallback. *)
Definition default_config : config := {|
  AUTH_ID := EmptyString;
  REMOTE_IP := "162.220.232.99";
  GHL_API_KEY := EmptyString;
  GHL_LOCATION_ID := EmptyString;
  ANTHROPIC_API_KEY := EmptyString;
  SUPABASE_SERVICE_KEY := EmptyString;
  GOOGLE_CLIENT_ID := EmptyString;
  GOOGLE_CLIENT_SECRET := EmptyString;
  GOOGLE_REFRESH_TOKEN := EmptyString;
  GCP_VISION_API_KEY := EmptyString;
|}.

Definition sample_config : config := {|
  AUTH_ID := "6c1B02Df8";
  REMOTE_IP := "162.220.232.99";
  GHL_API_KEY := "pit-key";
  GHL_LOCATION_ID := "loc-1";
  ANTHROPIC_API_KEY := "sk-key";
  SUPABASE_SERVICE_KEY := "sb-key";
  GOOGLE_CLIENT_ID := "id";
  GOOGLE_CLIENT_SECRET := "secret";
  GOOGLE_REFRESH_TOKEN := "refresh";
  GCP_VISION_API_KEY := "gcp-key";
|}.

(** The quote request of the README. *)
Definition ten_fields : list (string * string) :=
  [("State", "MS"); ("BirthMonth", "6"); ("Birthday", "15");
   ("BirthYear", "1967"); ("Sex", "M"); ("Smoker", "N"); ("Health", "PP");
   ("NewCategory", "5"); ("FaceAmount", "250000"); ("ModeUsed", "M")].

Definition example_body {num : Type} : value num :=
  obj (("action", VStr "quote-compare") :: (prod_map id VStr <$> ten_fields)).

(** A downstream that answers every call with status 200 and the text
    [[]]; the parser is only ever asked about that text. *)
Definition answering : world Z := {|
  fetch_answer := fun _ => Ok {| status := 200; text := "[]" |};
  parse_answer := fun t =>
    if decide (t = "[]") then Ok (VArr [])
    else Err (SyntaxError "Unexpected token");
|}.

(** A downstream that answers every call with status 502 and an HTML
    page, which is not JSON. *)
Definition bad_gateway : world Z := {|
  fetch_answer := fun _ => Ok {| status := 502; text := "<html>Bad Gateway</html>" |};
  parse_answer := fun t =>
    if decide (t = "[]") then Ok (VArr [])
    else Err (SyntaxError "Unexpected token");
|}.

(** The JSON text [{ message: Invalid email }] of a rejected contact. *)
Definition rejected_text : string :=
  "{" ++ dquote ++ "message" ++ dquote ++ ":"
      ++ dquote ++ "Invalid email" ++ dquote ++ "}".

(** A CRM that rejects every call with status 422 and that text. *)
Definition rejecting : world Z := {|
  fetch_answer := fun _ => Ok {| status := 422; text := rejected_text |};
  parse_answer := fun t =>
    if decide (t = rejected_text)
    then Ok (obj [("message", VStr "Invalid email")])
    else Err (SyntaxError "Unexpected token");
|}.

(** A request as a handler of the CRM routes sees it. *)
Definition sample_request (body query : value Z) (param : string)
  : Crm.request (num := Z) :=
  {| Crm.req_body := body; Crm.req_query := query; Crm.req_param := param |}.

(** * Properties *)

(** ** The copy loop *)

Section TranslatorFacts.
Context {num : Type} `{!JsNumber num}.
#[local] Abbreviation value := (value num).
Implicit Types (body : value) (k : string) (fs : list string).
Implicit Types (p q : gmap string string).

Lemma bind_Ok {A B} (a : A) (f : A -> result B) : (Ok a ≫= f) = f a.
Proof. done. Qed.

Lemma get_own body k : nullish body = false -> get body k = Ok (own body k).
Proof. intros Hn. unfold get. by rewrite Hn. Qed.

(** One round of the loop: it either leaves the map alone (field not
    defined), stores the string of the field, or throws. *)
Lemma copy_field_cases body p k :
  match copy_field body p k with
  | Ok p' =>
      nullish body = false /\
      ((own body k = VUndef /\ p' = p) \/
       (own body k <> VUndef /\
        exists s, ToString (own body k) = Ok s /\ p' = <[k := s]> p))
  | Err e =>
      nullish body = true \/
      (own body k <> VUndef /\ ToString (own body k) = Err e)
  end.
Proof.
  unfold copy_field, get.
  destruct (nullish body) eqn:Hn; simpl; [by left|].
  generalize (ToString (own body k)); intros r.
  destruct (own body k) eqn:Ho; simpl.
  { split; [done|]. by left. }
  all: destruct r as [s1|e1]; simpl;
    [ split; [done|]; right; split; [done|]; eauto
    | right; done ].
Qed.

Lemma for_of_copy_Ok fs body p p' :
  for_of fs (copy_field body) p = Ok p' ->
  forall k s,
    p' !! k = Some s <->
    (k ∈ fs /\ own body k <> VUndef /\ ToString (own body k) = Ok s) \/
    ((k ∉ fs \/ own body k = VUndef) /\ p !! k = Some s).
Proof.
  revert p. induction fs as [|f fs IH]; intros p Hrun k s; simpl in Hrun.
  - injection Hrun as <-. split.
    + intros Hk. right. split; [left; apply not_elem_of_nil | done].
    + intros [[Hk _]|[_ Hk]]; [by apply elem_of_nil in Hk | done].
  - pose proof (copy_field_cases body p f) as Hf.
    destruct (copy_field body p f) as [p1|e]; simpl in Hrun; [|done].
    destruct Hf as [_ Hf]. rewrite (IH _ Hrun k s). clear IH Hrun.
    rewrite not_elem_of_cons, elem_of_cons.
    destruct Hf as [[Hu ->]|(Hd & s1 & Hs1 & ->)].
    + split.
      * intros [(Hin & Hne & Hs)|[[Hnin|Hund] Hp]].
        -- left. eauto.
        -- destruct (decide (k = f)) as [->|Hkf].
           ++ right. split; [by right | done].
           ++ right. split; [left; done | done].
        -- right. split; [by right | done].
      * intros [([->|Hin] & Hne & Hs)|[[[Hkf Hnin]|Hund] Hp]].
        -- done.
        -- left. eauto.
        -- right. split; [by left | done].
        -- right. split; [by right | done].
    + split.
      * intros [(Hin & Hne & Hs)|[[Hnin|Hund] Hp]].
        -- left. eauto.
        -- destruct (decide (k = f)) as [->|Hkf].
           ++ rewrite lookup_insert_eq in Hp. injection Hp as <-.
              left. eauto.
           ++ rewrite lookup_insert_ne in Hp by done.
              right. split; [left; done | done].
        -- destruct (decide (k = f)) as [->|Hkf]; [done|].
           rewrite lookup_insert_ne in Hp by done.
           right. split; [by right | done].
      * intros [([->|Hin] & Hne & Hs)|[[[Hkf Hnin]|Hund] Hp]].
        -- destruct (decide (f ∈ fs)) as [Hin|Hnin]; [left; eauto|].
           right. split; [by left|]. rewrite lookup_insert_eq. congruence.
        -- left. eauto.
        -- right. split; [by left|]. by rewrite lookup_insert_ne.
        -- destruct (decide (k = f)) as [->|Hkf]; [done|].
           right. split; [by right|]. by rewrite lookup_insert_ne.
Qed.

Lemma for_of_copy_Err fs body p e :
  for_of fs (copy_field body) p = Err e ->
  nullish body = true \/
  exists k, k ∈ fs /\ own body k <> VUndef /\ ToString (own body k) = Err e.
Proof.
  revert p. induction fs as [|f fs IH]; intros p Hrun; simpl in Hrun; [done|].
  pose proof (copy_field_cases body p f) as Hf.
  destruct (copy_field body p f) as [p1|e1]; simpl in Hrun.
  - destruct (IH _ Hrun) as [Hn|(k & Hin & Hk)]; [by left|].
    right. exists k. split; [by apply elem_of_cons; right | done].
  - injection Hrun as ->. destruct Hf as [Hn|Hf]; [by left|].
    right. exists f. split; [by apply elem_of_cons; left | done].
Qed.

End TranslatorFacts.

Section BuilderFacts.
Context {num : Type} `{!JsNumber num}.
#[local] Abbreviation value := (value num).
Implicit Types (body : value) (k : string) (fs : list string).
Implicit Types (p q : gmap string string).

Lemma for_of_app {A S} (l1 l2 : list A) (f : S -> A -> result S) (s : S) :
  for_of (l1 ++ l2) f s = (s' ← for_of l1 f s; for_of l2 f s').
Proof.
  revert s. induction l1 as [|x l1 IH]; intros s; simpl; [done|].
  destruct (f s x); simpl; [apply IH | done].
Qed.

(** When the loop ends normally, every defined field of the list had a
    string representation. *)
Lemma for_of_copy_defined fs body p p' k :
  for_of fs (copy_field body) p = Ok p' ->
  k ∈ fs -> own body k <> VUndef -> exists s, ToString (own body k) = Ok s.
Proof.
  revert p. induction fs as [|f fs IH]; intros p Hrun Hin Hdef.
  - by apply elem_of_nil in Hin.
  - simpl in Hrun. pose proof (copy_field_cases body p f) as Hf.
    destruct (copy_field body p f) as [p1|e]; simpl in Hrun; [|done].
    apply elem_of_cons in Hin as [->|Hin]; [|by eapply IH].
    destruct Hf as [_ [[Hu _]|(_ & s & Hs & _)]]; [done | eauto].
Qed.

Lemma for_of_copy_from_empty fs body p' :
  for_of fs (copy_field body) ∅ = Ok p' ->
  forall k s, p' !! k = Some s <-> k ∈ fs /\ stringified body k s.
Proof.
  intros Hrun k s. rewrite (for_of_copy_Ok _ _ _ _ Hrun k s), lookup_empty.
  unfold stringified. split; [intros [?|[_ ?]]; done | intros ?; by left].
Qed.

Lemma for_of_copy_throws fs body p e :
  for_of fs (copy_field body) p = Err e -> throws_on fs body e.
Proof. apply for_of_copy_Err. Qed.

Lemma default_param_lookup k d p k' :
  default_param k d p !! k' =
    if decide (k' = k) then
      match p !! k with
      | Some s => if decide (s = EmptyString) then Some d else Some s
      | None => Some d
      end
    else p !! k'.
Proof.
  unfold default_param. destruct (decide (k' = k)) as [->|Hne].
  - destruct (p !! k) as [s|] eqn:Hp.
    + destruct (decide (s = EmptyString)); [by rewrite lookup_insert_eq | done].
    + by rewrite lookup_insert_eq.
  - destruct (p !! k) as [s|] eqn:Hp.
    + destruct (decide (s = EmptyString)); [by rewrite lookup_insert_ne | done].
    + by rewrite lookup_insert_ne.
Qed.

(** The three defaulting statements together, read through the table. *)
Lemma defaults_lookup p k :
  default_param "LANGUAGE" "E"
    (default_param "SortOverride1" "A"
       (default_param "CompRating" "4" p)) !! k =
    match quote_default k with
    | Some d =>
        match p !! k with
        | Some s => if decide (s = EmptyString) then Some d else Some s
        | None => Some d
        end
    | None => p !! k
    end.
Proof.
  rewrite !default_param_lookup. unfold quote_default.
  destruct (decide (k = "LANGUAGE")) as [->|?]; [done|].
  destruct (decide (k = "SortOverride1")) as [->|?]; [done|].
  destruct (decide (k = "CompRating")) as [->|?]; done.
Qed.

(** [buildQuoteParams] is one pass over both lists followed by the
    defaults. *)
Lemma buildQuoteParams_unfold body :
  buildQuoteParams body =
    (p ← for_of ((required ++ optional)%list) (copy_field body) ∅;
     Ok (default_param "LANGUAGE" "E"
           (default_param "SortOverride1" "A"
              (default_param "CompRating" "4" p)))).
Proof.
  unfold buildQuoteParams. rewrite for_of_app.
  destruct (for_of required (copy_field body) ∅) as [p1|e]; simpl; [|done].
  by destruct (for_of optional (copy_field body) p1).
Qed.

Lemma quote_default_whitelisted k d :
  quote_default k = Some d -> k ∈ (required ++ optional)%list.
Proof.
  unfold quote_default. repeat case_decide; try done; subst; intros _;
    vm_compute; set_solver.
Qed.

Lemma buildQuoteParams_Ok body q :
  buildQuoteParams body = Ok q ->
  forall k s,
    q !! k = Some s <->
    k ∈ (required ++ optional)%list /\
    ((stringified body k s /\ (s = EmptyString -> quote_default k = None)) \/
     (quote_default k = Some s /\
      (own body k = VUndef \/ stringified body k EmptyString))).
Proof.
  rewrite buildQuoteParams_unfold.
  destruct (for_of ((required ++ optional)%list) (copy_field body) ∅) as [p|e] eqn:Hp;
    simpl; [|done].
  intros [= <-] k s. rewrite defaults_lookup.
  pose proof (for_of_copy_from_empty _ _ _ Hp) as Hk.
  pose proof (for_of_copy_defined _ _ _ _ k Hp) as Hdef.
  destruct (quote_default k) as [d|] eqn:Hd.
  - pose proof (quote_default_whitelisted _ _ Hd) as Hin.
    destruct (p !! k) as [s0|] eqn:Hs0.
    + apply Hk in Hs0 as [_ Hs0]. destruct (decide (s0 = EmptyString)) as [->|Hne].
      * split.
        -- intros [= <-]. split; [done|]. right. split; [done|]. by right.
        -- intros [_ [[[_ Hs] Hn]|[Hs _]]]; [|congruence].
           destruct Hs0 as [_ Hs0]. rewrite Hs0 in Hs. injection Hs as <-.
           by specialize (Hn eq_refl).
      * split.
        -- intros [= <-]. split; [done|]. left. split; [done|]. done.
        -- intros [_ [[[_ Hs] _]|[_ Hs]]].
           ++ destruct Hs0 as [_ Hs0]. congruence.
           ++ destruct Hs0 as [Hdef0 Hs0].
              destruct Hs as [Hu|[_ Hs]]; [done | congruence].
    + split.
      * intros [= <-]. split; [done|]. right. split; [done|]. left.
        destruct (own body k) eqn:Ho; [done|..];
          (destruct Hdef as [s1 Hs1]; [done|done|];
           assert (p !! k = Some s1) as Hc
             by (apply Hk; split; [done|]; split; [by rewrite Ho | by rewrite Ho]);
           congruence).
      * intros [_ [[Hs _]|[Hs _]]]; [|congruence].
        assert (p !! k = Some s) by (apply Hk; done). congruence.
  - rewrite Hk. split.
    + intros [Hin Hs]. split; [done|]. left. done.
    + intros [Hin [[Hs _]|[Hs _]]]; done.
Qed.

Lemma buildQuoteParams_Err body e :
  buildQuoteParams body = Err e -> throws_on ((required ++ optional)%list) body e.
Proof.
  rewrite buildQuoteParams_unfold.
  destruct (for_of ((required ++ optional)%list) (copy_field body) ∅) as [p|e'] eqn:Hp;
    simpl; [done|].
  intros [= <-]. by eapply for_of_copy_throws.
Qed.

End BuilderFacts.

(** Closed membership and other decidable facts, by evaluation. *)
Ltac by_compute := apply (bool_decide_unpack _); vm_compute; exact I.

(** Closed equations, by evaluation of both sides. *)
Ltac by_vm :=
  lazymatch goal with
  | |- @eq ?T _ ?b => vm_cast_no_check (@eq_refl T b)
  end.

(** ** The translator: whitelist, defaults, composition *)

Section TranslatorContracts.
Context {num : Type} `{!JsNumber num}.
#[local] Abbreviation value := (value num).
Implicit Types (body : value) (k : string).
Implicit Types (p q : gmap string string).

(** C1 (amended).  Whatever the inbound body, [buildCompulifeParams]
    either throws (a defined whitelisted field has no string
    representation) or returns exactly the whitelisted fields that are
    defined in the body, each mapped to the string representation of its
    value; [buildQuoteParams] does the same over its own whitelist, except
    that for [CompRating], [SortOverride1] and [LANGUAGE] the default is
    stored when the field is absent or when its string representation is
    empty.  In both cases no key outside the whitelist is in the output. *)
Theorem translation_whitelist body :
  match buildCompulifeParams body with
  | Ok p => translates_exactly fields (fun _ => None) body p
  | Err e => throws_on fields body e
  end /\
  match buildQuoteParams body with
  | Ok q =>
      forall k s,
        q !! k = Some s <->
        k ∈ (required ++ optional)%list /\
        ((stringified body k s /\ (s = EmptyString -> quote_default k = None)) \/
         (quote_default k = Some s /\
          (own body k = VUndef \/ stringified body k EmptyString)))
  | Err e => throws_on (required ++ optional)%list body e
  end.
Proof.
  split.
  - unfold buildCompulifeParams.
    destruct (for_of fields (copy_field body) ∅) as [p|e] eqn:Hp.
    + intros k s. rewrite (for_of_copy_from_empty _ _ _ Hp k s).
      split; [by left | by intros [?|[_ ?]]].
    + by eapply for_of_copy_throws.
  - destruct (buildQuoteParams body) as [q|e] eqn:Hq.
    + by apply buildQuoteParams_Ok.
    + by apply buildQuoteParams_Err.
Qed.

(** C3 (amended).  In the output of [buildQuoteParams], each of the three
    defaulted keys holds its default when the key is absent from the body
    or when the string representation of its value is empty, and holds
    the string representation of the inbound value when that is not
    empty.  [buildCompulifeParams] has no defaults: a key that is absent
    from the body is absent from its output. *)
Theorem quote_defaults body q k d
    (Hq : buildQuoteParams body = Ok q) (Hd : quote_default k = Some d) :
  ((own body k = VUndef \/ stringified body k EmptyString) -> q !! k = Some d) /\
  (forall s, stringified body k s -> s <> EmptyString -> q !! k = Some s) /\
  (forall p, buildCompulifeParams body = Ok p ->
             own body k = VUndef -> p !! k = None).
Proof.
  pose proof (buildQuoteParams_Ok _ _ Hq) as Hk.
  pose proof (quote_default_whitelisted _ _ Hd) as Hin.
  split; [|split].
  - intros Hu. apply Hk. split; [done|]. by right.
  - intros s Hs Hne. apply Hk. split; [done|]. left. by split.
  - intros p Hp Hu.
    destruct (p !! k) as [s|] eqn:Hs; [|done].
    apply (for_of_copy_from_empty _ _ _ Hp) in Hs as [_ [Hdef _]]. done.
Qed.

Lemma whitelists_disjoint k :
  k ∈ (required ++ optional)%list -> k ∉ healthFields.
Proof.
  revert k. apply Forall_forall. by_compute.
Qed.

(** C7 (amended).  [buildHealthParams] runs [buildQuoteParams] first (and
    throws whenever it throws), then runs the copy loop over
    [healthFields] on its result.  None of the health fields is a key of
    the base output, so the loop overwrites nothing: when it ends
    normally the base output is included in the composed output, key by
    key with the same value.  The loop can also throw, on a defined
    health field without string representation: the base translation
    then has an output and the composed one has none, so the inclusion
    does not hold for every inbound body. *)
Theorem health_extends_quote body :
  match buildQuoteParams body with
  | Err e => buildHealthParams body = Err e
  | Ok q =>
      buildHealthParams body = for_of healthFields (copy_field body) q /\
      (forall k, k ∈ healthFields -> q !! k = None) /\
      match buildHealthParams body with
      | Ok h => q ⊆ h
      | Err e => throws_on healthFields body e
      end
  end.
Proof.
  unfold buildHealthParams.
  destruct (buildQuoteParams body) as [q|e] eqn:Hq; [|done].
  rewrite bind_Ok.
  pose proof (buildQuoteParams_Ok _ _ Hq) as Hk.
  assert (forall k, k ∈ healthFields -> q !! k = None) as Hfresh.
  { intros k Hin. destruct (q !! k) as [s|] eqn:Hs; [|done].
    apply Hk in Hs as [Hw _]. by apply whitelists_disjoint in Hw. }
  split; [done|]. split; [done|].
  destruct (for_of healthFields (copy_field body) q) as [h|e] eqn:Hh.
  - apply map_subseteq_spec. intros k s Hs.
    apply (for_of_copy_Ok _ _ _ _ Hh). right. split; [|done]. left.
    intros Hin. apply Hfresh in Hin. congruence.
  - by eapply for_of_copy_throws.
Qed.

End TranslatorContracts.

(** The body [{ CompRating: EmptyString }] refutes the contract as the
    specification words it: the field is whitelisted and defined, its
    string representation is empty, and the output holds ["4"]. *)
Lemma translation_whitelist_counterexample :
  let body : value Z := obj [("CompRating", VStr EmptyString)] in
  let q : gmap string string :=
    list_to_map [("CompRating", "4"); ("SortOverride1", "A"); ("LANGUAGE", "E")] in
  buildQuoteParams body = Ok q /\
  ~ translates_exactly (required ++ optional)%list quote_default body q.
Proof.
  intros body q. split; [by_vm|].
  intros Hc.
  assert (Hl : "CompRating" ∈ (required ++ optional)%list) by by_compute.
  assert (Hs : stringified body "CompRating" EmptyString)
    by (split; vm_compute; [discriminate | reflexivity]).
  assert (Hq : q !! "CompRating" = Some "4") by (by_vm).
  pose proof (proj2 (Hc "CompRating" EmptyString) (or_introl (conj Hl Hs))) as Hn.
  rewrite Hq in Hn. discriminate.
Qed.

(** The body [{ SortOverride1: EmptyString }]: the key is present, and
    the output holds the default ["A"], not the inbound empty string. *)
Lemma quote_defaults_counterexample :
  let body : value Z := obj [("SortOverride1", VStr EmptyString)] in
  let q : gmap string string :=
    list_to_map [("CompRating", "4"); ("SortOverride1", "A"); ("LANGUAGE", "E")] in
  buildQuoteParams body = Ok q /\ ~ defaults_iff_absent body q.
Proof.
  intros body q. split; [by_vm|].
  intros Hc.
  assert (Hs : stringified body "SortOverride1" EmptyString)
    by (split; vm_compute; [discriminate | reflexivity]).
  assert (Hq : q !! "SortOverride1" = Some "A") by (by_vm).
  pose proof (proj2 (Hc "SortOverride1" "A" eq_refl) EmptyString Hs) as Hn.
  rewrite Hq in Hn. discriminate.
Qed.

(** The body [{ action: quote-health, Weight: { toString: 1 } }]: the
    base translation returns its three defaults, the composed one throws
    on [Weight], so no composed output includes the base one; the relay
    replies 500 without a call. *)
Lemma health_extends_quote_counterexample :
  let body : value Z :=
    obj [("action", VStr "quote-health");
         ("Weight", obj [("toString", VNum 1)])] in
  let q : gmap string string :=
    list_to_map [("CompRating", "4"); ("SortOverride1", "A"); ("LANGUAGE", "E")] in
  buildQuoteParams body = Ok q /\
  (buildHealthParams body
     = Err (TypeError "Cannot convert object to primitive value")) /\
  (~ exists h, buildHealthParams body = Ok h /\ q ⊆ h) /\
  run answering (Proxy.post_root sample_config "2026-02-24T00:00:00.000Z" body)
    = ([], Ok {| code := 500;
                 payload :=
                   obj [("error", VStr "Internal proxy error");
                        ("message",
                         VStr "Cannot convert object to primitive value")] |}).
Proof.
  intros body q.
  assert (He : buildHealthParams body
               = Err (TypeError "Cannot convert object to primitive value"))
    by by_vm.
  split; [by_vm|]. split; [exact He|]. split; [|by_vm].
  intros (h & Hh & _). rewrite He in Hh. discriminate.
Qed.

(** The empty body gets the three defaults. *)
Lemma quote_defaults_witness :
  let body : value Z := VObj ∅ in
  let q : gmap string string :=
    list_to_map [("CompRating", "4"); ("SortOverride1", "A"); ("LANGUAGE", "E")] in
  buildQuoteParams body = Ok q /\
  q !! "CompRating" = Some "4" /\
  q !! "SortOverride1" = Some "A" /\
  q !! "LANGUAGE" = Some "E".
Proof.
  intros body q.
  assert (Hq : buildQuoteParams body = Ok q) by (by_vm).
  assert (Hu : forall k, own body k = VUndef) by reflexivity.
  split; [exact Hq|]. split; [|split].
  - exact (proj1 (quote_defaults body q "CompRating" "4" Hq eq_refl)
             (or_introl (Hu _))).
  - exact (proj1 (quote_defaults body q "SortOverride1" "A" Hq eq_refl)
             (or_introl (Hu _))).
  - exact (proj1 (quote_defaults body q "LANGUAGE" "E" Hq eq_refl)
             (or_introl (Hu _))).
Defined.

(** ** Running handlers *)

Section RunFacts.
Context {num : Type} `{!JsNumber num}.
#[local] Abbreviation value := (value num).
Implicit Types (w : world num) (body : value).

Lemma run_bind {A B} w (p : prog num A) (f : A -> prog num B) :
  run w (p ≫= f) =
    match run w p with
    | (c1, Ok a) => let '(c2, r) := run w (f a) in ((c1 ++ c2)%list, r)
    | (c1, Err e) => (c1, Err e)
    end.
Proof.
  change (p ≫= f) with (prog_bind f p).
  induction p as [a|e|rq k IH|t k IH]; simpl.
  - by destruct (run w (f a)).
  - done.
  - rewrite IH. destruct (run w (k (fetch_answer w rq))) as [c1 [a|e]]; [|done].
    by destruct (run w (f a)).
  - apply IH.
Qed.

Lemma run_try_catch {A} w (p : prog num A) (h : exn -> prog num A) :
  run w (try_catch p h) =
    match run w p with
    | (c1, Ok a) => (c1, Ok a)
    | (c1, Err e) => let '(c2, r) := run w (h e) in ((c1 ++ c2)%list, r)
    end.
Proof.
  induction p as [a|e|rq k IH|t k IH]; simpl.
  - done.
  - by destruct (run w (h e)).
  - rewrite IH. destruct (run w (k (fetch_answer w rq))) as [c1 [a|e]]; [done|].
    by destruct (run w (h e)).
  - apply IH.
Qed.

Lemma run_fetch w rq : run w (fetch rq) = ([rq], fetch_answer w rq).
Proof. unfold fetch. simpl. by destruct (fetch_answer w rq). Qed.

Lemma run_lift {A} w (r : result A) : run w (lift r : prog num A) = ([], r).
Proof. by destruct r. Qed.

Lemma lift_bind {A B} (a : A) (f : A -> prog num B) :
  (lift (Ok a) ≫= f) = f a.
Proof. done. Qed.

(** [req.body || {}] can always be read. *)
Lemma body_or_empty_readable body : nullish (or_else body (VObj ∅)) = false.
Proof. unfold or_else. by destruct body as [| |[]| | | |]; simpl; try case_match. Qed.

Lemma get_action body :
  get (or_else body (VObj ∅)) "action" = Ok (action_of body).
Proof. apply get_own, body_or_empty_readable. Qed.

Lemma is_string_eq s : is_string (VStr s : value) s = true.
Proof. simpl. by case_decide. Qed.

Lemma is_string_ne s c : s <> c -> is_string (VStr s : value) c = false.
Proof. intros Hne. simpl. by case_decide. Qed.

Lemma truthy_string s : s <> EmptyString -> truthy (VStr s : value) = true.
Proof. intros Hne. simpl. by case_decide. Qed.

End RunFacts.

(** ** The dispatchers *)

Section DispatchContracts.
Context {num : Type} `{!JsNumber num}.
#[local] Abbreviation value := (value num).
Implicit Types (w : world num) (body : value) (cfg : config).

Lemma run_parse_or_raw w r :
  run w (Hub.parse_or_raw r) =
    ([], Ok (match parse_answer w (text r) with
             | Ok v => v
             | Err _ => obj [("raw", VStr (text r));
                             ("status", VNum (Number_of_Z (status r)))]
             end)).
Proof. unfold Hub.parse_or_raw. simpl. by destruct (parse_answer w (text r)). Qed.

(** C6.  [proxyPublic] and [proxyPrivate] make exactly one call.  When
    the downstream answers with status [status r] and body text [text r],
    they return what [JSON.parse] makes of the text when it parses, and
    otherwise the object [{ raw: text r, status: status r }] with the
    text untouched; an unparseable body never makes them throw.  (They
    throw only when the call itself fails.) *)
Theorem dispatch_parses_or_wraps cfg w path route params :
  let relay (rq : fetch_request num) :=
    ([rq],
     match fetch_answer w rq with
     | Err e => Err e
     | Ok r =>
         Ok (match parse_answer w (text r) with
             | Ok v => v
             | Err _ => obj [("raw", VStr (text r));
                             ("status", VNum (Number_of_Z (status r)))]
             end)
     end) in
  run w (Hub.proxyPublic path) = relay (Hub.GET (Lit Hub.COMPULIFE_BASE :: path)) /\
  run w (Hub.proxyPrivate cfg route params)
    = relay (Hub.private_request cfg route params).
Proof.
  intros relay. unfold relay, Hub.proxyPublic, Hub.proxyPrivate.
  rewrite !run_bind, !run_fetch. split.
  - destruct (fetch_answer w _) as [r|e]; [|done]. by rewrite run_parse_or_raw.
  - destruct (fetch_answer w _) as [r|e]; [|done]. by rewrite run_parse_or_raw.
Qed.

End DispatchContracts.

(** ** The router of [POST /] *)

Section RouterFacts.
Context {num : Type} `{!JsNumber num}.
#[local] Abbreviation value := (value num).
Implicit Types (w : world num) (body : value) (cfg : config).

Lemma or_else_falsy (a b : value) : truthy a = false -> or_else a b = b.
Proof. intros Ha. unfold or_else. by rewrite Ha. Qed.

Lemma or_else_truthy (a b : value) : truthy a = true -> or_else a b = a.
Proof. intros Ha. unfold or_else. by rewrite Ha. Qed.

Lemma falsy_pings cfg now body w :
  truthy (action_of body) = false ->
  run w (Hub.post_root cfg now body) = ([], Ok (json (Hub.ping_payload now))) /\
  run w (Proxy.post_root cfg now body) = ([], Ok (json (Proxy.ping_payload cfg now))).
Proof.
  intros Ha. split.
  - unfold Hub.post_root. rewrite get_action, lift_bind.
    rewrite (or_else_falsy _ _ Ha), is_string_eq. done.
  - unfold Proxy.post_root. cbv zeta. rewrite get_action, lift_bind.
    rewrite (or_else_falsy _ _ Ha), is_string_eq. done.
Qed.

Lemma Hub_unknown cfg now body w s :
  action_of body = VStr s -> s <> EmptyString -> s ∉ Hub.actions ->
  run w (Hub.post_root cfg now body)
    = ([], Ok (status_json 400 (obj [("error", VStr ("Unknown action: " ++ s))]))).
Proof.
  intros Ha Hne Hnin. unfold Hub.actions in Hnin.
  rewrite !not_elem_of_cons in Hnin. destruct_and!.
  unfold Hub.post_root. rewrite get_action, lift_bind, Ha.
  rewrite (or_else_truthy _ _ (truthy_string _ Hne)).
  rewrite !is_string_ne by done. simpl. done.
Qed.

Lemma Proxy_unknown cfg now body w s :
  action_of body = VStr s -> s <> EmptyString -> s ∉ Proxy.available ->
  run w (Proxy.post_root cfg now body)
    = ([], Ok (Proxy.unknown_action (VStr s))).
Proof.
  intros Ha Hne Hnin. unfold Proxy.available in Hnin.
  rewrite !not_elem_of_cons in Hnin. destruct_and!.
  unfold Proxy.post_root. cbv zeta. rewrite get_action, lift_bind, Ha.
  rewrite (or_else_truthy _ _ (truthy_string _ Hne)).
  rewrite !is_string_ne by done. done.
Qed.

Lemma run_proxyPrivate cfg w route params :
  run w (Hub.proxyPrivate cfg route params) =
    ([Hub.private_request cfg route params],
     match fetch_answer w (Hub.private_request cfg route params) with
     | Err e => Err e
     | Ok r =>
         Ok (match parse_answer w (text r) with
             | Ok v => v
             | Err _ => obj [("raw", VStr (text r));
                             ("status", VNum (Number_of_Z (status r)))]
             end)
     end).
Proof.
  unfold Hub.proxyPrivate. rewrite run_bind, run_fetch.
  destruct (fetch_answer w _) as [r|e]; [|done]. by rewrite run_parse_or_raw.
Qed.

Lemma Hub_quote_calls cfg now body w params :
  action_of body = VStr "quote-compare" \/ action_of body = VStr "quote-sidebyside" ->
  buildCompulifeParams body = Ok params ->
  calls w (Hub.post_root cfg now body)
    = [Hub.private_request cfg "/sidebyside" (VStr <$> params)].
Proof.
  intros Ha Hp. unfold calls, Hub.post_root. rewrite get_action, lift_bind.
  assert (or_else (action_of body) (VStr "ping") = action_of body) as ->.
  { apply or_else_truthy. by destruct Ha as [->| ->]. }
  assert ((is_string (action_of body) "quote-sidebyside"
           || is_string (action_of body) "quote-compare") = true) as Hq
    by (by destruct Ha as [->| ->]).
  assert (is_string (action_of body) "ping" = false) as -> by (by destruct Ha as [->| ->]).
  assert (is_string (action_of body) "get-categories" = false) as ->
    by (by destruct Ha as [->| ->]).
  assert (is_string (action_of body) "get-companies" = false) as ->
    by (by destruct Ha as [->| ->]).
  assert (is_string (action_of body) "get-products" = false) as ->
    by (by destruct Ha as [->| ->]).
  rewrite Hq, Hp, lift_bind, run_try_catch, run_bind, run_proxyPrivate.
  by destruct (fetch_answer w _).
Qed.

Lemma credential_names_not_whitelisted :
  ("COMPULIFEAUTHORIZATIONID" ∉ fields) /\ ("REMOTE_IP" ∉ fields).
Proof. split; by_compute. Qed.

Lemma private_payload_credentials cfg body params :
  buildCompulifeParams body = Ok params ->
  Hub.private_payload cfg (VStr <$> params) !! "COMPULIFEAUTHORIZATIONID"
    = Some (VStr (AUTH_ID cfg) : value) /\
  Hub.private_payload cfg (VStr <$> params) !! "REMOTE_IP"
    = Some (VStr (REMOTE_IP cfg) : value).
Proof.
  intros Hp. destruct credential_names_not_whitelisted as [Ha Hr].
  assert (forall k, k ∉ fields -> (VStr <$> params : gmap string value) !! k = None)
    as Hout.
  { intros k Hk. rewrite lookup_fmap.
    destruct (params !! k) as [s|] eqn:Hs; [|done].
    apply (for_of_copy_from_empty _ _ _ Hp) in Hs as [Hin _]. done. }
  unfold Hub.private_payload. split.
  - rewrite lookup_union_r by auto. by rewrite lookup_insert_eq.
  - rewrite lookup_union_r by auto.
    rewrite lookup_insert_ne by done. by rewrite lookup_insert_eq.
Qed.

Lemma calls_bind_ret {A B} w (p : prog num A) (g : A -> B) :
  calls w (p ≫= fun v => Ret (g v)) = calls w p.
Proof.
  unfold calls. rewrite run_bind.
  destruct (run w p) as [c [a|e]]; simpl; [apply app_nil_r | done].
Qed.

Lemma calls_try_catch_ret {A} w (p : prog num A) (h : exn -> A) :
  calls w (try_catch p (fun e => Ret (h e))) = calls w p.
Proof.
  unfold calls. rewrite run_try_catch.
  destruct (run w p) as [c [a|e]]; simpl; [done | apply app_nil_r].
Qed.

Lemma calls_proxyPublic w path :
  calls w (Hub.proxyPublic path) = [Hub.GET (Lit Hub.COMPULIFE_BASE :: path)].
Proof.
  unfold calls, Hub.proxyPublic. rewrite run_bind, run_fetch.
  destruct (fetch_answer w _) as [r|e]; [|done]. by rewrite run_parse_or_raw.
Qed.

Lemma calls_proxyPrivate cfg w route params :
  calls w (Hub.proxyPrivate cfg route params)
    = [Hub.private_request cfg route params].
Proof. unfold calls. by rewrite run_proxyPrivate. Qed.

(** The calls of [POST /]: none, one public call, or the private call of
    a quote action whose translation ended normally. *)
Lemma Hub_post_root_calls cfg now body w :
  calls w (Hub.post_root cfg now body) = [] \/
  (exists path,
     calls w (Hub.post_root cfg now body)
       = [Hub.GET (Lit Hub.COMPULIFE_BASE :: path)] /\
     forall v, EncJSON v ∉ path) \/
  (exists params,
     buildCompulifeParams body = Ok params /\
     calls w (Hub.post_root cfg now body)
       = [Hub.private_request cfg "/sidebyside" (VStr <$> params)]).
Proof.
  unfold Hub.post_root, Hub.report, Hub.unknown_action.
  rewrite calls_try_catch_ret, get_action, lift_bind.
  set (action := or_else (action_of body) (VStr "ping")).
  destruct (is_string action "ping"); [by left|].
  destruct (is_string action "get-categories").
  { right; left. exists [Lit "/CategoryList"].
    rewrite calls_bind_ret, calls_proxyPublic. split; [done|].
    intros v Hin. by apply list_elem_of_singleton in Hin. }
  destruct (is_string action "get-companies").
  { destruct (get body "category") as [c|e]; [|by left].
    rewrite lift_bind.
    destruct (ToString (or_else c (VStr "Life"))) as [s|e]; [|by left].
    rewrite lift_bind. right; left. exists [Lit "/CompanyList/"; Enc s].
    rewrite calls_bind_ret, calls_proxyPublic. split; [done|].
    intros v Hin. apply elem_of_cons in Hin as [?|Hin]; [done|].
    by apply list_elem_of_singleton in Hin. }
  destruct (is_string action "get-products").
  { destruct (get body "company") as [c|e]; [|by left].
    rewrite lift_bind. destruct (negb (truthy c)); [by left|].
    destruct (ToString c) as [s|e]; [|by left].
    rewrite lift_bind. right; left. exists [Lit "/ProductList/"; Enc s].
    rewrite calls_bind_ret, calls_proxyPublic. split; [done|].
    intros v Hin. apply elem_of_cons in Hin as [?|Hin]; [done|].
    by apply list_elem_of_singleton in Hin. }
  destruct (is_string action "quote-sidebyside" || is_string action "quote-compare").
  { destruct (buildCompulifeParams body) as [params|e] eqn:Hp; [|by left].
    rewrite lift_bind. right; right. exists params. split; [done|].
    by rewrite calls_bind_ret, calls_proxyPrivate. }
  destruct (ToString action) as [s|e]; by left.
Qed.

End RouterFacts.

Section RouterContracts.
Context {num : Type} `{!JsNumber num}.
#[local] Abbreviation value := (value num).
Implicit Types (w : world num) (body : value) (cfg : config).

(** C2.  Whatever the inbound body, every outbound call of [POST /]
    that embeds a JSON payload (the private call of [proxyPrivate]) has
    [COMPULIFEAUTHORIZATIONID] and [REMOTE_IP] in the payload, equal to
    the configured [AUTH_ID] and [REMOTE_IP]: neither name is in the
    whitelist, so the spread of the translated fields cannot replace
    them, even when the body has properties of these names. *)
Theorem credentials_fixed cfg now body w rq payload
    (Hrq : rq ∈ calls w (Hub.post_root cfg now body))
    (Hpl : EncJSON (VObj payload) ∈ rq_url rq) :
  payload !! "COMPULIFEAUTHORIZATIONID" = Some (VStr (AUTH_ID cfg) : value) /\
  payload !! "REMOTE_IP" = Some (VStr (REMOTE_IP cfg) : value) /\
  ("COMPULIFEAUTHORIZATIONID" ∉ fields) /\ ("REMOTE_IP" ∉ fields).
Proof.
  destruct credential_names_not_whitelisted as [H3 H4].
  destruct (Hub_post_root_calls cfg now body w)
    as [Hc|[(path & Hc & Hno)|(params & Hp & Hc)]]; rewrite Hc in Hrq.
  - by apply elem_of_nil in Hrq.
  - apply list_elem_of_singleton in Hrq as ->. simpl in Hpl.
    apply elem_of_cons in Hpl as [?|Hpl]; [done|]. by apply Hno in Hpl.
  - apply list_elem_of_singleton in Hrq as ->. simpl in Hpl.
    repeat (apply elem_of_cons in Hpl as [?|Hpl]; [done|]).
    apply list_elem_of_singleton in Hpl. injection Hpl as ->.
    destruct (private_payload_credentials cfg body params Hp) as [H1 H2].
    done.
Qed.

(** C4 (amended).  For the quote request of the README, [POST /] of
    server.js makes one call to [/sidebyside] whose embedded object holds
    exactly the ten supplied fields and the two credential fields, twelve
    keys, with no defaulted field.  The three defaults come only from
    [buildQuoteParams] of part_000; with the payload of its hub v2.0 the
    object has fifteen keys. *)
Theorem example_quote_payload cfg now w :
  calls w (Hub.post_root cfg now example_body)
    = [Hub.private_request cfg "/sidebyside" (VStr <$> list_to_map ten_fields)] /\
  Hub.private_payload cfg (VStr <$> list_to_map ten_fields)
    = list_to_map (("COMPULIFEAUTHORIZATIONID", VStr (AUTH_ID cfg) : value)
                   :: ("REMOTE_IP", VStr (REMOTE_IP cfg))
                   :: (prod_map id (VStr : string -> value) <$> ten_fields)) /\
  size (Hub.private_payload (num := num) cfg (VStr <$> list_to_map ten_fields))
    = 12%nat /\
  exists q,
    buildQuoteParams (example_body : value) = Ok q /\
    Proxy.private_payload_v2 cfg (VStr <$> q)
      = list_to_map (("COMPULIFEAUTHORIZATIONID", VStr (AUTH_ID cfg) : value)
                     :: ("REMOTE_IP", VStr (REMOTE_IP cfg))
                     :: ("CompRating", VStr "4")
                     :: ("SortOverride1", VStr "A")
                     :: ("LANGUAGE", VStr "E")
                     :: (prod_map id (VStr : string -> value) <$> ten_fields)) /\
    size (Proxy.private_payload_v2 (num := num) cfg (VStr <$> q)) = 15%nat.
Proof.
  split; [|split; [|split]].
  - apply Hub_quote_calls; [left|]; by_vm.
  - by_vm.
  - by_vm.
  - exists (list_to_map (("CompRating", "4") :: ("SortOverride1", "A")
                         :: ("LANGUAGE", "E") :: ten_fields)).
    split; [by_vm|]. split; by_vm.
Qed.

(** C5 (amended).  When the action is a non-empty string that is not a
    case of the switch, [POST /] makes no call and replies 400.  In
    server.js the body is [{ error: "Unknown action: <action>" }] and
    lists no valid action; in part_000 it is
    [{ error, action, available }] with the action and the list of the
    valid actions. *)
Theorem unknown_action_rejected cfg now body w s
    (Ha : action_of body = VStr s) (Hne : s <> EmptyString) :
  (s ∉ Hub.actions ->
   run w (Hub.post_root cfg now body)
     = ([], Ok {| code := 400;
                  payload := obj [("error", VStr ("Unknown action: " ++ s))] |})) /\
  (s ∉ Proxy.available ->
   run w (Proxy.post_root cfg now body)
     = ([], Ok {| code := 400;
                  payload := obj [("error", VStr "Unknown action");
                                  ("action", VStr s);
                                  ("available", VArr (VStr <$> Proxy.available))] |})).
Proof.
  split; intros Hnin.
  - by apply Hub_unknown.
  - by apply Proxy_unknown.
Qed.

(** C10.  When [(req.body || {}).action] is falsy, in particular when it
    is [undefined] (absent), [null], the empty string, [false] or [0],
    [POST /] makes no call and replies 200 with the health payload:
    [status], [service] and [timestamp] in server.js, and these with
    [auth_configured] in part_000. *)
Theorem falsy_action_pings cfg now body w
    (Ha : truthy (action_of body) = false) :
  run w (Hub.post_root cfg now body)
    = ([], Ok {| code := 200;
                 payload := obj [("status", VStr "ok");
                                 ("service", VStr "compulife-proxy");
                                 ("timestamp", VStr now)] |}) /\
  run w (Proxy.post_root cfg now body)
    = ([], Ok {| code := 200;
                 payload :=
                   obj [("status", VStr "ok");
                        ("service", VStr "compulife-proxy");
                        ("timestamp", VStr now);
                        ("auth_configured",
                         VBool (negb (unset (AUTH_ID cfg))))] |}) /\
  Forall (fun a : value => truthy a = false)
    [VUndef; VNull; VStr EmptyString; VBool false; VNum (Number_of_Z 0)].
Proof.
  destruct (falsy_pings cfg now body w Ha) as [H1 H2].
  split; [exact H1|]. split; [exact H2|].
  repeat constructor. simpl. by rewrite Number_truthy_of_Z.
Qed.

End RouterContracts.

(** ** The CRM routes and the credential guards *)

Section IntegrationContracts.
Context {num : Type} `{!JsNumber num}.
#[local] Abbreviation value := (value num).
Implicit Types (w : world num) (body : value) (cfg : config).

Lemma calls_ghlFetch cfg w method path body :
  calls w (Hub.ghlFetch cfg method path body)
    = [Hub.ghl_request cfg method path body].
Proof.
  unfold calls, Hub.ghlFetch. rewrite run_bind, run_fetch.
  destruct (fetch_answer w _) as [r|e]; [|done].
  rewrite run_bind. simpl run at 1.
  set (data := match parse_answer w (text r) with
               | Ok v => v
               | Err _ => obj [("raw", VStr (text r))]
               end).
  destruct (negb (ok r)); [|done].
  rewrite run_bind, run_lift.
  destruct (get data "message") as [m|e]; [|done].
  rewrite run_bind.
  destruct (truthy m); [done|].
  rewrite run_bind, run_lift.
  by destruct (get data "msg").
Qed.

Lemma with_location_same cfg (b1 b2 : value) :
  (forall k, k <> "locationId" -> spread b1 !! k = spread b2 !! k) ->
  Hub.with_location cfg b1 = Hub.with_location cfg b2.
Proof.
  intros Hsame. unfold Hub.with_location. f_equal. apply map_eq. intros k.
  destruct (decide (k = "locationId")) as [->|Hne].
  - by rewrite !lookup_insert_eq.
  - rewrite !lookup_insert_ne by done. by apply Hsame.
Qed.

(** C9.  [POST /ghl/contacts] and [POST /ghl/opportunities] make one
    call, whose JSON body is [{ ...req.body, locationId: GHL_LOCATION_ID }]:
    its [locationId] is the configured one, and two inbound bodies that
    differ only in [locationId] give the same outbound body. *)
Theorem location_stamped cfg w (b1 b2 : value)
    (Hsame : forall k, k <> "locationId" -> spread b1 !! k = spread b2 !! k) :
  calls w (Hub.post_ghl_contacts cfg b1)
    = [Hub.ghl_request cfg "POST" [Lit "/contacts/"] (Hub.with_location cfg b1)] /\
  calls w (Hub.post_ghl_opportunities cfg b1)
    = [Hub.ghl_request cfg "POST" [Lit "/opportunities/"]
         (Hub.with_location cfg b1)] /\
  (forall path,
     rq_body (Hub.ghl_request cfg "POST" path (Hub.with_location cfg b1))
       = Some (Hub.with_location cfg b1)) /\
  own (Hub.with_location cfg b1) "locationId" = VStr (GHL_LOCATION_ID cfg) /\
  Hub.with_location cfg b1 = Hub.with_location cfg b2.
Proof.
  split; [|split; [|split; [|split]]].
  - unfold Hub.post_ghl_contacts, Hub.report.
    by rewrite calls_try_catch_ret, calls_bind_ret, calls_ghlFetch.
  - unfold Hub.post_ghl_opportunities, Hub.report.
    by rewrite calls_try_catch_ret, calls_bind_ret, calls_ghlFetch.
  - done.
  - unfold Hub.with_location. simpl. by rewrite lookup_insert_eq.
  - by apply with_location_same.
Qed.

Lemma unset_empty s : s = EmptyString -> unset s = true.
Proof. by intros ->. Qed.

(** C8 (amended).  [POST /anthropic], [POST /drive/upload],
    [POST /vision/ocr], [POST /supabase/upload] and
    [GET /supabase/signed-url] test their credential first: when it is
    the empty string they reply 500 with a message that names the missing
    configuration and make no call, whatever the inbound body and
    whatever the rest of the handler would do. *)
Theorem unconfigured_guarded cfg w body (rest : prog num (reply num)) :
  (ANTHROPIC_API_KEY cfg = EmptyString ->
   run w (Hub.post_anthropic cfg body)
     = ([], Ok {| code := 500;
                  payload := obj [("error",
                                   VStr "ANTHROPIC_API_KEY not configured")] |})) /\
  (GOOGLE_CLIENT_ID cfg = EmptyString \/ GOOGLE_CLIENT_SECRET cfg = EmptyString \/
   GOOGLE_REFRESH_TOKEN cfg = EmptyString ->
   run w (Hub.post_drive_upload cfg rest)
     = ([], Ok {| code := 500;
                  payload := obj [("error", VBool true);
                                  ("message", VStr "Google Drive not configured")] |})) /\
  (GCP_VISION_API_KEY cfg = EmptyString ->
   run w (Hub.post_vision_ocr cfg rest)
     = ([], Ok {| code := 500;
                  payload := obj [("error", VBool true);
                                  ("message",
                                   VStr "GCP_VISION_API_KEY not configured")] |})) /\
  (SUPABASE_SERVICE_KEY cfg = EmptyString ->
   run w (Hub.post_supabase_upload cfg rest)
     = ([], Ok {| code := 500;
                  payload := obj [("error", VBool true);
                                  ("message",
                                   VStr "SUPABASE_SERVICE_KEY not configured")] |}) /\
   run w (Hub.get_supabase_signed_url cfg rest)
     = ([], Ok {| code := 500;
                  payload := obj [("error", VBool true);
                                  ("message",
                                   VStr "SUPABASE_SERVICE_KEY not configured")] |})).
Proof.
  split; [|split; [|split]].
  - intros Hk. unfold Hub.post_anthropic. by rewrite (unset_empty _ Hk).
  - intros Hk. unfold Hub.post_drive_upload.
    destruct Hk as [Hk|[Hk|Hk]]; rewrite (unset_empty _ Hk);
      rewrite ?orb_true_r; done.
  - intros Hk. unfold Hub.post_vision_ocr. by rewrite (unset_empty _ Hk).
  - intros Hk. unfold Hub.post_supabase_upload, Hub.get_supabase_signed_url.
    by rewrite (unset_empty _ Hk).
Qed.

End IntegrationContracts.

(** ** Worked examples *)

Example ToString_array :
  ToString (VArr [VNum 1; VNull; VArr [VStr "a"; VBool true]] : value Z)
    = Ok "1,,a,true".
Proof. by_vm. Qed.

Example ToString_shadowed :
  ToString (obj [("toString", VNum 1)] : value Z)
    = Err (TypeError "Cannot convert object to primitive value").
Proof. by_vm. Qed.

Example own_of_array :
  own (VArr [VStr "x"; VStr "y"] : value Z) "1" = VStr "y" /\
  own (VArr [VStr "x"; VStr "y"] : value Z) "length" = VNum 2 /\
  own (VArr [VStr "x"; VStr "y"] : value Z) "State" = VUndef /\
  own (VArr [VStr "x"; VStr "y"] : value Z) "01" = VUndef.
Proof. repeat (split; [by_vm|]). by_vm. Qed.

(** Values of every type are stringified; a field outside the whitelist
    is dropped. *)
Example translate_mixed :
  buildCompulifeParams
    (obj [("State", VStr "MS"); ("FaceAmount", VNum 250000);
          ("Smoker", VBool false); ("Health", VNull);
          ("ZipCode", VArr [VNum 3; VNum 9]); ("admin", VStr "yes")] : value Z)
    = Ok (list_to_map [("State", "MS"); ("FaceAmount", "250000");
                       ("Smoker", "false"); ("Health", "null");
                       ("ZipCode", "3,9")]).
Proof. by_vm. Qed.

Example translate_throws :
  buildCompulifeParams
    (obj [("State", obj [("toString", VNum 1)])] : value Z)
    = Err (TypeError "Cannot convert object to primitive value").
Proof. by_vm. Qed.

(** A falsy number keeps its string: ["0"] is a truthy string. *)
Example rating_zero_kept :
  buildQuoteParams (obj [("CompRating", VNum 0)] : value Z)
    = Ok (list_to_map [("CompRating", "0"); ("SortOverride1", "A");
                       ("LANGUAGE", "E")]).
Proof. by_vm. Qed.

Example health_over_quote :
  buildHealthParams
    (obj [("State", VStr "MS"); ("Weight", VNum 180);
          ("DoHeightWeight", VStr "Y")] : value Z)
    = Ok (list_to_map [("State", "MS"); ("CompRating", "4");
                       ("SortOverride1", "A"); ("LANGUAGE", "E");
                       ("Weight", "180"); ("DoHeightWeight", "Y")]).
Proof. by_vm. Qed.

(** An HTML error page comes back wrapped, with the downstream status. *)
Example raw_wrapper :
  run bad_gateway (Hub.proxyPublic [Lit "/CategoryList"])
    = ([Hub.GET [Lit Hub.COMPULIFE_BASE; Lit "/CategoryList"]],
       Ok (obj [("raw", VStr "<html>Bad Gateway</html>");
                ("status", VNum 502)])).
Proof. by_vm. Qed.

(** A field without a string representation ends the request with a 500
    and no call. *)
Example translation_error_reported :
  run answering
    (Hub.post_root sample_config "2026-02-24T00:00:00.000Z"
       (obj [("action", VStr "quote-compare");
             ("State", obj [("toString", VNum 1)])]))
    = ([], Ok {| code := 500;
                 payload := obj [("error", VBool true);
                                 ("message",
                                  VStr "Cannot convert object to primitive value")] |}).
Proof. by_vm. Qed.

(** With a key, the simplified form of [POST /anthropic] is expanded into
    one image message and sent. *)
Example anthropic_image_sent :
  calls answering
    (Hub.post_anthropic sample_config (obj [("image", VStr "aGk=")]))
    = [Hub.anthropic_request sample_config
         (Hub.image_message (VStr "aGk=") VUndef VUndef)] /\
  outcome answering
    (Hub.post_anthropic sample_config (obj [("image", VStr "aGk=")]))
    = Ok {| code := 200; payload := VArr [] |}.
Proof. split; by_vm. Qed.

(** The README request through the first relay: [/request], the three
    defaults and one credential field, fourteen keys. *)
Example example_quote_v1 :
  let payload : gmap string (value Z) :=
    list_to_map (("COMPULIFEAUTHORIZATIONID", VStr "6c1B02Df8")
                 :: ("CompRating", VStr "4") :: ("SortOverride1", VStr "A")
                 :: ("LANGUAGE", VStr "E")
                 :: (prod_map id VStr <$> ten_fields)) in
  calls answering
    (Proxy.post_root sample_config "2026-02-24T00:00:00.000Z" example_body)
    = [Proxy.GET [Lit Proxy.API_BASE; Lit "/request"; Lit "/?COMPULIFE=";
                  EncJSON (VObj payload)]] /\
  size payload = 14%nat.
Proof. intros payload. split; by_vm. Qed.

(** ** Concrete runs *)

(** A quote request that also carries fields named like the credentials:
    they do not reach the payload. *)
Lemma credentials_fixed_witness :
  let now := "2026-02-24T00:00:00.000Z" in
  let body : value Z :=
    obj [("action", VStr "quote-compare"); ("State", VStr "MS");
         ("COMPULIFEAUTHORIZATIONID", VStr "forged"); ("REMOTE_IP", VStr "10.0.0.1")] in
  let payload : gmap string (value Z) :=
    list_to_map [("COMPULIFEAUTHORIZATIONID", VStr "6c1B02Df8");
                 ("REMOTE_IP", VStr "162.220.232.99"); ("State", VStr "MS")] in
  let rq : fetch_request Z :=
    Hub.GET [Lit Hub.COMPULIFE_BASE; Lit "/sidebyside"; Lit "/?COMPULIFE=";
             EncJSON (VObj payload)] in
  calls answering (Hub.post_root sample_config now body) = [rq] /\
  payload !! "COMPULIFEAUTHORIZATIONID" = Some (VStr "6c1B02Df8") /\
  payload !! "REMOTE_IP" = Some (VStr "162.220.232.99").
Proof.
  intros now body payload rq.
  assert (Hc : calls answering (Hub.post_root sample_config now body) = [rq])
    by by_vm.
  assert (Hrq : rq ∈ calls answering (Hub.post_root sample_config now body)).
  { rewrite Hc. apply list_elem_of_singleton. reflexivity. }
  assert (Hpl : EncJSON (VObj payload) ∈ rq_url rq) by (simpl; repeat constructor).
  split; [exact Hc|].
  pose proof (credentials_fixed sample_config now body answering rq payload
                Hrq Hpl) as H.
  exact (conj (proj1 H) (proj1 (proj2 H))).
Defined.

(** The README request through server.js: one call, twelve keys, none of
    the three defaulted fields. *)
Lemma example_quote_payload_counterexample :
  let payload : gmap string (value Z) :=
    Hub.private_payload sample_config (VStr <$> list_to_map ten_fields) in
  calls answering (Hub.post_root sample_config "2026-02-24T00:00:00.000Z" example_body)
    = [Hub.GET [Lit Hub.COMPULIFE_BASE; Lit "/sidebyside"; Lit "/?COMPULIFE=";
                EncJSON (VObj payload)]] /\
  size payload = 12%nat /\
  payload !! "SortOverride1" = None /\
  payload !! "CompRating" = None /\
  payload !! "LANGUAGE" = None.
Proof.
  intros payload. repeat (split; [by_vm|]). by_vm.
Qed.

(** The empty string is a string outside the recognized set and is
    answered by the health reply, in both routers; and the 400 reply of
    server.js to ["bogus"] holds the [error] text only, not the list of
    the valid actions. *)
Lemma unknown_action_rejected_counterexample :
  let now := "2026-02-24T00:00:00.000Z" in
  let empty : value Z := obj [("action", VStr EmptyString)] in
  let bogus : value Z := obj [("action", VStr "bogus")] in
  (EmptyString ∉ Hub.actions) /\ (EmptyString ∉ Proxy.available) /\
  run answering (Hub.post_root sample_config now empty)
    = ([], Ok {| code := 200; payload := Hub.ping_payload now |}) /\
  run answering (Proxy.post_root sample_config now empty)
    = ([], Ok {| code := 200; payload := Proxy.ping_payload sample_config now |}) /\
  run answering (Hub.post_root sample_config now bogus)
    = ([], Ok {| code := 400;
                 payload := VObj {[ "error" := VStr "Unknown action: bogus" ]} |}).
Proof.
  intros now empty bogus.
  split; [by_compute|]. split; [by_compute|].
  repeat (split; [by_vm|]). by_vm.
Qed.

Lemma unknown_action_rejected_witness :
  let now := "2026-02-24T00:00:00.000Z" in
  let bogus : value Z := obj [("action", VStr "bogus")] in
  run answering (Hub.post_root sample_config now bogus)
    = ([], Ok {| code := 400;
                 payload := obj [("error", VStr "Unknown action: bogus")] |}) /\
  run answering (Proxy.post_root sample_config now bogus)
    = ([], Ok {| code := 400;
                 payload := obj [("error", VStr "Unknown action");
                                 ("action", VStr "bogus");
                                 ("available", VArr (VStr <$> Proxy.available))] |}).
Proof.
  intros now bogus.
  assert (Ha : action_of bogus = VStr "bogus") by by_vm.
  assert (Hne : "bogus" <> EmptyString) by discriminate.
  assert (H1 : "bogus" ∉ Hub.actions) by by_compute.
  assert (H2 : "bogus" ∉ Proxy.available) by by_compute.
  split.
  - exact (proj1 (unknown_action_rejected sample_config now bogus answering
                    "bogus" Ha Hne) H1).
  - exact (proj2 (unknown_action_rejected sample_config now bogus answering
                    "bogus" Ha Hne) H2).
Defined.

(** An action that is the empty string is answered by the health reply. *)
Lemma falsy_action_pings_witness :
  let now := "2026-02-24T00:00:00.000Z" in
  let body : value Z := obj [("action", VStr EmptyString)] in
  truthy (action_of body) = false /\
  run answering (Hub.post_root sample_config now body)
    = ([], Ok {| code := 200;
                 payload := obj [("status", VStr "ok");
                                 ("service", VStr "compulife-proxy");
                                 ("timestamp", VStr now)] |}) /\
  run answering (Proxy.post_root sample_config now body)
    = ([], Ok {| code := 200;
                 payload := obj [("status", VStr "ok");
                                 ("service", VStr "compulife-proxy");
                                 ("timestamp", VStr now);
                                 ("auth_configured", VBool true)] |}).
Proof.
  intros now body.
  assert (Ha : truthy (action_of body) = false) by by_vm.
  split; [exact Ha|].
  pose proof (falsy_action_pings sample_config now body answering Ha) as H.
  exact (conj (proj1 H) (proj1 (proj2 H))).
Defined.

(** A contact that names another location is filed under the configured
    one. *)
Lemma location_stamped_witness :
  let b2 : value Z := VObj {[ "firstName" := VStr "Ann" ]} in
  let b1 : value Z :=
    VObj (<["locationId" := VStr "other"]> {[ "firstName" := VStr "Ann" ]}) in
  calls answering (Hub.post_ghl_contacts sample_config b1)
    = [Hub.ghl_request sample_config "POST" [Lit "/contacts/"]
         (Hub.with_location sample_config b1)] /\
  own (Hub.with_location sample_config b1) "locationId" = VStr "loc-1" /\
  Hub.with_location sample_config b1 = Hub.with_location sample_config b2.
Proof.
  intros b2 b1.
  assert (Hsame : forall k, k <> "locationId" -> spread b1 !! k = spread b2 !! k).
  { intros k Hk. unfold b1, b2, spread. by apply lookup_insert_ne. }
  pose proof (location_stamped sample_config answering b1 b2 Hsame) as H.
  exact (conj (proj1 H) (proj2 (proj2 (proj2 H)))).
Defined.

(** Without any credential, [POST /anthropic] and the four guarded routes
    reply 500 at once, even if the rest of the handler is a call. *)
Lemma unconfigured_guarded_witness :
  let rest : prog Z (reply Z) :=
    Fetch (Hub.GET [Lit "https://www.googleapis.com/drive/v3/files"])
          (fun _ => Ret (json VNull)) in
  run answering (Hub.post_anthropic default_config (obj [("image", VStr "aGk=")]))
    = ([], Ok {| code := 500;
                 payload := obj [("error",
                                  VStr "ANTHROPIC_API_KEY not configured")] |}) /\
  run answering (Hub.post_drive_upload default_config rest)
    = ([], Ok {| code := 500;
                 payload := obj [("error", VBool true);
                                 ("message", VStr "Google Drive not configured")] |}).
Proof.
  intros rest.
  pose proof (unconfigured_guarded default_config answering
                (obj [("image", VStr "aGk=")]) rest) as H.
  exact (conj (proj1 H eq_refl) (proj1 (proj2 H) (or_introl eq_refl))).
Defined.

(** Without any credential, the quote action and the CRM contact route
    still call the downstream: there is no guard on [AUTH_ID] nor on
    [GHL_API_KEY]. *)
Lemma unconfigured_guarded_counterexample :
  let now := "2026-02-24T00:00:00.000Z" in
  AUTH_ID default_config = EmptyString /\
  GHL_API_KEY default_config = EmptyString /\
  run answering (Hub.post_root default_config now example_body)
    = ([Hub.private_request default_config "/sidebyside"
          (VStr <$> list_to_map ten_fields)],
       Ok {| code := 200; payload := VArr [] |}) /\
  run answering (Hub.post_ghl_contacts default_config (VObj ∅))
    = ([Hub.ghl_request default_config "POST" [Lit "/contacts/"]
          (VObj {[ "locationId" := VStr EmptyString ]})],
       Ok {| code := 200; payload := VArr [] |}).
Proof.
  intros now. split; [done|]. split; [done|]. split; by_vm.
Qed.

(** * Further properties *)

Section ProgFacts.
Context {num : Type} `{!JsNumber num}.

Lemma lift_err_bind {A B} (e : exn) (f : A -> prog num B) :
  (lift (Err e) ≫= f) = Throw e.
Proof. done. Qed.

Lemma ret_bind {A B} (a : A) (f : A -> prog num B) : (Ret a ≫= f) = f a.
Proof. done. Qed.

Lemma throw_bind {A B} (e : exn) (f : A -> prog num B) :
  (Throw e ≫= f) = Throw e.
Proof. done. Qed.

End ProgFacts.

(** One step of a guarded handler: split on the synchronous result or on
    the truthiness test at its head, then reduce the binds that are
    ready. *)
Ltac prog_step :=
  lazymatch goal with
  | |- context [try_catch (lift ?r ≫= _) _] => destruct r
  | |- context [try_catch ((lift ?r ≫= _) ≫= _) _] => destruct r
  | |- context [try_catch (if truthy ?v then _ else _) _] =>
      destruct (truthy v) eqn:?
  | |- context [try_catch ((if truthy ?v then _ else _) ≫= _) _] =>
      destruct (truthy v) eqn:?
  | |- context [try_catch (((lift ?r ≫= _) ≫= _) ≫= _) _] => destruct r
  | |- context [try_catch (((if truthy ?v then _ else _) ≫= _) ≫= _) _] =>
      destruct (truthy v) eqn:?
  end;
  rewrite ?lift_bind, ?lift_err_bind, ?ret_bind, ?throw_bind;
  cbn [try_catch].


(** ** The CRM helper and its routes *)

Section CrmFacts.
Context {num : Type} `{!JsNumber num}.
#[local] Abbreviation value := (value num).
Implicit Types (w : world num) (body : value) (cfg : config).

(** What [ghlFetch] makes of a response. *)
Lemma run_ghlFetch cfg w method path body :
  run w (Hub.ghlFetch cfg method path body) =
    ([Hub.ghl_request cfg method path body],
     match fetch_answer w (Hub.ghl_request cfg method path body) with
     | Err e => Err e
     | Ok r =>
         let data := match parse_answer w (text r) with
                     | Ok v => v
                     | Err _ => obj [("raw", VStr (text r))]
                     end in
         if ok r then Ok data
         else
           m ← get data "message";
           Ok (obj [("error", VBool true);
                    ("status", VNum (Number_of_Z (status r)));
                    ("message",
                     if truthy m then m
                     else or_else (own data "msg")
                            (VStr (String.substring 0 200 (text r))));
                    ("data", data)])
     end).
Proof.
  unfold Hub.ghlFetch. rewrite run_bind, run_fetch.
  destruct (fetch_answer w _) as [r|e]; [|done].
  rewrite run_bind. simpl run at 1. cbv zeta.
  set (data := match parse_answer w (text r) with
               | Ok v => v
               | Err _ => obj [("raw", VStr (text r))]
               end).
  destruct (ok r); [done|]. simpl negb. cbv iota.
  rewrite run_bind, run_lift. unfold get.
  destruct (nullish data) eqn:Hn; [done|]. simpl.
  by destruct (truthy (own data "message")).
Qed.

Lemma run_guarded_relay cfg w method path body :
  exists rep,
    run w (try_catch (Crm.relay cfg method path body) Hub.report)
      = ([Hub.ghl_request cfg method path body], Ok rep) /\
    (code rep = 200 \/ code rep = 500).
Proof.
  unfold Crm.relay, Hub.report.
  rewrite run_try_catch, run_bind, run_ghlFetch.
  destruct (match fetch_answer w _ with Ok _ => _ | Err _ => _ end) as [v|e];
    simpl; eexists; (split; [reflexivity|]); [by left | by right].
Qed.


Lemma run_report w (e : exn) :
  exists rep, run w (Hub.report e) = ([], Ok rep) /\ code rep = 500.
Proof. by eexists. Qed.

(** The shape shared by every CRM route: a reply 200 or 500, and no call
    or one call of the helper with the method [m]. *)
Lemma crm_leaf_relay cfg w m path body :
  exists c rep,
    run w (try_catch (Crm.relay cfg m path body) Hub.report) = (c, Ok rep) /\
    (code rep = 200 \/ code rep = 500) /\
    (c = [] \/ exists path b, c = [Hub.ghl_request cfg m path b]).
Proof.
  destruct (run_guarded_relay cfg w m path body) as (rep & Hr & Hc).
  exists [Hub.ghl_request cfg m path body], rep.
  split; [done|]. split; [done|]. right. eauto.
Qed.

Lemma crm_leaf_report cfg w m (e : exn) :
  exists c rep,
    run w (Hub.report e) = (c, Ok rep) /\
    (code rep = 200 \/ code rep = 500) /\
    (c = [] \/ exists path b, c = [Hub.ghl_request cfg m path b]).
Proof.
  eexists [], _. split; [reflexivity|]. split; [by right | by left].
Qed.

Lemma crm_phone_call cfg w rq :
  exists c rep,
    run w (Crm.post_phone_call cfg rq) = (c, Ok rep) /\
    (code rep = 200 \/ code rep = 500) /\
    (c = [] \/ exists path b, c = [Hub.ghl_request cfg "POST" path b]).
Proof.
  unfold Crm.post_phone_call, Crm.guarded.
  do 2 (prog_step; [|apply crm_leaf_report]).
  prog_step.
  - prog_step; [|apply crm_leaf_report].
    rewrite run_try_catch, run_bind, run_ghlFetch.
    destruct (match fetch_answer w _ with Ok _ => _ | Err _ => _ end) as [v|e].
    + destruct (Crm.tel_digits a0) as [tel|e]; simpl;
        eexists _, _; (split; [reflexivity|]); (split; [auto|]); right; eauto.
    + simpl. eexists _, _. split; [reflexivity|]. split; [auto|]. right; eauto.
  - destruct (Crm.tel_digits a0) as [tel|e]; simpl;
      eexists _, _; (split; [reflexivity|]); (split; [auto|]); by left.
Qed.

End CrmFacts.

Section CrmContracts.
Context {num : Type} `{!JsNumber num}.
#[local] Abbreviation value := (value num).
Implicit Types (w : world num) (body : value) (cfg : config).

Lemma crm_routes_leaf cfg r rq w :
  exists c rep,
    run w (Crm.handler cfg r rq) = (c, Ok rep) /\
    (code rep = 200 \/ code rep = 500) /\
    (c = [] \/ exists path b, c = [Hub.ghl_request cfg (Crm.method_of r) path b]).
Proof.
  destruct r; simpl Crm.handler; simpl Crm.method_of;
    try apply crm_phone_call;
    unfold Hub.post_ghl_contacts, Hub.post_ghl_opportunities,
      Crm.get_contacts_search, Crm.get_contact, Crm.put_contact,
      Crm.post_contact_tags, Crm.post_contact_notes, Crm.post_contact_tasks,
      Crm.get_conversations, Crm.get_conversation_messages,
      Crm.post_conversation_messages, Crm.get_calendars,
      Crm.get_calendar_events, Crm.post_calendar_events,
      Crm.delete_calendar_event, Crm.get_users, Crm.get_pipelines,
      Crm.put_opportunity, Crm.guarded, Crm.search_term, Crm.note_of;
    try apply crm_leaf_relay;
    try apply (crm_leaf_relay cfg w "POST").
  all: repeat (prog_step; try apply crm_leaf_report; try apply crm_leaf_relay).
Qed.

(** X1.  Every CRM route always replies, with 200 or 500, after at most
    one downstream call; the call goes to the CRM host with the method of
    the route and the bearer, content-type and version headers, and it
    carries a body only on a [POST] or [PUT] route. *)
Theorem crm_routes_shape cfg r rq w :
  exists c rep,
    run w (Crm.handler cfg r rq) = (c, Ok rep) /\
    (code rep = 200 \/ code rep = 500) /\
    (length c <= 1)%nat /\
    Forall (fun req : fetch_request num =>
              rq_method req = Crm.method_of r /\
              head (rq_url req) = Some (Lit Hub.GHL_BASE) /\
              rq_headers req
                = [("Authorization", "Bearer " ++ GHL_API_KEY cfg);
                   ("Content-Type", "application/json");
                   ("Version", "2021-07-28")] /\
              (rq_body req <> None ->
               Crm.method_of r = "POST" \/ Crm.method_of r = "PUT")) c.
Proof.
  destruct (crm_routes_leaf cfg r rq w) as (c & rep & Hrun & Hcode & Hc).
  exists c, rep. split; [done|]. split; [done|].
  destruct Hc as [->|(path & b & ->)]; [split; [simpl; lia | constructor]|].
  split; [simpl; lia|]. constructor; [|constructor].
  split; [done|]. split; [done|]. split; [done|].
  simpl. intros Hb.
  destruct (bool_decide (Crm.method_of r = "POST")) eqn:H1;
    [left; by apply bool_decide_eq_true in H1|].
  destruct (bool_decide (Crm.method_of r = "PUT")) eqn:H2;
    [right; by apply bool_decide_eq_true in H2|].
  rewrite andb_false_r in Hb. done.
Qed.

End CrmContracts.

Section CrmHelperContracts.
Context {num : Type} `{!JsNumber num}.
#[local] Abbreviation value := (value num).
Implicit Types (w : world num) (body : value) (cfg : config).

(** X2.  [ghlFetch] makes exactly one call.  When the call fails it
    throws the failure.  When the downstream answers with a success
    status it returns the parsed body, or [{ raw: text }] when the text
    is not JSON.  When it answers with another status it returns the
    envelope [{ error: true, status, message, data }], where [message]
    is [data.message], else [data.msg], else the first 200 characters of
    the text; the only case in which it then throws is a body that
    parses to [null]. *)
Theorem ghlFetch_outcome cfg w method path body :
  let rq := Hub.ghl_request cfg method path body in
  calls w (Hub.ghlFetch cfg method path body) = [rq] /\
  match fetch_answer w rq with
  | Err e => outcome w (Hub.ghlFetch cfg method path body) = Err e
  | Ok r =>
      let data := match parse_answer w (text r) with
                  | Ok v => v
                  | Err _ => obj [("raw", VStr (text r))]
                  end in
      if ok r then outcome w (Hub.ghlFetch cfg method path body) = Ok data
      else if nullish data then
        exists m, outcome w (Hub.ghlFetch cfg method path body) = Err (TypeError m)
      else
        outcome w (Hub.ghlFetch cfg method path body)
          = Ok (obj [("error", VBool true);
                     ("status", VNum (Number_of_Z (status r)));
                     ("message",
                      or_else (own data "message")
                        (or_else (own data "msg")
                           (VStr (String.substring 0 200 (text r)))));
                     ("data", data)])
  end.
Proof.
  intros rq. unfold calls, outcome. rewrite run_ghlFetch. fold rq.
  split; [done|]. simpl.
  destruct (fetch_answer w rq) as [r|e]; [|done]. cbv zeta.
  destruct (ok r); [done|]. unfold get.
  destruct (nullish _) eqn:Hn; simpl; [eauto|].
  unfold or_else at 1. done.
Qed.

(** X3.  A route built on [ghlFetch] does not propagate the downstream
    status: when the CRM answers [POST /ghl/contacts] with a failure
    status and a body that is not [null], the reply is a 200 whose body
    is the error envelope with the downstream status inside. *)
Theorem crm_failure_replied_200 cfg w req_body r data
    (Hr : fetch_answer w (Hub.ghl_request cfg "POST" [Lit "/contacts/"]
                            (Hub.with_location cfg req_body)) = Ok r)
    (Hko : ok r = false)
    (Hp : parse_answer w (text r) = Ok data)
    (Hd : nullish data = false) :
  outcome w (Hub.post_ghl_contacts cfg req_body)
    = Ok {| code := 200;
            payload :=
              obj [("error", VBool true);
                   ("status", VNum (Number_of_Z (status r)));
                   ("message",
                    or_else (own data "message")
                      (or_else (own data "msg")
                         (VStr (String.substring 0 200 (text r)))));
                   ("data", data)] |}.
Proof.
  unfold outcome, Hub.post_ghl_contacts, Hub.report.
  rewrite run_try_catch, run_bind, run_ghlFetch, Hr. cbv zeta.
  rewrite Hp, Hko. unfold get. rewrite Hd. simpl.
  unfold or_else at 1. done.
Qed.

End CrmHelperContracts.

Section CrmRouteContracts.
Context {num : Type} `{!JsNumber num}.
#[local] Abbreviation value := (value num).
Implicit Types (w : world num) (body : value) (cfg : config).

(** X4.  A route that builds its outbound call from named fields reads
    nothing else: two requests with the same path parameter that agree
    on the fields listed for the route (whatever else their bodies and
    queries hold, a client [locationId] included) are handled
    identically. *)
Theorem crm_route_reads_only cfg r (rq1 rq2 : Crm.request (num := num)) ks
    (Hr : Crm.body_reads r = Some ks)
    (Hparam : Crm.req_param rq1 = Crm.req_param rq2)
    (Hbody : Forall (fun k => get (Crm.req_body rq1) k = get (Crm.req_body rq2) k) ks)
    (Hquery : Forall (fun k => get (Crm.req_query rq1) k = get (Crm.req_query rq2) k)
                (Crm.query_reads r)) :
  Crm.handler cfg r rq1 = Crm.handler cfg r rq2.
Proof.
  destruct r; simpl in Hr; try discriminate; injection Hr as <-;
    simpl in Hquery;
    repeat match goal with
           | H : Forall _ (_ :: _) |- _ => apply Forall_cons in H as [? H]
           end;
    simpl Crm.handler;
    unfold Crm.get_contacts_search, Crm.get_contact, Crm.post_contact_notes,
      Crm.get_conversations, Crm.get_conversation_messages,
      Crm.post_conversation_messages, Crm.get_calendars,
      Crm.get_calendar_events, Crm.post_calendar_events,
      Crm.delete_calendar_event, Crm.post_phone_call, Crm.get_users,
      Crm.get_pipelines, Crm.search_term, Crm.note_of, Crm.message_of,
      Crm.event_of, Crm.events_path, Crm.copy_truthy, Crm.message_fields;
    simpl for_of;
    repeat match goal with
           | H : get _ _ = get _ _ |- _ => rewrite H; clear H
           end;
    rewrite ?Hparam; reflexivity.
Qed.

(** One round of [if (req.body.k) payload.k = req.body.k;]. *)
Lemma copy_truthy_lookup body (p p' : gmap string value) k :
  Crm.copy_truthy body p k = Ok p' ->
  nullish body = false /\
  forall k', p' !! k' =
    if decide (k' = k) then (if truthy (own body k) then Some (own body k) else p !! k)
    else p !! k'.
Proof.
  unfold Crm.copy_truthy, get. destruct (nullish body); [done|]. simpl.
  intros [= <-]. split; [done|]. intros k'.
  destruct (truthy (own body k)); case_decide; subst;
    by rewrite ?lookup_insert_eq, ?lookup_insert_ne.
Qed.

Lemma for_of_copy_truthy fs body (p p' : gmap string value) :
  for_of fs (Crm.copy_truthy body) p = Ok p' ->
  forall k,
    p' !! k =
      if decide (k ∈ fs) then (if truthy (own body k) then Some (own body k) else p !! k)
      else p !! k.
Proof.
  revert p. induction fs as [|f fs IH]; intros p Hrun k; simpl in Hrun.
  - injection Hrun as <-. by rewrite decide_False by apply not_elem_of_nil.
  - destruct (Crm.copy_truthy body p f) as [p1|e] eqn:Hf; simpl in Hrun; [|done].
    apply copy_truthy_lookup in Hf as [_ Hf].
    rewrite (IH _ Hrun k), !Hf.
    destruct (decide (k = f)) as [->|Hne].
    + destruct (decide (f ∈ f :: fs)) as [_|Hn]; [|exfalso; apply Hn; by left].
      destruct (decide (f ∈ fs)); [|done]. by destruct (truthy (own body f)).
    + destruct (decide (k ∈ fs)) as [Hin|Hnin];
        destruct (decide (k ∈ f :: fs)) as [Hin'|Hnin']; try done.
      * exfalso. apply Hnin'. by right.
      * exfalso. apply elem_of_cons in Hin' as [?|?]; done.
Qed.

(** X5.  The message sent by [POST /ghl/conversations/messages] always
    has [type], [contactId] and [message], the type being ["SMS"] when
    the client gives none; [subject], [html], [emailFrom] and
    [attachments] are present exactly when the client value is truthy,
    and no other key is ever present. *)
Theorem message_payload_keys body payload
    (Hm : Crm.message_of body = Ok payload) :
  payload !! "type" = Some (or_else (own body "type") (VStr "SMS")) /\
  payload !! "contactId" = Some (own body "contactId") /\
  payload !! "message" = Some (own body "message") /\
  (forall k, k ∈ Crm.message_fields ->
     payload !! k = if truthy (own body k) then Some (own body k) else None) /\
  (forall k, k ∉ ["type"; "contactId"; "message"] -> k ∉ Crm.message_fields ->
     payload !! k = None).
Proof.
  unfold Crm.message_of, get in Hm.
  destruct (nullish body) eqn:Hn; [done|]. simpl in Hm.
  change (for_of Crm.message_fields (Crm.copy_truthy body)
            (list_to_map [("type", or_else (own body "type") (VStr "SMS"));
                          ("contactId", own body "contactId");
                          ("message", own body "message")]) = Ok payload) in Hm.
  pose proof (for_of_copy_truthy _ _ _ _ Hm) as Hk.
  assert (forall k, k ∉ Crm.message_fields ->
            payload !! k
              = (list_to_map [("type", or_else (own body "type") (VStr "SMS"));
                              ("contactId", own body "contactId");
                              ("message", own body "message")]
                   : gmap string value) !! k) as Hout.
  { intros k Hnin. rewrite Hk. by rewrite decide_False. }
  split; [rewrite Hout by by_compute; by_vm|].
  split; [rewrite Hout by by_compute; by_vm|].
  split; [rewrite Hout by by_compute; by_vm|].
  split.
  - intros k Hin. rewrite Hk. rewrite decide_True by done.
    destruct (truthy (own body k)); [done|].
    unfold Crm.message_fields in Hin.
    repeat (apply elem_of_cons in Hin as [->|Hin]; [by_vm|]).
    by apply elem_of_nil in Hin.
  - intros k H3 Hnin. rewrite Hout by done. simpl.
    rewrite !not_elem_of_cons in H3. destruct H3 as (?&?&?&_).
    by rewrite !lookup_insert_ne, lookup_empty.
Qed.

End CrmRouteContracts.

Section PhoneContracts.
Context {num : Type} `{!JsNumber num}.
#[local] Abbreviation value := (value num).
Implicit Types (w : world num) (body : value) (cfg : config).



Lemma tel_digits_throws (phone : value) :
  truthy phone = true -> (forall s, phone <> VStr s) ->
  exists e, Crm.tel_digits phone = Err e.
Proof.
  intros Ht Hn. unfold Crm.tel_digits, or_else. rewrite Ht.
  destruct phone as [| |b|n|s|l|o]; try done; try by eexists.
  by destruct (Hn s).
Qed.


(** X7.  On a readable body without a truthy contact id,
    [POST /ghl/phone/call] never calls the downstream.  When the phone
    is a string, or falsy, it replies 200 with the dial link made of the
    [+] and digits of the phone and a [null] log; for any other phone (a
    number, say) the conversion throws and it replies 500. *)
Theorem phone_call_without_contact cfg w (rq : Crm.request (num := num))
    (Hb : nullish (Crm.req_body rq) = false)
    (Hc : truthy (own (Crm.req_body rq) "contactId") = false) :
  let phone := own (Crm.req_body rq) "phone" in
  calls w (Crm.post_phone_call cfg rq) = [] /\
  match or_else phone (VStr EmptyString) with
  | VStr s =>
      outcome w (Crm.post_phone_call cfg rq)
        = Ok {| code := 200;
                payload :=
                  obj [("success", VBool true); ("action", VStr "dial");
                       ("phone", phone);
                       ("contactId", own (Crm.req_body rq) "contactId");
                       ("telUri", VStr ("tel:" ++ dial_chars s));
                       ("ghlLog", VNull)] |}
  | _ =>
      exists m,
        outcome w (Crm.post_phone_call cfg rq)
          = Ok {| code := 500;
                  payload := obj [("error", VBool true);
                                  ("message", VStr m)] |}
  end.
Proof.
  intros phone. unfold calls, outcome, Crm.post_phone_call, Crm.guarded.
  rewrite !(get_own _ _ Hb), !lift_bind, Hc, ret_bind. fold phone.
  unfold Crm.tel_digits, Hub.report.
  destruct (or_else phone (VStr EmptyString)); simpl; split; eauto.
Qed.

(** X8.  On a readable body with a truthy contact id and a truthy phone
    that is not a string: when the phone has a string representation (a
    number, say) the call is first logged in the CRM, one downstream
    [POST] naming that string, and the request then fails with a 500;
    when it has none, the log message cannot be built, no call is made
    and the reply is a 500 with the message of the error. *)
Theorem phone_call_logged_then_fails cfg w (rq : Crm.request (num := num))
    (Hb : nullish (Crm.req_body rq) = false)
    (Hc : truthy (own (Crm.req_body rq) "contactId") = true)
    (Hp : truthy (own (Crm.req_body rq) "phone") = true)
    (Hn : forall s', own (Crm.req_body rq) "phone" <> VStr s') :
  match ToString (own (Crm.req_body rq) "phone") with
  | Ok s =>
      calls w (Crm.post_phone_call cfg rq)
        = [Hub.ghl_request cfg "POST" [Lit "/conversations/messages"]
             (obj [("type", VStr "Call");
                   ("contactId", own (Crm.req_body rq) "contactId");
                   ("message", VStr ("Outbound call initiated to " ++ s))])] /\
      exists rep,
        outcome w (Crm.post_phone_call cfg rq) = Ok rep /\ code rep = 500
  | Err e =>
      run w (Crm.post_phone_call cfg rq)
        = ([], Ok {| code := 500;
                     payload := obj [("error", VBool true);
                                     ("message", VStr (message e))] |})
  end.
Proof.
  destruct (tel_digits_throws _ Hp Hn) as [e Htel].
  unfold calls, outcome, Crm.post_phone_call, Crm.guarded, Hub.report.
  rewrite !(get_own _ _ Hb), !lift_bind, Hc.
  destruct (ToString (own (Crm.req_body rq) "phone")) as [s|e']; [|done].
  rewrite lift_bind, run_try_catch, run_bind, run_ghlFetch.
  destruct (match fetch_answer w _ with Ok _ => _ | Err _ => _ end) as [v|e'].
  - rewrite Htel. simpl. split; [done|]. eauto.
  - simpl. split; [done|]. eauto.
Qed.

End PhoneContracts.

(** ** The router of [POST /], further *)

Section RouterMore.
Context {num : Type} `{!JsNumber num}.
#[local] Abbreviation value := (value num).
Implicit Types (w : world num) (body : value) (cfg : config).

(** A body whose action is a string is a truthy value: it is the object
    that the cases of the switch read again. *)
Lemma action_string_body body s :
  action_of body = VStr s -> nullish body = false /\ own body "action" = VStr s.
Proof.
  unfold action_of, or_else. destruct (truthy body) eqn:Ht.
  - intros Ha. split; [|done]. by destruct body.
  - simpl. by rewrite lookup_empty.
Qed.

Lemma run_proxyPublic w path :
  run w (Hub.proxyPublic path) =
    ([Hub.GET (Lit Hub.COMPULIFE_BASE :: path)],
     match fetch_answer w (Hub.GET (Lit Hub.COMPULIFE_BASE :: path)) with
     | Err e => Err e
     | Ok r =>
         Ok (match parse_answer w (text r) with
             | Ok v => v
             | Err _ => obj [("raw", VStr (text r));
                             ("status", VNum (Number_of_Z (status r)))]
             end)
     end).
Proof.
  unfold Hub.proxyPublic. rewrite run_bind, run_fetch.
  destruct (fetch_answer w _) as [r|e]; [|done]. by rewrite run_parse_or_raw.
Qed.

Lemma run_guarded_public w path :
  exists rep,
    run w (try_catch (v ← Hub.proxyPublic path; Ret (json v)) Hub.report)
      = ([Hub.GET (Lit Hub.COMPULIFE_BASE :: path)], Ok rep) /\
    (code rep = 200 \/ code rep = 500).
Proof.
  unfold Hub.report. rewrite run_try_catch, run_bind, run_proxyPublic.
  destruct (fetch_answer w _) as [r|e]; simpl;
    (eexists; split; [reflexivity|]); [by left | by right].
Qed.

Lemma run_guarded_private cfg w route params :
  run w (try_catch (v ← Hub.proxyPrivate cfg route params; Ret (json v)) Hub.report)
    = ([Hub.private_request cfg route params],
       Ok (match fetch_answer w (Hub.private_request cfg route params) with
           | Err e => {| code := 500;
                         payload := obj [("error", VBool true);
                                         ("message", VStr (message e))] |}
           | Ok r =>
               {| code := 200;
                  payload :=
                    match parse_answer w (text r) with
                    | Ok v => v
                    | Err _ => obj [("raw", VStr (text r));
                                    ("status", VNum (Number_of_Z (status r)))]
                    end |}
           end)).
Proof.
  unfold Hub.report. rewrite run_try_catch, run_bind, run_proxyPrivate.
  by destruct (fetch_answer w _) as [r|e].
Qed.

(** A quote action selects the translate-then-call case. *)
Lemma Hub_quote_program cfg now body :
  action_of body = VStr "quote-compare" \/
  action_of body = VStr "quote-sidebyside" ->
  Hub.post_root cfg now body =
    try_catch
      (params ← lift (buildCompulifeParams body);
       v ← Hub.proxyPrivate cfg "/sidebyside" (VStr <$> params);
       Ret (json v))
      Hub.report.
Proof.
  intros Ha. unfold Hub.post_root. rewrite get_action, lift_bind.
  assert (or_else (action_of body) (VStr "ping") = action_of body) as ->.
  { apply or_else_truthy. by destruct Ha as [->| ->]. }
  assert ((is_string (action_of body) "quote-sidebyside"
           || is_string (action_of body) "quote-compare") = true) as Hq
    by (by destruct Ha as [->| ->]).
  assert (is_string (action_of body) "ping" = false) as ->
    by (by destruct Ha as [->| ->]).
  assert (is_string (action_of body) "get-categories" = false) as ->
    by (by destruct Ha as [->| ->]).
  assert (is_string (action_of body) "get-companies" = false) as ->
    by (by destruct Ha as [->| ->]).
  assert (is_string (action_of body) "get-products" = false) as ->
    by (by destruct Ha as [->| ->]).
  by rewrite Hq.
Qed.

(** X9.  [POST /] of server.js always replies, with 200, 400 or 500,
    after at most one downstream call; every call is a [GET] on the
    quoting API without headers and without body. *)
Theorem hub_root_shape cfg now body w :
  exists c rep,
    run w (Hub.post_root cfg now body) = (c, Ok rep) /\
    (code rep = 200 \/ code rep = 400 \/ code rep = 500) /\
    (length c <= 1)%nat /\
    Forall (fun req : fetch_request num =>
              rq_method req = "GET" /\ rq_headers req = [] /\
              rq_body req = None /\
              head (rq_url req) = Some (Lit Hub.COMPULIFE_BASE)) c.
Proof.
  assert (forall c (rep : reply num) p,
            run w p = (c, Ok rep) /\ (code rep = 200 \/ code rep = 500) ->
            (c = [] \/ exists url, c = [Hub.GET (Lit Hub.COMPULIFE_BASE :: url)]) ->
            exists c rep,
              run w p = (c, Ok rep) /\
              (code rep = 200 \/ code rep = 400 \/ code rep = 500) /\
              (length c <= 1)%nat /\
              Forall (fun req : fetch_request num =>
                        rq_method req = "GET" /\ rq_headers req = [] /\
                        rq_body req = None /\
                        head (rq_url req) = Some (Lit Hub.COMPULIFE_BASE)) c)
    as Hleaf.
  { intros c rep p [Hrun Hcode] Hc. exists c, rep. split; [done|].
    split; [destruct Hcode; auto|].
    destruct Hc as [->|[url ->]]; simpl; (split; [lia|]); repeat constructor. }
  assert (forall e, exists c rep,
            run w (Hub.report e) = (c, Ok rep) /\
            (code rep = 200 \/ code rep = 400 \/ code rep = 500) /\
            (length c <= 1)%nat /\
            Forall (fun req : fetch_request num =>
                      rq_method req = "GET" /\ rq_headers req = [] /\
                      rq_body req = None /\
                      head (rq_url req) = Some (Lit Hub.COMPULIFE_BASE)) c)
    as Hreport.
  { intros e. eapply Hleaf; [split; [reflexivity|by right] | by left]. }
  unfold Hub.post_root, Hub.unknown_action.
  rewrite get_action, lift_bind.
  set (action := or_else (action_of body) (VStr "ping")).
  destruct (is_string action "ping").
  { eapply Hleaf; [split; [reflexivity|by left] | by left]. }
  destruct (is_string action "get-categories").
  { destruct (run_guarded_public w [Lit "/CategoryList"]) as (rep & Hr & Hc).
    eapply Hleaf; [split; [exact Hr|done] | right; eauto]. }
  destruct (is_string action "get-companies").
  { do 2 (prog_step; [|apply Hreport]).
    destruct (run_guarded_public w [Lit "/CompanyList/"; Enc a0]) as (rep & Hr & Hc).
    eapply Hleaf; [split; [exact Hr|done] | right; eauto]. }
  destruct (is_string action "get-products").
  { prog_step; [|apply Hreport].
    destruct (negb (truthy a)); cbn [try_catch].
    { exists [], (status_json 400 (obj [("error", VStr "company required")])).
      split; [done|]. split; [auto|]. split; [simpl; lia | constructor]. }
    prog_step; [|apply Hreport].
    destruct (run_guarded_public w [Lit "/ProductList/"; Enc a0]) as (rep & Hr & Hc).
    eapply Hleaf; [split; [exact Hr|done] | right; eauto]. }
  destruct (is_string action "quote-sidebyside" || is_string action "quote-compare").
  { prog_step; [|apply Hreport].
    rewrite run_guarded_private. eexists _, _. split; [reflexivity|].
    split; [destruct (fetch_answer w _); auto|].
    split; [simpl; lia|]. repeat constructor. }
  prog_step; [|apply Hreport].
  exists [], (status_json 400 (obj [("error", VStr ("Unknown action: " ++ a))])).
  split; [done|]. split; [auto|]. split; [simpl; lia | constructor].
Qed.

(** X10.  A quote action of server.js, end to end: when the translation
    throws, no call is made and the reply is a 500 with the message;
    otherwise exactly the private call is made, and the reply is a 500
    with the message when the call fails, else a 200 with the parsed
    body, or with [{ raw, status }] when the text is not JSON. *)
Theorem hub_quote_run cfg now body w
    (Ha : action_of body = VStr "quote-compare" \/
          action_of body = VStr "quote-sidebyside") :
  run w (Hub.post_root cfg now body) =
    match buildCompulifeParams body with
    | Err e =>
        ([], Ok {| code := 500;
                   payload := obj [("error", VBool true);
                                   ("message", VStr (message e))] |})
    | Ok params =>
        let rq := Hub.private_request cfg "/sidebyside" (VStr <$> params) in
        ([rq],
         Ok (match fetch_answer w rq with
             | Err e => {| code := 500;
                           payload := obj [("error", VBool true);
                                           ("message", VStr (message e))] |}
             | Ok r =>
                 {| code := 200;
                    payload :=
                      match parse_answer w (text r) with
                      | Ok v => v
                      | Err _ => obj [("raw", VStr (text r));
                                      ("status", VNum (Number_of_Z (status r)))]
                      end |}
             end))
    end.
Proof.
  rewrite (Hub_quote_program cfg now body Ha).
  destruct (buildCompulifeParams body) as [params|e].
  - rewrite lift_bind. apply run_guarded_private.
  - done.
Qed.

(** X11.  [get-products] needs a company: when [company] is absent or
    falsy the reply is a 400 and no call is made. *)
Theorem hub_products_needs_company cfg now body w
    (Ha : action_of body = VStr "get-products")
    (Hc : truthy (own body "company") = false) :
  run w (Hub.post_root cfg now body)
    = ([], Ok {| code := 400;
                 payload := obj [("error", VStr "company required")] |}).
Proof.
  destruct (action_string_body _ _ Ha) as [Hb _].
  unfold Hub.post_root. rewrite get_action, lift_bind, Ha.
  rewrite (or_else_truthy (VStr "get-products")) by done.
  rewrite !is_string_ne by done. rewrite is_string_eq.
  rewrite (get_own _ _ Hb), lift_bind, Hc. done.
Qed.

End RouterMore.

(** ** The translator, further *)

Section TranslatorMore.
Context {num : Type} `{!JsNumber num}.
#[local] Abbreviation value := (value num).
Implicit Types (body : value) (k : string) (fs : list string).
Implicit Types (p q h : gmap string string).

Lemma for_of_cons {A S} (x : A) (l : list A) (f : S -> A -> result S) (s : S) :
  for_of (x :: l) f s = (s' ← f s x; for_of l f s').
Proof. done. Qed.

Lemma copy_field_agree (b1 b2 : value) p k :
  nullish b1 = false -> nullish b2 = false -> own b1 k = own b2 k ->
  copy_field b1 p k = copy_field b2 p k.
Proof.
  intros H1 H2 Hk. unfold copy_field.
  by rewrite (get_own _ _ H1), (get_own _ _ H2), Hk.
Qed.

Lemma for_of_copy_agree fs (b1 b2 : value) p :
  nullish b1 = false -> nullish b2 = false ->
  (forall k, k ∈ fs -> own b1 k = own b2 k) ->
  for_of fs (copy_field b1) p = for_of fs (copy_field b2) p.
Proof.
  intros H1 H2. revert p. induction fs as [|f fs IH]; intros p Hagree; [done|].
  rewrite !for_of_cons.
  rewrite (copy_field_agree b1 b2 p f H1 H2) by (apply Hagree; by left).
  destruct (copy_field b2 p f) as [p1|e]; [|done]. rewrite !bind_Ok.
  apply IH. intros k Hk. apply Hagree. by right.
Qed.

(** X12.  The builders read the whitelisted fields and nothing else: two
    bodies that agree on the fields of a builder's whitelist get the same
    result from it, a thrown error included. *)
Theorem translation_reads_whitelist_only (b1 b2 : value)
    (H1 : nullish b1 = false) (H2 : nullish b2 = false) :
  ((forall k, k ∈ fields -> own b1 k = own b2 k) ->
   buildCompulifeParams b1 = buildCompulifeParams b2) /\
  ((forall k, k ∈ (required ++ optional)%list -> own b1 k = own b2 k) ->
   buildQuoteParams b1 = buildQuoteParams b2) /\
  ((forall k, k ∈ (required ++ optional ++ healthFields)%list ->
      own b1 k = own b2 k) ->
   buildHealthParams b1 = buildHealthParams b2).
Proof.
  split; [|split]; intros Hagree.
  - by apply for_of_copy_agree.
  - rewrite !buildQuoteParams_unfold.
    by rewrite (for_of_copy_agree _ b1 b2).
  - unfold buildHealthParams. rewrite !buildQuoteParams_unfold.
    rewrite (for_of_copy_agree (required ++ optional) b1 b2); [|done|done|].
    + destruct (for_of _ _ _) as [p|e]; [|done]. rewrite !bind_Ok.
      apply for_of_copy_agree; [done|done|].
      intros k Hk. apply Hagree. rewrite app_assoc. apply elem_of_app. by right.
    + intros k Hk. apply Hagree. rewrite app_assoc. apply elem_of_app. by left.
Qed.

Lemma buildHealthParams_Ok body h :
  buildHealthParams body = Ok h ->
  forall k s,
    h !! k = Some s <->
    (k ∈ healthFields /\ stringified body k s) \/
    (k ∈ (required ++ optional)%list /\
     ((stringified body k s /\ (s = EmptyString -> quote_default k = None)) \/
      (quote_default k = Some s /\
       (own body k = VUndef \/ stringified body k EmptyString)))).
Proof.
  unfold buildHealthParams.
  destruct (buildQuoteParams body) as [q|e] eqn:Hq; [|done]. rewrite bind_Ok.
  intros Hh k s. rewrite (for_of_copy_Ok _ _ _ _ Hh k s).
  rewrite (buildQuoteParams_Ok _ _ Hq k s). unfold stringified. split.
  - intros [?|[_ ?]]; [by left | by right].
  - intros [?|[Hw ?]]; [by left|]. right. split; [|done]. left.
    by apply whitelists_disjoint.
Qed.

(** X13.  [buildHealthParams] keeps the whitelist invariant: when it
    returns, its output holds exactly the defined health fields, each
    stringified, and the keys of the base translation with the values
    the base translation gives them; no other key appears.  It throws
    only when the body cannot be read or a defined field of its lists has
    no string representation. *)
Theorem health_whitelist body :
  match buildHealthParams body with
  | Ok h =>
      forall k s,
        h !! k = Some s <->
        (k ∈ healthFields /\ stringified body k s) \/
        (k ∈ (required ++ optional)%list /\
         ((stringified body k s /\ (s = EmptyString -> quote_default k = None)) \/
          (quote_default k = Some s /\
           (own body k = VUndef \/ stringified body k EmptyString))))
  | Err e => throws_on (required ++ optional ++ healthFields)%list body e
  end.
Proof.
  destruct (buildHealthParams body) as [h|e] eqn:Hh.
  - by apply buildHealthParams_Ok.
  - unfold buildHealthParams in Hh.
    destruct (buildQuoteParams body) as [q|e'] eqn:Hq.
    + rewrite bind_Ok in Hh. apply for_of_copy_throws in Hh.
      destruct Hh as [?|(k & Hin & ?)]; [by left|]. right. exists k.
      split; [|done]. rewrite app_assoc. apply elem_of_app. by right.
    + injection Hh as <-. apply buildQuoteParams_Err in Hq.
      destruct Hq as [?|(k & Hin & ?)]; [by left|]. right. exists k.
      split; [|done]. rewrite app_assoc. apply elem_of_app. by left.
Qed.

Lemma quote_default_not_empty k d : quote_default k = Some d -> d <> EmptyString.
Proof.
  unfold quote_default. repeat case_decide; intros [= <-]; discriminate.
Qed.

Lemma buildQuoteParams_defaults body q k d :
  buildQuoteParams body = Ok q -> quote_default k = Some d ->
  exists s, q !! k = Some s /\ s <> EmptyString.
Proof.
  intros Hq Hd. pose proof (quote_default_whitelisted _ _ Hd) as Hin.
  pose proof (quote_default_not_empty _ _ Hd) as Hne.
  pose proof (buildQuoteParams_Ok _ _ Hq k) as Hk.
  rewrite buildQuoteParams_unfold in Hq.
  destruct (for_of (required ++ optional) (copy_field body) ∅) as [p|e] eqn:Hp;
    [|done].
  destruct (is_undefined (own body k)) eqn:Hu.
  - exists d. split; [|done]. apply Hk. split; [done|]. right. split; [done|].
    left. by destruct (own body k).
  - assert (own body k <> VUndef) as Hdef by (by destruct (own body k)).
    destruct (for_of_copy_defined _ _ _ _ k Hp Hin Hdef) as [s Hs].
    destruct (decide (s = EmptyString)) as [->|Hs'].
    + exists d. split; [|done]. apply Hk. split; [done|]. right. split; [done|].
      by right.
    + exists s. split; [|done]. apply Hk. split; [done|]. left. split; [done|].
      done.
Qed.

(** X14.  Whatever the inbound body, the outputs of [buildQuoteParams]
    and of [buildHealthParams] always hold [CompRating], [SortOverride1]
    and [LANGUAGE], and never with an empty value. *)
Theorem defaults_always_present body k d (Hd : quote_default k = Some d) :
  (forall q, buildQuoteParams body = Ok q ->
     exists s, q !! k = Some s /\ s <> EmptyString) /\
  (forall h, buildHealthParams body = Ok h ->
     exists s, h !! k = Some s /\ s <> EmptyString).
Proof.
  split.
  - intros q Hq. by eapply buildQuoteParams_defaults.
  - intros h Hh. unfold buildHealthParams in Hh.
    destruct (buildQuoteParams body) as [q|e] eqn:Hq; [|done].
    rewrite bind_Ok in Hh.
    destruct (buildQuoteParams_defaults _ _ _ _ Hq Hd) as (s & Hs & Hne).
    exists s. split; [|done]. apply (for_of_copy_Ok _ _ _ _ Hh). right.
    split; [|done]. left.
    apply whitelists_disjoint. by eapply quote_default_whitelisted.
Qed.

End TranslatorMore.

Section Replay.
Context {num : Type} `{!JsNumber num}.
#[local] Abbreviation value := (value num).
Implicit Types (body : value) (k : string) (fs : list string).
Implicit Types (p q h : gmap string string).

(** A translated map, read again as an inbound body. *)
Lemma stringified_params p k s :
  stringified (VObj (VStr <$> p) : value) k s <-> p !! k = Some s.
Proof.
  unfold stringified. simpl. rewrite lookup_fmap.
  destruct (p !! k) as [s'|]; simpl.
  - split; [by intros [_ [= ->]] | by intros [= ->]].
  - split; [by intros [? _] | done].
Qed.

Lemma own_params_undefined p k :
  own (VObj (VStr <$> p) : value) k = VUndef <-> p !! k = None.
Proof. simpl. rewrite lookup_fmap. by destruct (p !! k). Qed.

Lemma params_never_throw fs p e :
  ~ throws_on fs (VObj (VStr <$> p) : value) e.
Proof.
  intros [?|(k & _ & _ & Hs)]; [done|]. simpl in Hs.
  rewrite lookup_fmap in Hs. by destruct (p !! k).
Qed.

Lemma lookup_eq_iff (m1 m2 : gmap string string) k :
  (forall s, m1 !! k = Some s <-> m2 !! k = Some s) -> m1 !! k = m2 !! k.
Proof.
  intros H. destruct (m1 !! k) as [s1|], (m2 !! k) as [s2|]; [| | |done].
  - symmetry. by apply (H s1).
  - by pose proof (proj1 (H s1) eq_refl).
  - by pose proof (proj2 (H s2) eq_refl).
Qed.

(** X15.  Translating is idempotent: the output of a builder, sent again
    as the inbound body, is translated to itself. *)
Theorem translation_idempotent body :
  (forall p, buildCompulifeParams body = Ok p ->
     buildCompulifeParams (VObj (VStr <$> p)) = Ok p) /\
  (forall q, buildQuoteParams body = Ok q ->
     buildQuoteParams (VObj (VStr <$> q)) = Ok q) /\
  (forall h, buildHealthParams body = Ok h ->
     buildHealthParams (VObj (VStr <$> h)) = Ok h).
Proof.
  split; [|split].
  - intros p Hp.
    destruct (buildCompulifeParams (VObj (VStr <$> p))) as [p'|e] eqn:Hp'.
    + f_equal. apply map_eq. intros k. apply lookup_eq_iff. intros s.
      rewrite (for_of_copy_from_empty _ _ _ Hp' k s), stringified_params.
      split; [by intros [_ ?]|]. intros Hs. split; [|done].
      by apply (for_of_copy_from_empty _ _ _ Hp) in Hs as [? _].
    + apply for_of_copy_throws in Hp'. by apply params_never_throw in Hp'.
  - intros q Hq.
    destruct (buildQuoteParams (VObj (VStr <$> q))) as [q'|e] eqn:Hq'.
    + f_equal. apply map_eq. intros k. apply lookup_eq_iff. intros s.
      rewrite (buildQuoteParams_Ok _ _ Hq' k s).
      rewrite !stringified_params, own_params_undefined.
      split.
      * intros [Hin [[Hs _]|[Hd Hno]]]; [done|]. exfalso.
        destruct (buildQuoteParams_defaults _ _ _ _ Hq Hd) as (s0 & Hs0 & Hne).
        destruct Hno; congruence.
      * intros Hs. split.
        { by apply (buildQuoteParams_Ok _ _ Hq) in Hs as [? _]. }
        left. split; [done|]. intros ->.
        destruct (quote_default k) as [d|] eqn:Hd; [|done]. exfalso.
        destruct (buildQuoteParams_defaults _ _ _ _ Hq Hd) as (s0 & Hs0 & Hne).
        congruence.
    + apply buildQuoteParams_Err in Hq'. by apply params_never_throw in Hq'.
  - intros h Hh.
    assert (forall k d, quote_default k = Some d ->
              exists s, h !! k = Some s /\ s <> EmptyString) as Hdef.
    { intros k d Hd. unfold buildHealthParams in Hh.
      destruct (buildQuoteParams body) as [q|e] eqn:Hq; [|done].
      rewrite bind_Ok in Hh.
      destruct (buildQuoteParams_defaults _ _ _ _ Hq Hd) as (s & Hs & Hne).
      exists s. split; [|done]. apply (for_of_copy_Ok _ _ _ _ Hh). right.
      split; [|done]. left.
      apply whitelists_disjoint. by eapply quote_default_whitelisted. }
    destruct (buildHealthParams (VObj (VStr <$> h))) as [h'|e] eqn:Hh'.
    + f_equal. apply map_eq. intros k. apply lookup_eq_iff. intros s.
      rewrite (buildHealthParams_Ok _ _ Hh' k s).
      rewrite !stringified_params, own_params_undefined.
      split.
      * intros [[_ Hs]|[Hin [[Hs _]|[Hd Hno]]]]; [done|done|]. exfalso.
        destruct (Hdef _ _ Hd) as (s0 & Hs0 & Hne).
        destruct Hno; congruence.
      * intros Hs.
        pose proof (proj1 (buildHealthParams_Ok _ _ Hh k s) Hs) as [[Hin _]|[Hin _]].
        { left. done. }
        right. split; [done|]. left. split; [done|]. intros ->.
        destruct (quote_default k) as [d|] eqn:Hd; [|done]. exfalso.
        destruct (Hdef _ _ Hd) as (s0 & Hs0 & Hne). congruence.
    + unfold buildHealthParams in Hh'.
      destruct (buildQuoteParams (VObj (VStr <$> h))) as [q'|e'] eqn:Hq'.
      * rewrite bind_Ok in Hh'. apply for_of_copy_throws in Hh'.
        by apply params_never_throw in Hh'.
      * apply buildQuoteParams_Err in Hq'. by apply params_never_throw in Hq'.
Qed.

End Replay.

Section Aliases.
Context {num : Type} `{!JsNumber num}.
#[local] Abbreviation value := (value num).
Implicit Types (w : world num) (cfg : config).

(** X16.  In server.js [quote-compare] and [quote-sidebyside] are the
    same action: two bodies that name one and the other and agree on the
    whitelisted fields are handled identically, calls and reply. *)
Theorem hub_quote_aliases cfg now (b1 b2 : value) w
    (H1 : action_of b1 = VStr "quote-compare")
    (H2 : action_of b2 = VStr "quote-sidebyside")
    (Hagree : forall k, k ∈ fields -> own b1 k = own b2 k) :
  run w (Hub.post_root cfg now b1) = run w (Hub.post_root cfg now b2).
Proof.
  destruct (action_string_body _ _ H1) as [Hb1 _].
  destruct (action_string_body _ _ H2) as [Hb2 _].
  rewrite (Hub_quote_program cfg now b1) by by left.
  rewrite (Hub_quote_program cfg now b2) by by right.
  unfold buildCompulifeParams.
  by rewrite (for_of_copy_agree fields b1 b2 ∅ Hb1 Hb2 Hagree).
Qed.

End Aliases.

(** ** The AI route and the health report *)

Section AnthropicContracts.
Context {num : Type} `{!JsNumber num}.
#[local] Abbreviation value := (value num).
Implicit Types (w : world num) (body : value) (cfg : config).

Lemma unset_false s : s <> EmptyString -> unset s = false.
Proof. intros Hs. unfold unset. by case_decide. Qed.

(** What [POST /anthropic] does once it has chosen what to send. *)
Lemma run_anthropic_send cfg w (b : value) :
  run w (try_catch
           (r ← fetch (Hub.anthropic_request cfg b);
            v ← JSON_parse (text r);
            Ret (json v))
           (fun e => Ret (status_json 500 (obj [("error", VBool true);
                                               ("message", VStr (message e))]))))
    = ([Hub.anthropic_request cfg b],
       Ok (match fetch_answer w (Hub.anthropic_request cfg b) with
           | Err e => {| code := 500;
                         payload := obj [("error", VBool true);
                                         ("message", VStr (message e))] |}
           | Ok r =>
               match parse_answer w (text r) with
               | Ok v => {| code := 200; payload := v |}
               | Err e => {| code := 500;
                             payload := obj [("error", VBool true);
                                             ("message", VStr (message e))] |}
               end
           end)).
Proof.
  rewrite run_try_catch, run_bind, run_fetch.
  destruct (fetch_answer w _) as [r|e]; [|done].
  rewrite run_bind. unfold JSON_parse. simpl run at 1.
  rewrite run_lift. by destruct (parse_answer w (text r)).
Qed.

Lemma anthropic_run_lemma cfg w body
    (Hk : ANTHROPIC_API_KEY cfg <> EmptyString)
    (Hb : nullish body = false) :
  let failure (e : exn) : reply num :=
    {| code := 500;
       payload := obj [("error", VBool true); ("message", VStr (message e))] |} in
  let send (b : value) :=
    ([Hub.anthropic_request cfg b],
     Ok (match fetch_answer w (Hub.anthropic_request cfg b) with
         | Err e => failure e
         | Ok r =>
             match parse_answer w (text r) with
             | Ok v => {| code := 200; payload := v |}
             | Err e => failure e
             end
         end)) in
  run w (Hub.post_anthropic cfg body) =
    if truthy (own body "model") && truthy (own body "messages") then send body
    else if truthy (own body "image") then
      send (Hub.image_message (own body "image") (own body "media_type")
              (own body "prompt"))
    else ([], Ok {| code := 400;
                    payload := obj [("error", VStr "image (base64) required")] |}).
Proof.
  intros failure send. unfold Hub.post_anthropic.
  rewrite (unset_false _ Hk), !(get_own _ _ Hb), lift_bind.
  destruct (truthy (own body "model")) eqn:Hm; simpl andb.
  - rewrite lift_bind.
    destruct (truthy (own body "messages")) eqn:Hs.
    + apply run_anthropic_send.
    + rewrite !lift_bind.
      destruct (truthy (own body "image")) eqn:Hi; simpl negb; cbv iota.
      * apply run_anthropic_send.
      * done.
  - rewrite ret_bind, Hm, !lift_bind.
    destruct (truthy (own body "image")) eqn:Hi; simpl negb; cbv iota.
    + apply run_anthropic_send.
    + done.
Qed.


(** X18.  Whatever the configuration and the body, [POST /anthropic]
    always replies, with 200, 400 or 500, after at most one call; a call
    is a [POST] to the AI endpoint and carries the configured key, which
    is then not empty. *)
Theorem anthropic_shape cfg w body :
  exists c rep,
    run w (Hub.post_anthropic cfg body) = (c, Ok rep) /\
    (code rep = 200 \/ code rep = 400 \/ code rep = 500) /\
    (length c <= 1)%nat /\
    Forall (fun req : fetch_request num =>
              rq_method req = "POST" /\
              rq_url req = [Lit "https://api.anthropic.com/v1/messages"] /\
              ("x-api-key", ANTHROPIC_API_KEY cfg) ∈ rq_headers req /\
              ANTHROPIC_API_KEY cfg <> EmptyString) c.
Proof.
  destruct (decide (ANTHROPIC_API_KEY cfg = EmptyString)) as [Hk|Hk].
  { exists [], (status_json 500
                  (obj [("error", VStr "ANTHROPIC_API_KEY not configured")])).
    split; [unfold Hub.post_anthropic; by rewrite Hk|].
    split; [auto|]. split; [simpl; lia | constructor]. }
  destruct (nullish body) eqn:Hb.
  { eexists [], _.
    split; [unfold Hub.post_anthropic, get; rewrite (unset_false _ Hk), Hb;
            reflexivity|].
    split; [by right; right|]. split; [simpl; lia | constructor]. }
  pose proof (anthropic_run_lemma cfg w body Hk Hb) as Hrun.
  cbv zeta in Hrun. rewrite Hrun.
  assert (forall b : value,
            Forall (fun req : fetch_request num =>
                      rq_method req = "POST" /\
                      rq_url req = [Lit "https://api.anthropic.com/v1/messages"] /\
                      ("x-api-key", ANTHROPIC_API_KEY cfg) ∈ rq_headers req /\
                      ANTHROPIC_API_KEY cfg <> EmptyString)
                   [Hub.anthropic_request cfg b]) as Hreq.
  { intros b. constructor; [|constructor].
    split; [done|]. split; [done|]. split; [|done]. simpl. by left. }
  assert (forall b : value,
            let rep := match fetch_answer w (Hub.anthropic_request cfg b) with
                       | Err e => {| code := 500;
                                     payload := obj [("error", VBool true);
                                                     ("message", VStr (message e))] |}
                       | Ok r =>
                           match parse_answer w (text r) with
                           | Ok v => {| code := 200; payload := v |}
                           | Err e => {| code := 500;
                                         payload := obj [("error", VBool true);
                                                         ("message", VStr (message e))] |}
                           end
                       end in
            code rep = 200 \/ code rep = 400 \/ code rep = 500) as Hcode.
  { intros b. simpl. destruct (fetch_answer w _) as [r|e]; [|auto].
    destruct (parse_answer w (text r)); auto. }
  destruct (truthy (own body "model") && truthy (own body "messages")).
  { eexists _, _. split; [reflexivity|]. split; [apply Hcode|].
    split; [simpl; lia | apply Hreq]. }
  destruct (truthy (own body "image")).
  { eexists _, _. split; [reflexivity|]. split; [apply Hcode|].
    split; [simpl; lia | apply Hreq]. }
  eexists _, _. split; [reflexivity|]. split; [auto|].
  split; [simpl; lia | constructor].
Qed.

End AnthropicContracts.

Section HealthContracts.
Context {num : Type} `{!JsNumber num}.
#[local] Abbreviation value := (value num).
Implicit Types (w : world num) (body : value) (cfg : config).

Lemma unset_cases s :
  (s = EmptyString /\ unset s = true) \/ (s <> EmptyString /\ unset s = false).
Proof. unfold unset. case_decide; [by left | by right]. Qed.

Lemma health_flags cfg now :
  let flag k : value :=
    own (own (payload (Health.get_root cfg now)) "configured") k in
  flag "anthropic" = VBool (negb (unset (ANTHROPIC_API_KEY cfg))) /\
  flag "supabase" = VBool (negb (unset (SUPABASE_SERVICE_KEY cfg))) /\
  flag "googleVision" = VBool (negb (unset (GCP_VISION_API_KEY cfg))) /\
  flag "googleDrive"
    = VBool (negb (unset (GOOGLE_CLIENT_ID cfg))
             && negb (unset (GOOGLE_CLIENT_SECRET cfg))
             && negb (unset (GOOGLE_REFRESH_TOKEN cfg))).
Proof. intros flag. repeat split; by_vm. Qed.

(** X19.  The health report of [GET /] against the credential guards.
    The report is made of the constants read when the process starts,
    [cfg]; so are the guards of [POST /anthropic], of the upload to the
    drive and of the two storage routes, and for these the report and
    the guard agree: each flag is a boolean, the route stops at its guard
    (500, no call) when the flag is [false] and goes on past it when the
    flag is [true].  The guard of [POST /vision/ocr] reads the
    environment again at each request, [env]: it agrees with the
    [googleVision] flag when the key is the one read at the start, and
    with another key the route can run while the report says it is not
    configured. *)
Theorem health_flags_match_guards cfg env now w body
    (rest : prog num (reply num)) :
  let flag k : value :=
    own (own (payload (Health.get_root cfg now)) "configured") k in
  Forall (fun k => flag k = VBool false \/ flag k = VBool true)
    ["anthropic"; "googleDrive"; "googleVision"; "supabase"] /\
  (flag "anthropic" = VBool false <->
   run w (Hub.post_anthropic cfg body)
     = ([], Ok {| code := 500;
                  payload := obj [("error",
                                   VStr "ANTHROPIC_API_KEY not configured")] |})) /\
  (flag "googleDrive" = VBool false ->
   Hub.post_drive_upload cfg rest
     = Ret (Hub.not_configured "Google Drive not configured")) /\
  (flag "googleDrive" = VBool true ->
   Hub.post_drive_upload cfg rest = try_catch rest Hub.report) /\
  (flag "supabase" = VBool false ->
   Hub.post_supabase_upload cfg rest
     = Ret (Hub.not_configured "SUPABASE_SERVICE_KEY not configured") /\
   Hub.get_supabase_signed_url cfg rest
     = Ret (Hub.not_configured "SUPABASE_SERVICE_KEY not configured")) /\
  (flag "supabase" = VBool true ->
   Hub.post_supabase_upload cfg rest = try_catch rest Hub.report /\
   Hub.get_supabase_signed_url cfg rest = try_catch rest Hub.report) /\
  (GCP_VISION_API_KEY env = GCP_VISION_API_KEY cfg ->
   (flag "googleVision" = VBool false ->
    Hub.post_vision_ocr env rest
      = Ret (Hub.not_configured "GCP_VISION_API_KEY not configured")) /\
   (flag "googleVision" = VBool true ->
    Hub.post_vision_ocr env rest = try_catch rest Hub.report)) /\
  (flag "googleVision" = VBool false ->
   GCP_VISION_API_KEY env <> EmptyString ->
   Hub.post_vision_ocr env rest = try_catch rest Hub.report).
Proof.
  intros flag. destruct (health_flags cfg now) as (Ha & Hs & Hv & Hd).
  cbv zeta beta in Ha, Hs, Hv, Hd. subst flag. cbv beta.
  split.
  { repeat (apply Forall_cons; split;
              [cbv beta; rewrite ?Ha, ?Hs, ?Hv, ?Hd;
               match goal with
               | |- VBool ?b = _ \/ _ => destruct b; [by right|by left]
               end|]).
    by apply Forall_nil. }
  rewrite Ha, Hs, Hv, Hd. clear Ha Hs Hv Hd.
  split; [|split; [|split; [|split; [|split; [|split]]]]].
  - destruct (unset_cases (ANTHROPIC_API_KEY cfg)) as [[Hk Hu]|[Hk Hu]];
      rewrite Hu; simpl.
    + split; [intros _|done]. unfold Hub.post_anthropic. by rewrite Hu.
    + split; [done|]. intros Hrun. exfalso.
      destruct (nullish body) eqn:Hb.
      * unfold Hub.post_anthropic, get in Hrun. rewrite Hu, Hb in Hrun.
        apply (f_equal (fun p : list (fetch_request num) * result (reply num) =>
                          match p.2 with
                          | Ok r => match own (payload r) "error" with
                                    | VBool _ => true
                                    | _ => false
                                    end
                          | Err _ => false
                          end)) in Hrun.
        by destruct body.
      * rewrite (anthropic_run_lemma cfg w body Hk Hb) in Hrun. cbv zeta in Hrun.
        destruct (truthy (own body "model") && truthy (own body "messages"));
          [done|].
        destruct (truthy (own body "image")); [done|]. done.
  - unfold Hub.post_drive_upload.
    destruct (unset (GOOGLE_CLIENT_ID cfg)), (unset (GOOGLE_CLIENT_SECRET cfg)),
      (unset (GOOGLE_REFRESH_TOKEN cfg)); done.
  - unfold Hub.post_drive_upload.
    destruct (unset (GOOGLE_CLIENT_ID cfg)), (unset (GOOGLE_CLIENT_SECRET cfg)),
      (unset (GOOGLE_REFRESH_TOKEN cfg)); done.
  - unfold Hub.post_supabase_upload, Hub.get_supabase_signed_url.
    by destruct (unset (SUPABASE_SERVICE_KEY cfg)).
  - unfold Hub.post_supabase_upload, Hub.get_supabase_signed_url.
    by destruct (unset (SUPABASE_SERVICE_KEY cfg)).
  - intros Hsame. unfold Hub.post_vision_ocr. rewrite Hsame.
    by destruct (unset (GCP_VISION_API_KEY cfg)).
  - intros _ Hk. unfold Hub.post_vision_ocr. by rewrite (unset_false _ Hk).
Qed.

End HealthContracts.
(** ** The first relay, further *)

Section ProxyFacts.
Context {num : Type} `{!JsNumber num}.
#[local] Abbreviation value := (value num).
Implicit Types (w : world num) (body : value) (cfg : config).

Lemma run_Proxy_parse_or_raw w r :
  run w (Proxy.parse_or_raw r) =
    ([], Ok (match parse_answer w (text r) with
             | Ok v => v
             | Err _ => obj [("raw", VStr (text r));
                             ("status", VNum (Number_of_Z (status r)))]
             end)).
Proof. unfold Proxy.parse_or_raw. simpl. by destruct (parse_answer w (text r)). Qed.

Lemma run_Proxy_guarded w (rq : fetch_request num) (h : exn -> reply num) :
  exists rep,
    run w (try_catch (v ← (r ← fetch rq; Proxy.parse_or_raw r); Ret (json v))
             (fun e => Ret (h e)))
      = ([rq], Ok rep) /\
    (code rep = 200 \/ rep = h match fetch_answer w rq with
                               | Err e => e
                               | Ok _ => TypeError EmptyString
                               end).
Proof.
  rewrite run_try_catch, !run_bind, run_fetch.
  destruct (fetch_answer w rq) as [r|e].
  - rewrite run_Proxy_parse_or_raw. simpl. eexists. split; [reflexivity|by left].
  - simpl. eexists. split; [reflexivity|by right].
Qed.

(** Neither credential name can come out of a translation of the relay. *)
Lemma relay_credentials_not_whitelisted :
  ("COMPULIFEAUTHORIZATIONID" ∉ (required ++ optional)%list) /\
  ("REMOTE_IP" ∉ (required ++ optional)%list) /\
  ("COMPULIFEAUTHORIZATIONID" ∉ healthFields) /\
  ("REMOTE_IP" ∉ healthFields).
Proof. repeat split; by_compute. Qed.

Lemma private_payload_relay cfg (params : gmap string value) :
  params !! "COMPULIFEAUTHORIZATIONID" = None ->
  params !! "REMOTE_IP" = None ->
  Proxy.private_payload cfg params !! "COMPULIFEAUTHORIZATIONID"
    = Some (VStr (AUTH_ID cfg)) /\
  Proxy.private_payload cfg params !! "REMOTE_IP" = None.
Proof.
  intros Ha Hr. unfold Proxy.private_payload. split.
  - rewrite lookup_union_r by done. by rewrite lookup_insert_eq.
  - rewrite lookup_union_r by done. by rewrite lookup_insert_ne.
Qed.

Lemma quote_params_no_credentials body q :
  buildQuoteParams body = Ok q ->
  (VStr <$> q : gmap string value) !! "COMPULIFEAUTHORIZATIONID" = None /\
  (VStr <$> q : gmap string value) !! "REMOTE_IP" = None.
Proof.
  intros Hq. destruct relay_credentials_not_whitelisted as (H1 & H2 & _).
  rewrite !lookup_fmap. split.
  - destruct (q !! "COMPULIFEAUTHORIZATIONID") as [s|] eqn:Hs; [|done].
    apply (buildQuoteParams_Ok _ _ Hq) in Hs as [Hin _]. done.
  - destruct (q !! "REMOTE_IP") as [s|] eqn:Hs; [|done].
    apply (buildQuoteParams_Ok _ _ Hq) in Hs as [Hin _]. done.
Qed.

Lemma health_params_no_credentials body q :
  buildHealthParams body = Ok q ->
  (VStr <$> q : gmap string value) !! "COMPULIFEAUTHORIZATIONID" = None /\
  (VStr <$> q : gmap string value) !! "REMOTE_IP" = None.
Proof.
  intros Hq. destruct relay_credentials_not_whitelisted as (H1 & H2 & H3 & H4).
  rewrite !lookup_fmap. split.
  - destruct (q !! "COMPULIFEAUTHORIZATIONID") as [s|] eqn:Hs; [|done].
    apply (buildHealthParams_Ok _ _ Hq) in Hs as [[Hin _]|[Hin _]]; done.
  - destruct (q !! "REMOTE_IP") as [s|] eqn:Hs; [|done].
    apply (buildHealthParams_Ok _ _ Hq) in Hs as [[Hin _]|[Hin _]]; done.
Qed.

(** X20.  [POST /] of the first relay always replies, with 200, 400 or
    500, after at most one downstream call.  Every call is a [GET] on the
    quoting API without headers and without body, and an object embedded
    in its URL carries the configured [COMPULIFEAUTHORIZATIONID] and no
    [REMOTE_IP], whatever the inbound body holds under these names. *)
Theorem relay_root_shape cfg now body w :
  exists c rep,
    run w (Proxy.post_root cfg now body) = (c, Ok rep) /\
    (code rep = 200 \/ code rep = 400 \/ code rep = 500) /\
    (length c <= 1)%nat /\
    Forall (fun req : fetch_request num =>
              rq_method req = "GET" /\ rq_headers req = [] /\
              rq_body req = None /\
              head (rq_url req) = Some (Lit Proxy.API_BASE) /\
              forall payload : gmap string value,
                EncJSON (VObj payload) ∈ rq_url req ->
                payload !! "COMPULIFEAUTHORIZATIONID"
                  = Some (VStr (AUTH_ID cfg)) /\
                payload !! "REMOTE_IP" = None) c.
Proof.
  set (good := fun req : fetch_request num =>
              rq_method req = "GET" /\ rq_headers req = [] /\
              rq_body req = None /\
              head (rq_url req) = Some (Lit Proxy.API_BASE) /\
              forall payload : gmap string value,
                EncJSON (VObj payload) ∈ rq_url req ->
                payload !! "COMPULIFEAUTHORIZATIONID"
                  = Some (VStr (AUTH_ID cfg)) /\
                payload !! "REMOTE_IP" = None).
  set (h := fun err : exn =>
              status_json 500 (obj [("error", VStr "Internal proxy error");
                                    ("message", VStr (message err) : value)])).
  assert (forall e, exists c rep,
            run w (Ret (h e)) = (c, Ok rep) /\
            (code rep = 200 \/ code rep = 400 \/ code rep = 500) /\
            (length c <= 1)%nat /\ Forall good c) as Hreport.
  { intros e. exists [], (h e). split; [done|]. split; [auto|].
    split; [simpl; lia | constructor]. }
  assert (forall path,
            (forall v, EncJSON v ∉ path) ->
            exists c rep,
              run w (try_catch (v ← Proxy.proxyPublic path; Ret (json v))
                       (fun e => Ret (h e))) = (c, Ok rep) /\
              (code rep = 200 \/ code rep = 400 \/ code rep = 500) /\
              (length c <= 1)%nat /\ Forall good c) as Hpublic.
  { intros path Hno. unfold Proxy.proxyPublic.
    destruct (run_Proxy_guarded w (Proxy.GET (Lit Proxy.API_BASE :: path)) h)
      as (rep & Hr & Hc).
    exists [Proxy.GET (Lit Proxy.API_BASE :: path)], rep.
    split; [done|]. split; [destruct Hc as [?| ->]; auto|].
    split; [simpl; lia|]. constructor; [|constructor].
    repeat (split; [done|]). intros payload Hin. simpl in Hin.
    apply elem_of_cons in Hin as [?|Hin]; [done|]. by apply Hno in Hin. }
  assert (forall route (params : gmap string value),
            params !! "COMPULIFEAUTHORIZATIONID" = None ->
            params !! "REMOTE_IP" = None ->
            exists c rep,
              run w (try_catch (v ← Proxy.proxyPrivate cfg route params;
                                Ret (json v))
                       (fun e => Ret (h e))) = (c, Ok rep) /\
              (code rep = 200 \/ code rep = 400 \/ code rep = 500) /\
              (length c <= 1)%nat /\ Forall good c) as Hprivate.
  { intros route params Ha Hr. unfold Proxy.proxyPrivate.
    destruct (run_Proxy_guarded w
                (Proxy.GET [Lit Proxy.API_BASE; Lit route; Lit "/?COMPULIFE=";
                            EncJSON (VObj (Proxy.private_payload cfg params))]) h)
      as (rep & Hrun & Hc).
    eexists _, rep.
    split; [exact Hrun|]. split; [destruct Hc as [?| ->]; auto|].
    split; [simpl; lia|]. constructor; [|constructor].
    repeat (split; [done|]). intros payload Hin. simpl in Hin.
    repeat (apply elem_of_cons in Hin as [?|Hin]; [done|]).
    apply list_elem_of_singleton in Hin. injection Hin as ->.
    by apply private_payload_relay. }
  unfold Proxy.post_root, Proxy.unknown_action. cbv zeta.
  fold h. change (fun err : exn => Ret (h err)) with (fun e : exn => Ret (h e)).
  rewrite get_action, lift_bind.
  set (action := or_else (action_of body) (VStr "ping")).
  pose proof (body_or_empty_readable body) as Hb.
  set (b := or_else body (VObj ∅)) in *.
  destruct (is_string action "ping").
  { exists [], (json (Proxy.ping_payload cfg now)). split; [done|].
    split; [auto|]. split; [simpl; lia | constructor]. }
  destruct (is_string action "get-states").
  { apply Hpublic. intros v Hin. by apply list_elem_of_singleton in Hin. }
  destruct (is_string action "get-provinces").
  { apply Hpublic. intros v Hin. by apply list_elem_of_singleton in Hin. }
  destruct (is_string action "get-logos").
  { rewrite !(get_own _ _ Hb), !lift_bind.
    destruct (is_string (or_else (own b "size") (VStr "small")) "default").
    { rewrite ret_bind. apply Hpublic.
      intros v Hin. by apply list_elem_of_singleton in Hin. }
    prog_step; [|apply Hreport].
    apply Hpublic. intros v Hin.
    repeat (apply elem_of_cons in Hin as [?|Hin]; [done|]).
    by apply elem_of_nil in Hin. }
  destruct (is_string action "get-companies").
  { rewrite !(get_own _ _ Hb), !lift_bind.
    apply Hpublic. intros v Hin. by apply list_elem_of_singleton in Hin. }
  destruct (is_string action "get-categories").
  { apply Hprivate; apply lookup_empty. }
  destruct (is_string action "get-company-products").
  { rewrite !(get_own _ _ Hb), !lift_bind.
    apply Hprivate; destruct (truthy (own b "COMPINC"));
      by rewrite ?lookup_insert_ne, ?lookup_empty. }
  destruct (is_string action "quote-compare").
  { destruct (buildQuoteParams b) as [q|e] eqn:Hq; [|apply Hreport].
    rewrite lift_bind. by apply Hprivate; apply (quote_params_no_credentials b). }
  destruct (is_string action "quote-sidebyside").
  { destruct (buildQuoteParams b) as [q|e] eqn:Hq; [|apply Hreport].
    rewrite lift_bind. by apply Hprivate; apply (quote_params_no_credentials b). }
  destruct (is_string action "quote-health").
  { destruct (buildHealthParams b) as [q|e] eqn:Hq; [|apply Hreport].
    rewrite lift_bind. by apply Hprivate; apply (health_params_no_credentials b). }
  eexists [], _. split; [reflexivity|]. split; [simpl; auto|].
  split; [simpl; lia | constructor].
Qed.

End ProxyFacts.
(** ** The pass-through routes of the second hub *)

Section HubV2Facts.
Context {num : Type} `{!JsNumber num}.
#[local] Abbreviation value := (value num).
Implicit Types (w : world num) (body : value) (cfg : config).

Lemma run_forward_guarded w (rq : fetch_request num) label :
  run w (try_catch (HubV2.forward rq) (HubV2.failed label)) =
    ([rq],
     Ok (match fetch_answer w rq with
         | Err e => {| code := 500;
                       payload := obj [("error", VStr label);
                                       ("message", VStr (message e))] |}
         | Ok r =>
             match parse_answer w (text r) with
             | Ok data => {| code := status r; payload := data |}
             | Err e => {| code := 500;
                           payload := obj [("error", VStr label);
                                           ("message", VStr (message e))] |}
             end
         end)).
Proof.
  unfold HubV2.forward, HubV2.failed.
  rewrite run_try_catch, run_bind, run_fetch.
  destruct (fetch_answer w rq) as [r|e]; [|done].
  unfold JSON_parse. simpl. by destruct (parse_answer w (text r)).
Qed.

(** X21.  [POST /api/ghl/contacts] of the second hub is a pass-through:
    it makes exactly one [POST] to the contacts endpoint with the inbound
    body as it is, and replies with the status of the downstream and its
    parsed body, error statuses included; when the call fails or the
    answer is not JSON it replies 500 with the label of the route. *)
Theorem v2_contacts_passthrough cfg w body :
  let rq : fetch_request num :=
    {| rq_method := "POST";
       rq_url := [Lit "https://rest.gohighlevel.com/v1"; Lit "/contacts/"];
       rq_headers := [("Authorization", "Bearer " ++ GHL_API_KEY cfg);
                      ("Content-Type", "application/json")];
       rq_body := Some body |} in
  let failure (e : exn) : reply num :=
    {| code := 500;
       payload := obj [("error", VStr "GHL contacts error");
                       ("message", VStr (message e))] |} in
  run w (HubV2.post_ghl_contacts cfg body) =
    ([rq],
     Ok (match fetch_answer w rq with
         | Err e => failure e
         | Ok r =>
             match parse_answer w (text r) with
             | Ok data => {| code := status r; payload := data |}
             | Err e => failure e
             end
         end)).
Proof. intros rq failure. apply run_forward_guarded. Qed.

(** X22.  [POST /api/anthropic/messages] of the second hub: without a key
    it replies 500 and makes no call; with a key it makes one [POST] with
    the key in [x-api-key] and the inbound body as it is, and replies
    with the status and the parsed body of the downstream. *)
Theorem v2_anthropic_passthrough cfg w body :
  let rq : fetch_request num :=
    {| rq_method := "POST";
       rq_url := [Lit "https://api.anthropic.com/v1/messages"];
       rq_headers := [("Content-Type", "application/json");
                      ("x-api-key", ANTHROPIC_API_KEY cfg);
                      ("anthropic-version", "2023-06-01")];
       rq_body := Some body |} in
  let failure (e : exn) : reply num :=
    {| code := 500;
       payload := obj [("error", VStr "Anthropic proxy error");
                       ("message", VStr (message e))] |} in
  run w (HubV2.post_anthropic_messages cfg body) =
    if decide (ANTHROPIC_API_KEY cfg = EmptyString) then
      ([], Ok {| code := 500;
                 payload := obj [("error",
                                  VStr "ANTHROPIC_API_KEY not configured")] |})
    else
      ([rq],
       Ok (match fetch_answer w rq with
           | Err e => failure e
           | Ok r =>
               match parse_answer w (text r) with
               | Ok data => {| code := status r; payload := data |}
               | Err e => failure e
               end
           end)).
Proof.
  intros rq failure. unfold HubV2.post_anthropic_messages, unset.
  case_decide; [done|]. apply run_forward_guarded.
Qed.

(** X23.  [POST /api/v1/opportunities] of the second hub chooses its URL
    by [req.body.pipelineId || req.query.pipelineId]: a truthy id of the
    body wins over the one of the query string, and without any the
    plain endpoint is used.  A body that is [null] or [undefined], or
    such a query string when the body gives no id, cannot be read, and an
    id may have no string representation: the reply is then a 500 and no
    call is made.  Otherwise one [POST] is made with the inbound body as
    it is, and the reply has the status and the parsed body of the
    downstream. *)
Theorem v2_opportunities_run cfg w body query :
  let failure (e : exn) : reply num :=
    {| code := 500;
       payload := obj [("error", VStr "GHL opportunities error");
                       ("message", VStr (message e))] |} in
  let unreadable (v : value) :=
    ([] : list (fetch_request num),
     Ok (failure (TypeError
                    ("Cannot read properties of "
                     ++ (if is_undefined v then "undefined" else "null")
                     ++ " (reading 'pipelineId')")))) in
  let post (url : list (url_part num)) : fetch_request num :=
    {| rq_method := "POST"; rq_url := url;
       rq_headers := [("Authorization", "Bearer " ++ GHL_API_KEY cfg);
                      ("Content-Type", "application/json")];
       rq_body := Some body |} in
  let sent (url : list (url_part num)) :=
    ([post url],
     Ok (match fetch_answer w (post url) with
         | Err e => failure e
         | Ok r =>
             match parse_answer w (text r) with
             | Ok data => {| code := status r; payload := data |}
             | Err e => failure e
             end
         end)) in
  let base := "https://rest.gohighlevel.com/v1" in
  let of_id (id : value) :=
    match ToString id with
    | Ok s => sent [Lit base; Lit "/pipelines/"; Lit s; Lit "/opportunities/"]
    | Err e => ([], Ok (failure e))
    end in
  run w (HubV2.post_opportunities cfg body query) =
    if nullish body then unreadable body
    else if truthy (own body "pipelineId") then of_id (own body "pipelineId")
    else if nullish query then unreadable query
    else if truthy (own query "pipelineId") then of_id (own query "pipelineId")
    else sent [Lit base; Lit "/opportunities/"].
Proof.
  intros failure unreadable post sent base of_id.
  assert (forall id : value,
            truthy id = true ->
            run w (try_catch
                     (url ← lift (s ← ToString id;
                                  Ok [Lit HubV2.GHL_BASE; Lit "/pipelines/";
                                      Lit s; Lit "/opportunities/"]);
                      HubV2.forward
                        {| rq_method := "POST"; rq_url := url;
                           rq_headers := HubV2.ghlHeaders cfg;
                           rq_body := Some body |})
                     (HubV2.failed "GHL opportunities error"))
              = of_id id) as Hid.
  { intros id _. subst of_id. cbv beta.
    destruct (ToString id) as [s|e]; [|done].
    rewrite bind_Ok, lift_bind. apply run_forward_guarded. }
  unfold HubV2.post_opportunities, HubV2.opportunities_url, get.
  destruct (nullish body) eqn:Hb; [done|]. rewrite bind_Ok.
  destruct (truthy (own body "pipelineId")) eqn:Ha.
  { rewrite bind_Ok, Ha. by apply Hid. }
  destruct (nullish query) eqn:Hq; [done|]. rewrite bind_Ok.
  destruct (truthy (own query "pipelineId")) eqn:Hc.
  { by apply Hid. }
  rewrite lift_bind. apply run_forward_guarded.
Qed.

End HubV2Facts.

(** ** Concrete runs of the further properties *)

(** A contact rejected by the CRM with status 422 is answered with a
    200 that wraps the failure. *)
Lemma crm_failure_replied_200_witness :
  let body : value Z := obj [("email", VStr "not-an-email")] in
  outcome rejecting (Hub.post_ghl_contacts sample_config body)
    = Ok {| code := 200;
            payload := obj [("error", VBool true);
                            ("status", VNum 422);
                            ("message", VStr "Invalid email");
                            ("data", obj [("message", VStr "Invalid email")])] |}.
Proof.
  intros body.
  vm_cast_no_check
    (crm_failure_replied_200 sample_config rejecting body
       {| status := 422; text := rejected_text |}
       (obj [("message", VStr "Invalid email")])
       eq_refl eq_refl eq_refl eq_refl).
Defined.

(** A note with a forged [locationId] and another stray field is handled
    as the note without them. *)
Lemma crm_route_reads_only_witness :
  let rq1 := sample_request (obj [("body", VStr "Called"); ("userId", VStr "u1")])
               (VObj ∅) "c1" in
  let rq2 := sample_request (obj [("body", VStr "Called"); ("userId", VStr "u1");
                                  ("locationId", VStr "other");
                                  ("pinned", VBool true)])
               (obj [("debug", VStr "1")]) "c1" in
  Crm.handler sample_config Crm.PostContactNotes rq1
    = Crm.handler sample_config Crm.PostContactNotes rq2.
Proof.
  intros rq1 rq2.
  apply (crm_route_reads_only sample_config Crm.PostContactNotes rq1 rq2
           ["body"; "note"; "userId"]).
  - reflexivity.
  - reflexivity.
  - repeat (constructor; [by_vm|]). constructor.
  - constructor.
Defined.

(** An e-mail with a subject and an empty [html]: the subject is sent,
    the empty field and the stray field are not. *)
Lemma message_payload_keys_witness :
  let body : value Z :=
    obj [("type", VStr "Email"); ("contactId", VStr "c1");
         ("message", VStr "Your quote"); ("subject", VStr "Quote");
         ("html", VStr EmptyString); ("locationId", VStr "other")] in
  let payload : gmap string (value Z) :=
    list_to_map [("type", VStr "Email"); ("contactId", VStr "c1");
                 ("message", VStr "Your quote"); ("subject", VStr "Quote")] in
  Crm.message_of body = Ok payload /\
  payload !! "type" = Some (VStr "Email") /\
  payload !! "contactId" = Some (VStr "c1") /\
  payload !! "message" = Some (VStr "Your quote").
Proof.
  intros body payload.
  assert (Hm : Crm.message_of body = Ok payload) by by_vm.
  split; [exact Hm|].
  pose proof (message_payload_keys body payload Hm) as (H1 & H2 & H3 & _).
  split; [vm_cast_no_check H1|]. split; [vm_cast_no_check H2|].
  vm_cast_no_check H3.
Defined.

(** A call without contact: a formatted number is stripped to its dial
    characters and nothing is logged; a numeric phone gives a 500, still
    without a call. *)
Lemma phone_call_without_contact_witness :
  let rq := sample_request (obj [("phone", VStr "+1 (601) 555-0100")]) (VObj ∅)
              EmptyString in
  let rq' := sample_request (obj [("phone", VNum 6015550100)]) (VObj ∅)
               EmptyString in
  calls answering (Crm.post_phone_call sample_config rq) = [] /\
  outcome answering (Crm.post_phone_call sample_config rq)
    = Ok {| code := 200;
            payload :=
              obj [("success", VBool true); ("action", VStr "dial");
                   ("phone", VStr "+1 (601) 555-0100");
                   ("contactId", VUndef);
                   ("telUri", VStr "tel:+16015550100");
                   ("ghlLog", VNull)] |} /\
  calls answering (Crm.post_phone_call sample_config rq') = [] /\
  exists m,
    outcome answering (Crm.post_phone_call sample_config rq')
      = Ok {| code := 500;
              payload := obj [("error", VBool true); ("message", VStr m)] |}.
Proof.
  intros rq rq'.
  pose proof (phone_call_without_contact sample_config answering rq
                eq_refl eq_refl) as H.
  pose proof (phone_call_without_contact sample_config answering rq'
                eq_refl eq_refl) as H'.
  cbv zeta in H, H'.
  split; [exact (proj1 H)|]. split; [vm_cast_no_check (proj2 H)|].
  split; [exact (proj1 H')|]. vm_cast_no_check (proj2 H').
Defined.

(** A call with a contact and a numeric phone: the call is logged, then
    the request fails.  With a phone that has no string representation
    nothing is logged. *)
Lemma phone_call_logged_then_fails_witness :
  let rq := sample_request (obj [("contactId", VStr "c1");
                                 ("phone", VNum 6015550100)]) (VObj ∅)
              EmptyString in
  let rq' := sample_request (obj [("contactId", VStr "c1");
                                  ("phone", obj [("toString", VNum 1)])])
               (VObj ∅) EmptyString in
  (calls answering (Crm.post_phone_call sample_config rq)
     = [Hub.ghl_request sample_config "POST" [Lit "/conversations/messages"]
          (obj [("type", VStr "Call"); ("contactId", VStr "c1");
                ("message", VStr "Outbound call initiated to 6015550100")])] /\
   exists rep,
     outcome answering (Crm.post_phone_call sample_config rq) = Ok rep /\
     code rep = 500) /\
  run answering (Crm.post_phone_call sample_config rq')
    = ([], Ok {| code := 500;
                 payload :=
                   obj [("error", VBool true);
                        ("message",
                         VStr "Cannot convert object to primitive value")] |}).
Proof.
  intros rq rq'.
  assert (Hn : forall s', own (Crm.req_body rq) "phone" <> VStr s')
    by (intros s'; discriminate).
  assert (Hn' : forall s', own (Crm.req_body rq') "phone" <> VStr s')
    by (intros s'; discriminate).
  split.
  - vm_cast_no_check
      (phone_call_logged_then_fails sample_config answering rq
         eq_refl eq_refl eq_refl Hn).
  - vm_cast_no_check
      (phone_call_logged_then_fails sample_config answering rq'
         eq_refl eq_refl eq_refl Hn').
Defined.

(** The quote request of the README through server.js. *)
Lemma hub_quote_run_witness :
  run answering
      (Hub.post_root sample_config "2026-02-24T00:00:00.000Z" example_body)
    = ([Hub.private_request sample_config "/sidebyside"
          (VStr <$> list_to_map ten_fields)],
       Ok {| code := 200; payload := VArr [] |}).
Proof.
  vm_cast_no_check
    (hub_quote_run sample_config "2026-02-24T00:00:00.000Z" example_body
       answering (or_introl eq_refl)).
Defined.

(** [get-products] without a company. *)
Lemma hub_products_needs_company_witness :
  let body : value Z := obj [("action", VStr "get-products")] in
  run answering (Hub.post_root sample_config "2026-02-24T00:00:00.000Z" body)
    = ([], Ok {| code := 400;
                 payload := obj [("error", VStr "company required")] |}).
Proof.
  intros body.
  exact (hub_products_needs_company sample_config "2026-02-24T00:00:00.000Z"
           body answering eq_refl eq_refl).
Defined.

(** The README request with a stray field is translated as without it. *)
Lemma translation_reads_whitelist_only_witness :
  let fields_of : gmap string (value Z) :=
    list_to_map (prod_map id VStr <$> ten_fields) in
  let b1 : value Z := VObj fields_of in
  let b2 : value Z := VObj (<["REMOTE_IP" := VStr "10.0.0.1"]> fields_of) in
  buildCompulifeParams b1 = buildCompulifeParams b2 /\
  buildQuoteParams b1 = buildQuoteParams b2 /\
  buildHealthParams b1 = buildHealthParams b2.
Proof.
  intros fields_of b1 b2.
  assert (Hagree : forall k, k <> "REMOTE_IP" -> own b1 k = own b2 k).
  { intros k Hk. unfold b1, b2, own. by rewrite lookup_insert_ne. }
  assert (H1 : "REMOTE_IP" ∉ fields) by by_compute.
  assert (H2 : "REMOTE_IP" ∉ (required ++ optional)%list) by by_compute.
  assert (H3 : "REMOTE_IP" ∉ (required ++ optional ++ healthFields)%list)
    by by_compute.
  pose proof (translation_reads_whitelist_only b1 b2 eq_refl eq_refl)
    as (Ha & Hb & Hc).
  split; [|split].
  - apply Ha. intros k Hk. apply Hagree. intros ->. exact (H1 Hk).
  - apply Hb. intros k Hk. apply Hagree. intros ->. exact (H2 Hk).
  - apply Hc. intros k Hk. apply Hagree. intros ->. exact (H3 Hk).
Defined.

(** An empty [CompRating] still leaves a rating in the output. *)
Lemma defaults_always_present_witness :
  let body : value Z := obj [("CompRating", VStr EmptyString)] in
  let q : gmap string string :=
    list_to_map [("CompRating", "4"); ("SortOverride1", "A"); ("LANGUAGE", "E")] in
  buildQuoteParams body = Ok q /\
  exists s, q !! "CompRating" = Some s /\ s <> EmptyString.
Proof.
  intros body q.
  assert (Hq : buildQuoteParams body = Ok q) by by_vm.
  split; [exact Hq|].
  exact (proj1 (defaults_always_present body "CompRating" "4" eq_refl) q Hq).
Defined.

(** The translation of the README request, sent again, is unchanged. *)
Lemma translation_idempotent_witness :
  let p : gmap string string := list_to_map ten_fields in
  buildCompulifeParams (example_body : value Z) = Ok p /\
  buildCompulifeParams (VObj (VStr <$> p) : value Z) = Ok p.
Proof.
  intros p.
  assert (Hp : buildCompulifeParams (example_body : value Z) = Ok p) by by_vm.
  split; [exact Hp|].
  exact (proj1 (translation_idempotent example_body) p Hp).
Defined.

(** The two quote actions on the same fields. *)
Lemma hub_quote_aliases_witness :
  let now := "2026-02-24T00:00:00.000Z" in
  let fields_of : gmap string (value Z) :=
    list_to_map (prod_map id VStr <$> ten_fields) in
  let b1 : value Z := VObj (<["action" := VStr "quote-compare"]> fields_of) in
  let b2 : value Z := VObj (<["action" := VStr "quote-sidebyside"]> fields_of) in
  run answering (Hub.post_root sample_config now b1)
    = run answering (Hub.post_root sample_config now b2).
Proof.
  intros now fields_of b1 b2.
  assert (H1 : action_of b1 = VStr "quote-compare") by by_vm.
  assert (H2 : action_of b2 = VStr "quote-sidebyside") by by_vm.
  assert (Hno : "action" ∉ fields) by by_compute.
  apply (hub_quote_aliases sample_config now b1 b2 answering H1 H2).
  intros k Hk. unfold b1, b2, own.
  assert (k <> "action") as Hne by (intros ->; exact (Hno Hk)).
  by rewrite !lookup_insert_ne.
Defined.


(** Started without any credential, the report says so and the routes
    stop at their guards; once a key for the OCR service is in the
    environment that route runs, while the report is unchanged. *)
Lemma health_flags_match_guards_witness :
  let now := "2026-02-24T00:00:00.000Z" in
  let rest : prog Z (reply Z) :=
    Fetch (Hub.GET [Lit "https://www.googleapis.com/drive/v3/files"])
          (fun _ => Ret (json VNull)) in
  let flag k : value Z :=
    own (own (payload (Health.get_root default_config now)) "configured") k in
  flag "anthropic" = VBool false /\
  flag "googleDrive" = VBool false /\
  flag "googleVision" = VBool false /\
  run answering (Hub.post_anthropic default_config (VObj ∅))
    = ([], Ok {| code := 500;
                 payload := obj [("error",
                                  VStr "ANTHROPIC_API_KEY not configured")] |}) /\
  Hub.post_drive_upload default_config rest
    = Ret (Hub.not_configured "Google Drive not configured") /\
  Hub.post_vision_ocr default_config rest
    = Ret (Hub.not_configured "GCP_VISION_API_KEY not configured") /\
  Hub.post_vision_ocr sample_config rest = try_catch rest Hub.report.
Proof.
  intros now rest flag.
  assert (Ha : flag "anthropic" = VBool false) by by_vm.
  assert (Hd : flag "googleDrive" = VBool false) by by_vm.
  assert (Hv : flag "googleVision" = VBool false) by by_vm.
  assert (Hk : GCP_VISION_API_KEY sample_config <> EmptyString) by discriminate.
  pose proof (health_flags_match_guards default_config default_config now
                answering (VObj ∅) rest)
    as (_ & Hanth & Hdrive & _ & _ & _ & Hvision & _).
  pose proof (health_flags_match_guards default_config sample_config now
                answering (VObj ∅) rest)
    as (_ & _ & _ & _ & _ & _ & _ & Hlate).
  split; [exact Ha|]. split; [exact Hd|]. split; [exact Hv|].
  split; [exact (proj1 Hanth Ha)|]. split; [exact (Hdrive Hd)|].
  split; [exact (proj1 (Hvision eq_refl) Hv) | exact (Hlate Hv Hk)].
Defined.

(** A pipeline id in the body and another in the query string: the one
    of the body is used.  Without a body the reply is a 500 and no call
    is made. *)
Lemma v2_opportunities_run_witness :
  let body : value Z := obj [("pipelineId", VStr "p1"); ("name", VStr "Term 20")] in
  let query : value Z := obj [("pipelineId", VStr "p2")] in
  run answering (HubV2.post_opportunities sample_config body query)
    = ([{| rq_method := "POST";
           rq_url := [Lit "https://rest.gohighlevel.com/v1"; Lit "/pipelines/";
                      Lit "p1"; Lit "/opportunities/"];
           rq_headers := [("Authorization", "Bearer pit-key");
                          ("Content-Type", "application/json")];
           rq_body := Some body |}],
       Ok {| code := 200; payload := VArr [] |}) /\
  run answering (HubV2.post_opportunities sample_config VUndef query)
    = ([], Ok {| code := 500;
                 payload :=
                   obj [("error", VStr "GHL opportunities error");
                        ("message",
                         VStr "Cannot read properties of undefined (reading 'pipelineId')")] |}).
Proof.
  intros body query. split.
  - vm_cast_no_check (v2_opportunities_run sample_config answering body query).
  - vm_cast_no_check (v2_opportunities_run sample_config answering VUndef query).
Defined.
